(** * brFinance: the Banco Central (bacen) scraper, [search.py]

    A shallow embedding of [src/brFinance/scraper/bacen/search.py] and the
    properties of its three request classes:

    - [SearchAvailableCurrencies]  (the currency catalog),
    - [SearchCurrencyPrice]        (one currency over a date range),
    - [SearchAllCurrenciesPrices]  (all currencies on one day).

    The Python code is a thin layer over [requests], [BeautifulSoup] and
    [pandas].  Network replies and the two text parsers that live outside the
    repository (the HTML parser and the CSV tokenizer) are inputs of the
    model, gathered in the record [Env]; everything the repository's own code
    decides (assertions, exception handlers, the order of requests, the
    cell-level cleaning, the final sort) is modelled in full. *)

From Stdlib Require Import ZArith List String Ascii Bool Lia.
From Stdlib Require Import Sorting.Sorted Sorting.Permutation.
From Stdlib Require Import QArith.
Import ListNotations.

Local Open Scope string_scope.
Local Open Scope Z_scope.

(* ================================================================== *)
(** * Python values: characters, strings, integers                      *)
(* ================================================================== *)

(** ** Characters *)

Definition char_code (c : ascii) : Z := Z.of_N (N_of_ascii c).

Definition chr (n : Z) : ascii := ascii_of_N (Z.to_N n).

(** ASCII decimal digits, ['0'] .. ['9']. *)
Definition is_digit (c : ascii) : bool :=
  (48 <=? char_code c) && (char_code c <=? 57).

Definition digit_val (c : ascii) : option Z :=
  if is_digit c then Some (char_code c - 48) else None.

Definition digit_char (n : Z) : ascii := chr (48 + n).

(** C's [isspace] on ASCII: space, and [\t \n \v \f \r]. *)
Definition is_space (c : ascii) : bool :=
  (char_code c =? 32) || ((9 <=? char_code c) && (char_code c <=? 13)).

Definition is_sign (c : ascii) : bool :=
  (char_code c =? 43) || (char_code c =? 45).

(** ASCII lower-casing, as [str.lower] on the characters that matter here. *)
Definition lower_char (c : ascii) : ascii :=
  if (65 <=? char_code c) && (char_code c <=? 90) then chr (char_code c + 32)
  else c.

(** ** Strings *)

Fixpoint str_map (f : ascii -> ascii) (s : string) : string :=
  match s with
  | EmptyString => EmptyString
  | String c r => String (f c) (str_map f r)
  end.

Definition lower (s : string) : string := str_map lower_char s.

Fixpoint zeros (n : nat) : string :=
  match n with
  | O => ""
  | S k => String "0" (zeros k)
  end.

(** [needle in hay], Python's substring test on strings. *)
Fixpoint str_in (needle hay : string) : bool :=
  String.prefix needle hay ||
  match hay with
  | EmptyString => false
  | String _ r => str_in needle r
  end.

(** [s.replace(old, new)] for a one-character [old]: every occurrence is
    replaced. *)
Fixpoint replace_char (old : ascii) (new : string) (s : string) : string :=
  match s with
  | EmptyString => EmptyString
  | String c r =>
      if Ascii.eqb c old then new ++ replace_char old new r
      else String c (replace_char old new r)
  end.

(** [s.zfill(width)]: left-pads with ['0'] up to [width]; a leading sign
    stays in front of the padding; a string already long enough is returned
    unchanged. *)
Definition zfill (width : nat) (s : string) : string :=
  let n := String.length s in
  if (width <=? n)%nat then s
  else match s with
       | String c r =>
           if is_sign c then String c (zeros (width - n) ++ r)
           else zeros (width - n) ++ s
       | EmptyString => zeros width
       end.

(** ** Integers *)

(** Decimal digits of a non-negative integer, most significant first, with
    no leading zero.  [fuel] bounds the number of digits produced. *)
Fixpoint digits_of (fuel : nat) (n : Z) : string :=
  match fuel with
  | O => ""
  | S f =>
      if n <? 10 then String (digit_char n) ""
      else digits_of f (n / 10) ++ String (digit_char (n mod 10)) ""
  end.

(** A number has no more decimal digits than binary ones. *)
Definition digits_fuel (n : Z) : nat := S (Z.to_nat (Z.log2 n)).

Definition nat_digits (n : Z) : string := digits_of (digits_fuel n) n.

(** [str(n)] for a Python [int]. *)
Definition str_int (n : Z) : string :=
  if n <? 0 then String "-" (nat_digits (- n)) else nat_digits n.

(** [n] printed on exactly [w] digits, zero-padded (C's [%0wd] for
    [0 <= n < 10^w]). *)
Fixpoint fmt_width (w : nat) (n : Z) : string :=
  match w with
  | O => ""
  | S k => fmt_width k (n / 10) ++ String (digit_char (n mod 10)) ""
  end.

(* ================================================================== *)
(** * Calendar dates                                                    *)
(* ================================================================== *)

(** [datetime.date]: a proleptic Gregorian year, month and day. *)
Record date : Type := mkdate { year : Z; month : Z; day : Z }.

Definition is_leap (y : Z) : bool :=
  ((y mod 4 =? 0) && negb (y mod 100 =? 0)) || (y mod 400 =? 0).

Definition days_in_month (y m : Z) : Z :=
  if m =? 2 then (if is_leap y then 29 else 28)
  else if (m =? 4) || (m =? 6) || (m =? 9) || (m =? 11) then 30
  else 31.

(** The dates [datetime.date(y, m, d)] accepts. *)
Definition date_valid (d : date) : bool :=
  (1 <=? year d) && (year d <=? 9999) &&
  (1 <=? month d) && (month d <=? 12) &&
  (1 <=? day d) && (day d <=? days_in_month (year d) (month d)).

(** Comparison of dates is lexicographic on (year, month, day). *)
Definition date_compare (a b : date) : comparison :=
  match year a ?= year b with
  | Eq => match month a ?= month b with
          | Eq => day a ?= day b
          | c => c
          end
  | c => c
  end.

Definition date_ltb (a b : date) : bool :=
  match date_compare a b with Lt => true | _ => false end.

Definition date_leb (a b : date) : bool :=
  match date_compare a b with Gt => false | _ => true end.

Definition date_eqb (a b : date) : bool :=
  match date_compare a b with Eq => true | _ => false end.

(** [datetime.datetime] (naive): a date and the time of day, here in
    microseconds since midnight. *)
Record datetime : Type := mkdatetime { dt_date : date; dt_micros : Z }.

Definition datetime_leb (a b : datetime) : bool :=
  match date_compare (dt_date a) (dt_date b) with
  | Lt => true
  | Eq => dt_micros a <=? dt_micros b
  | Gt => false
  end.

(** The two classes a caller can pass where the source annotates
    [datetime.date] ([datetime.datetime] is a subclass of it). *)
Inductive pydate : Type :=
| PDate (d : date)
| PDateTime (t : datetime).

Definition pydate_date (x : pydate) : date :=
  match x with
  | PDate d => d
  | PDateTime t => dt_date t
  end.

(** [strftime] for the two formats of the source.  [%d] and [%m] print two
    digits, [%Y] the year on four (for a year below 1000 the C library
    decides whether [%Y] is padded; the model pads). *)
Definition strftime_d_m_Y (d : date) : string :=
  fmt_width 2 (day d) ++ "/" ++ fmt_width 2 (month d) ++ "/" ++
  fmt_width 4 (year d).

Definition strftime_Ymd (d : date) : string :=
  fmt_width 4 (year d) ++ fmt_width 2 (month d) ++ fmt_width 2 (day d).

(* ================================================================== *)
(** * pandas timestamps and [to_datetime]                               *)
(* ================================================================== *)

(** An entry of a [DatetimeIndex]: a timestamp or the marker [NaT].  All
    timestamps of this program are midnights, so a date stands for them. *)
Inductive Timestamp : Type :=
| NaT
| Stamp (d : date).

(** A [DatetimeIndex] stores signed 64-bit nanoseconds since 1970-01-01;
    the midnights it can hold run from 1677-09-22 to 2262-04-11. *)
Definition Timestamp_min_day : date := mkdate 1677 9 22.
Definition Timestamp_max_day : date := mkdate 2262 4 11.

Definition in_bounds (d : date) : bool :=
  date_leb Timestamp_min_day d && date_leb d Timestamp_max_day.

(** ** The format matcher behind [to_datetime(..., format=...)]

    pandas compiles the format into a regular expression, one group per
    directive, and matches it at the start of the text:
<<
      %d   (3[0-1]|[1-2]\d|0[1-9]|[1-9]| [1-9])
      %m   (1[0-2]|0[1-9]|[1-9])
      %Y   (\d\d\d\d)
>>
    Alternatives are tried from left to right with backtracking; the first
    complete match wins, and the text is rejected when that match leaves
    characters unread. *)

Inductive directive : Type :=
| Dir_d
| Dir_m
| Dir_Y
| Dir_lit (c : ascii).

Fixpoint compile_format (fmt : string) : list directive :=
  match fmt with
  | EmptyString => []
  | String "%" (String "d" r) => Dir_d :: compile_format r
  | String "%" (String "m" r) => Dir_m :: compile_format r
  | String "%" (String "Y" r) => Dir_Y :: compile_format r
  | String c r => Dir_lit c :: compile_format r
  end.

Definition one_digit (s : string) : option (Z * string) :=
  match s with
  | String c r =>
      match digit_val c with
      | Some a => Some (a, r)
      | None => None
      end
  | EmptyString => None
  end.

Definition two_digits (s : string) : option (Z * string) :=
  match one_digit s with
  | Some (a, r) =>
      match one_digit r with
      | Some (b, r') => Some (10 * a + b, r')
      | None => None
      end
  | None => None
  end.

Definition four_digits (s : string) : option (Z * string) :=
  match two_digits s with
  | Some (a, r) =>
      match two_digits r with
      | Some (b, r') => Some (100 * a + b, r')
      | None => None
      end
  | None => None
  end.

(** Keeps a candidate when its value passes [ok]. *)
Definition alt (ok : Z -> bool) (x : option (Z * string)) : list (Z * string) :=
  match x with
  | Some (v, r) => if ok v then [(v, r)] else []
  | None => []
  end.

(** The candidates of [%d] at the head of [s], in the order the regular
    expression tries them.  The three two-digit alternatives [3[0-1]],
    [[1-2]\d] and [0[1-9]] exclude one another and together accept exactly
    the two-digit texts of 1..31. *)
Definition match_d (s : string) : list (Z * string) :=
  (alt (fun v => (1 <=? v) && (v <=? 31)) (two_digits s) ++
   alt (fun v => 1 <=? v) (one_digit s) ++
   match s with
   | String " " r => alt (fun v => 1 <=? v) (one_digit r)
   | _ => []
   end)%list.

(** The candidates of [%m]: [1[0-2]] and [0[1-9]] (the two-digit texts of
    1..12), then [[1-9]]. *)
Definition match_m (s : string) : list (Z * string) :=
  (alt (fun v => (1 <=? v) && (v <=? 12)) (two_digits s) ++
   alt (fun v => 1 <=? v) (one_digit s))%list.

Definition match_Y (s : string) : list (Z * string) :=
  alt (fun _ => true) (four_digits s).

(** Fields found so far, as (day, month, year). *)
Record fields : Type := mkfields { f_day : Z; f_month : Z; f_year : Z }.

(** [strptime]'s defaults for fields the format does not mention. *)
Definition default_fields : fields := mkfields 1 1 1900.

(** All ways of matching [fmt] at the head of [s], most preferred first,
    each with the text it leaves unread. *)
Fixpoint regex_match (fmt : list directive) (acc : fields) (s : string)
  : list (fields * string) :=
  match fmt with
  | [] => [(acc, s)]
  | Dir_d :: fmt' =>
      flat_map (fun '(v, r) =>
                  regex_match fmt' (mkfields v (f_month acc) (f_year acc)) r)
               (match_d s)
  | Dir_m :: fmt' =>
      flat_map (fun '(v, r) =>
                  regex_match fmt' (mkfields (f_day acc) v (f_year acc)) r)
               (match_m s)
  | Dir_Y :: fmt' =>
      flat_map (fun '(v, r) =>
                  regex_match fmt' (mkfields (f_day acc) (f_month acc) v) r)
               (match_Y s)
  | Dir_lit c :: fmt' =>
      match s with
      | String c' r => if Ascii.eqb c' c then regex_match fmt' acc r else []
      | EmptyString => []
      end
  end.

(** One text under [errors='coerce']: a text that does not match, that
    matches with characters left over, that names no calendar day, or whose
    day lies outside the index's range, yields [NaT]. *)
Definition strptime_coerce (fmt : string) (s : string) : Timestamp :=
  match regex_match (compile_format fmt) default_fields s with
  | (f, EmptyString) :: _ =>
      let d := mkdate (f_year f) (f_month f) (f_day f) in
      if date_valid d && in_bounds d then Stamp d else NaT
  | _ => NaT
  end.

(* ================================================================== *)
(** * Exceptions and results                                            *)
(* ================================================================== *)

(** The exception classes met in this module. *)
Inductive exc_class : Type :=
| AssertionError
| Exception          (* a bare [Exception(...)], as raised at line 45 *)
| ValueError
| TypeError
| KeyError
| ParserError        (* pandas.errors.ParserError *)
| HTTPError          (* urllib.error.HTTPError *)
| URLError           (* urllib.error.URLError *)
| ConnectionError    (* requests.exceptions.ConnectionError *)
| KeyboardInterrupt. (* a BaseException that is not an Exception *)

(** An exception object: its class and the text [str(exc)] returns. *)
Record PyExc : Type := mkexc { exc_cls : exc_class; exc_str : string }.

(** What [except Exception] catches. *)
Definition is_Exception (c : exc_class) : bool :=
  match c with
  | KeyboardInterrupt => false
  | _ => true
  end.

(** What [except ParserError] catches ([ParserError] has no subclass). *)
Definition is_ParserError (c : exc_class) : bool :=
  match c with
  | ParserError => true
  | _ => false
  end.

(** [str] of an [HTTPError]: ["HTTP Error <code>: <reason>"], the reason
    being the phrase of the server's status line. *)
Definition http_error (code : Z) (reason : string) : PyExc :=
  mkexc HTTPError ("HTTP Error " ++ str_int code ++ ": " ++ reason).

Inductive Result (A : Type) : Type :=
| Ok (a : A)
| Raised (e : PyExc).
Arguments Ok {A} a.
Arguments Raised {A} e.

(* ================================================================== *)
(** * Floats and [to_numeric]                                           *)
(* ================================================================== *)

(** A finite float is kept as the decimal number [mantissa * 10^exponent]
    that its text denotes, in lowest form (the mantissa does not end in 0).
    This is the number [repr] prints back for any text of at most 15
    significant digits; the rounding to binary64 is not modelled, nor is the
    sign of zero. *)
Record decimal : Type := mkdec { mantissa : Z; exponent : Z }.

Inductive pyfloat : Type :=
| Fin (d : decimal)
| NaN
| Inf (negative : bool).

Fixpoint strip_zeros (fuel : nat) (m e : Z) : decimal :=
  match fuel with
  | O => mkdec m e
  | S f => if m mod 10 =? 0 then strip_zeros f (m / 10) (e + 1) else mkdec m e
  end.

Definition normal (m e : Z) : decimal :=
  if m =? 0 then mkdec 0 0 else strip_zeros (digits_fuel (Z.abs m)) m e.

(** The rational number a decimal stands for. *)
Definition dec_value (d : decimal) : Q :=
  if 0 <=? exponent d
  then inject_Z (mantissa d * 10 ^ exponent d)
  else Qmake (mantissa d) (Z.to_pos (10 ^ (- exponent d))).

(** ** Parsing one text ([precise_xstrtod] with [decimal='.'], [sci='e']) *)

Fixpoint skip_spaces (s : string) : string :=
  match s with
  | String c r => if is_space c then skip_spaces r else s
  | EmptyString => s
  end.

(** An optional sign; [true] when it is a minus. *)
Definition read_sign (s : string) : bool * string :=
  match s with
  | String "-" r => (true, r)
  | String "+" r => (false, r)
  | _ => (false, s)
  end.

(** A run of digits, accumulated onto [acc]: the value, how many digits
    were read, and the rest of the text. *)
Fixpoint read_digits (s : string) (acc : Z) (n : nat) : Z * nat * string :=
  match s with
  | String c r =>
      match digit_val c with
      | Some d => read_digits r (10 * acc + d) (S n)
      | None => (acc, n, s)
      end
  | EmptyString => (acc, n, s)
  end.

(** The exponent part: absent, or [e]/[E], an optional sign and at least
    one digit. *)
Definition read_exponent (s : string) : option (Z * string) :=
  match s with
  | String c r =>
      if Ascii.eqb (lower_char c) "e" then
        let '(neg, r1) := read_sign r in
        let '(ev, n, r2) := read_digits r1 0 0 in
        if (n =? 0)%nat then None
        else Some (if neg then - ev else ev, r2)
      else Some (0, s)
  | EmptyString => Some (0, s)
  end.

(** Leading blanks, sign, digits with an optional point (at least one
    digit in all), exponent, trailing blanks, end of text.

    Limits of this definition.  The result is the decimal the text spells,
    of any size and any number of digits.  The C parser behind
    [pd.to_numeric] computes in binary64 instead: it accumulates at most 17
    digits, scales by a power of ten, rounds, and fails on a magnitude
    beyond about 1.8e308.  The two agree, up to naming a float by its
    shortest decimal, on a text of at most 15 digits whose exponent part is
    absent or small (the digits are then an exact binary64 integer and the
    power of ten is exact, so the single division or product is correctly
    rounded, and [repr] prints the decimal back).  On a longer digit
    string, or a magnitude outside the binary64 range, the value given
    here is the decimal of the text and not the float pandas returns. *)
Definition to_double (s : string) : option pyfloat :=
  let '(neg, s1) := read_sign (skip_spaces s) in
  let '(ip, ni, s2) := read_digits s1 0 0 in
  let '(m, nf, s3) :=
    match s2 with
    | String "." r => read_digits r ip 0
    | _ => (ip, 0%nat, s2)
    end in
  if (ni + nf =? 0)%nat then None
  else match read_exponent s3 with
       | None => None
       | Some (ev, s4) =>
           match skip_spaces s4 with
           | EmptyString =>
               Some (Fin (normal (if neg then - m else m) (ev - Z.of_nat nf)))
           | _ => None
           end
       end.

(** [floatify]: a number, or one of the spellings of nan and infinity in
    any letter case. *)
Definition floatify (s : string) : option pyfloat :=
  match to_double s with
  | Some x => Some x
  | None =>
      let t := lower s in
      if (t =? "nan")%string then Some NaN
      else if (t =? "inf")%string || (t =? "+inf")%string ||
              (t =? "infinity")%string || (t =? "+infinity")%string
           then Some (Inf false)
      else if (t =? "-inf")%string || (t =? "-infinity")%string
           then Some (Inf true)
      else None
  end.

(** One element of a text column under [to_numeric]: the empty text is a
    missing value; [None] here means the text cannot be parsed. *)
Definition to_numeric_item (s : string) : option pyfloat :=
  if (s =? "")%string then Some NaN else floatify s.

Inductive errors_mode : Type :=
| errors_raise      (* the default of [pd.to_numeric] *)
| errors_coerce.

Definition quote : string := String (chr 34) "".

Definition unable_to_parse (s : string) (pos : Z) : PyExc :=
  mkexc ValueError
        ("Unable to parse string " ++ quote ++ s ++ quote ++
         " at position " ++ str_int pos).

(** [pd.to_numeric(texts, errors=...)] from position [pos] on.  Under
    [errors_raise] the first text that cannot be parsed raises
    [ValueError]; under [errors_coerce] it becomes [NaN]. *)
Fixpoint to_numeric_from (errors : errors_mode) (pos : Z) (l : list string)
  : Result (list pyfloat) :=
  match l with
  | [] => Ok []
  | s :: l' =>
      match to_numeric_item s, errors with
      | None, errors_raise => Raised (unable_to_parse s pos)
      | parsed, _ =>
          match to_numeric_from errors (pos + 1) l' with
          | Ok xs => Ok (match parsed with Some x => x | None => NaN end :: xs)
          | Raised e => Raised e
          end
      end
  end.

Definition to_numeric (errors : errors_mode) (l : list string)
  : Result (list pyfloat) :=
  to_numeric_from errors 0 l.

(** ** [repr] of a float, as [astype(str)] prints it *)

Definition repr_float (x : pyfloat) : string :=
  match x with
  | NaN => "nan"
  | Inf false => "inf"
  | Inf true => "-inf"
  | Fin d =>
      let m := mantissa d in
      if m =? 0 then "0.0"
      else
        let ds := nat_digits (Z.abs m) in
        let n := Z.of_nat (String.length ds) in
        let decpt := n + exponent d in
        (if m <? 0 then "-" else "") ++
        (if (-4 <? decpt) && (decpt <=? 16) then
           if decpt <=? 0 then "0." ++ zeros (Z.to_nat (- decpt)) ++ ds
           else if n <=? decpt then ds ++ zeros (Z.to_nat (decpt - n)) ++ ".0"
           else substring 0 (Z.to_nat decpt) ds ++ "." ++
                substring (Z.to_nat decpt) (Z.to_nat (n - decpt)) ds
         else
           let e := decpt - 1 in
           substring 0 1 ds ++
           (if 1 <? n then "." ++ substring 1 (Z.to_nat (n - 1)) ds else "") ++
           "e" ++ (if e <? 0 then "-" else "+") ++
           (if Z.abs e <? 10 then "0" else "") ++ nat_digits (Z.abs e))
  end.

(* ================================================================== *)
(** * Cells and data frames                                             *)
(* ================================================================== *)

(** A Python object held by a frame. *)
Inductive Cell : Type :=
| VStr (s : string)
| VInt (n : Z)
| VFloat (x : pyfloat)
| VTime (t : Timestamp)
| VNone.

Definition str_timestamp (t : Timestamp) : string :=
  match t with
  | NaT => "NaT"
  | Stamp d =>
      fmt_width 4 (year d) ++ "-" ++ fmt_width 2 (month d) ++ "-" ++
      fmt_width 2 (day d)
  end.

(** [str(x)], which is also what [Series.astype(str)] applies to each
    element. *)
Definition py_str (x : Cell) : string :=
  match x with
  | VStr s => s
  | VInt n => str_int n
  | VFloat f => repr_float f
  | VTime t => str_timestamp t
  | VNone => "None"
  end.

(** A [pandas.DataFrame]: the name of the index, the column labels, and
    the rows as pairs of a row label (the index entry) and the cells in
    column order.  [K] is the type of the index entries. *)
Record DataFrame (K : Type) : Type := mkDataFrame {
  index_name : option string;
  columns : list string;
  rows : list (K * list Cell)
}.
Arguments mkDataFrame {K} index_name columns rows.
Arguments index_name {K} d.
Arguments columns {K} d.
Arguments rows {K} d.

Definition index {K} (df : DataFrame K) : list K := map fst (rows df).

(** [pd.DataFrame(columns=cols)]: no row, default integer index. *)
Definition empty_frame (cols : list string) : DataFrame Cell :=
  mkDataFrame None cols [].

(** The labels of a frame, the index's name first when it has one. *)
Definition schema {K} (df : DataFrame K) : list string :=
  match index_name df with
  | Some n => n :: columns df
  | None => columns df
  end.

Fixpoint position (c : string) (cols : list string) : option nat :=
  match cols with
  | [] => None
  | c' :: cols' =>
      if (c' =? c)%string then Some O
      else match position c cols' with
           | Some i => Some (S i)
           | None => None
           end
  end.

Fixpoint set_nth {A} (i : nat) (x : A) (l : list A) : list A :=
  match l, i with
  | [], _ => []
  | _ :: l', O => x :: l'
  | y :: l', S j => y :: set_nth j x l'
  end.

Fixpoint remove_nth {A} (i : nat) (l : list A) : list A :=
  match l, i with
  | [], _ => []
  | _ :: l', O => l'
  | y :: l', S j => y :: remove_nth j l'
  end.

Definition key_error (c : string) : PyExc := mkexc KeyError c.

(** [df[c]]: the cells of column [c], top to bottom. *)
Definition getitem {K} (df : DataFrame K) (c : string) : Result (list Cell) :=
  match position c (columns df) with
  | Some i => Ok (map (fun r => nth i (snd r) (VFloat NaN)) (rows df))
  | None => Raised (key_error c)
  end.

Definition length_mismatch : PyExc :=
  mkexc ValueError "Length of values does not match length of index".

(** [df[c] = vals]: replaces column [c], or appends it when the frame has
    no such column. *)
Definition setitem {K} (df : DataFrame K) (c : string) (vals : list Cell)
  : Result (DataFrame K) :=
  if (List.length vals =? List.length (rows df))%nat then
    match position c (columns df) with
    | Some i =>
        Ok (mkDataFrame (index_name df) (columns df)
              (map (fun '(r, v) => (fst r, set_nth i v (snd r)))
                   (combine (rows df) vals)))
    | None =>
        Ok (mkDataFrame (index_name df) (columns df ++ [c])%list
              (map (fun '(r, v) => (fst r, (snd r ++ [v])%list))
                   (combine (rows df) vals)))
    end
  else Raised length_mismatch.

(** [df.index = labels]: the new index carries no name. *)
Definition set_axis {K K'} (df : DataFrame K) (labels : list K')
  : Result (DataFrame K') :=
  if (List.length labels =? List.length (rows df))%nat then
    Ok (mkDataFrame None (columns df)
          (map (fun '(r, k) => (k, snd r)) (combine (rows df) labels)))
  else Raised (mkexc ValueError "Length mismatch").

(** [df.set_index(c, drop=True, append=False, inplace=True)]: column [c]
    becomes the index and leaves the columns. *)
Definition set_index {K} (df : DataFrame K) (c : string)
  : Result (DataFrame Cell) :=
  match position c (columns df) with
  | Some i =>
      Ok (mkDataFrame (Some c) (remove_nth i (columns df))
            (map (fun r => (nth i (snd r) (VFloat NaN), remove_nth i (snd r)))
                 (rows df)))
  | None => Raised (key_error c)
  end.

(** ** Sorting by a datetime index *)

Definition isna (t : Timestamp) : bool :=
  match t with
  | NaT => true
  | Stamp _ => false
  end.

(** The order [sort_index] produces: dates ascending, [NaT] after every
    date ([na_position='last'], the default). *)
Definition ts_leb (a b : Timestamp) : bool :=
  match a, b with
  | _, NaT => true
  | NaT, Stamp _ => false
  | Stamp x, Stamp y => date_leb x y
  end.

Fixpoint insert_row {V} (r : Timestamp * V) (l : list (Timestamp * V))
  : list (Timestamp * V) :=
  match l with
  | [] => [r]
  | r' :: l' =>
      if ts_leb (fst r) (fst r') then r :: l else r' :: insert_row r l'
  end.

Fixpoint sort_rows {V} (l : list (Timestamp * V)) : list (Timestamp * V) :=
  match l with
  | [] => []
  | r :: l' => insert_row r (sort_rows l')
  end.

(** [df.sort_index(inplace=True)]: pandas sorts the rows whose label is not
    [NaT] and puts the [NaT] rows after them, in the order they had.  The
    order among rows of equal date is whatever numpy's quicksort leaves;
    the insertion sort here fixes one such order, and nothing below relies
    on which. *)
Definition sort_index (df : DataFrame Timestamp) : DataFrame Timestamp :=
  mkDataFrame (index_name df) (columns df)
    (sort_rows (filter (fun r => negb (isna (fst r))) (rows df)) ++
     filter (fun r => isna (fst r)) (rows df))%list.

(** [pd.to_datetime(texts, format=fmt, errors='coerce')] on texts. *)
Definition to_datetime_coerce (fmt : string) (texts : list string)
  : list Timestamp :=
  map (strptime_coerce fmt) texts.

(** The same on a column of arbitrary cells: missing values give [NaT],
    numbers are parsed from their [str], timestamps are kept. *)
Definition to_datetime_cell (fmt : string) (x : Cell) : Timestamp :=
  match x with
  | VStr s => strptime_coerce fmt s
  | VInt n => strptime_coerce fmt (str_int n)
  | VFloat (Fin d) => strptime_coerce fmt (repr_float (Fin d))
  | VFloat _ => NaT
  | VTime t => t
  | VNone => NaT
  end.

(* ================================================================== *)
(** * Effects: the outside world                                        *)
(* ================================================================== *)

(** What a run has done so far: the URLs it requested and the lines it
    printed, oldest first. *)
Record World : Type := mkWorld { sent : list string; stdout : list string }.

(** A computation that may raise and that leaves a trace in the world.
    The trace survives an exception. *)
Definition M (A : Type) : Type := World -> Result A * World.

Definition ret {A} (a : A) : M A := fun w => (Ok a, w).

Definition raise {A} (e : PyExc) : M A := fun w => (Raised e, w).

Definition bind {A B} (m : M A) (k : A -> M B) : M B :=
  fun w =>
    match m w with
    | (Ok a, w') => k a w'
    | (Raised e, w') => (Raised e, w')
    end.

Notation "x <- m ;; k" := (bind m (fun x => k))
  (at level 61, m at next level, right associativity).
Notation "m ;; k" := (bind m (fun _ => k))
  (at level 61, right associativity).

(** A pure step that may raise. *)
Definition lift {A} (r : Result A) : M A := fun w => (r, w).

(** [try: body / except <classes>: handler]; an exception of another class
    passes through. *)
Definition try_except {A} (body : M A) (catches : exc_class -> bool)
           (handler : PyExc -> M A) : M A :=
  fun w =>
    match body w with
    | (Raised e, w') =>
        if catches (exc_cls e) then handler e w' else (Raised e, w')
    | done => done
    end.

(** [assert cond, msg], as the interpreter runs it by default (under
    [python -O] the statement is removed). *)
Definition assert_ (cond : bool) (msg : string) : M unit :=
  if cond then ret tt else raise (mkexc AssertionError msg).

Definition print (line : string) : M unit :=
  fun w => (Ok tt, mkWorld (sent w) (stdout w ++ [line])).

(** A run from the fresh world. *)
Definition fresh : World := mkWorld [] [].

(** ** HTML documents, as BeautifulSoup presents them *)

#[warnings="-register-all"]
Inductive Node : Type :=
| Text (s : string)
| Tag (name : string) (attrs : list (string * string)) (children : list Node).

(** The element itself when it is named [name], then the matches below it,
    in document order. *)
Fixpoint find_in (name : string) (n : Node) : list Node :=
  match n with
  | Text _ => []
  | Tag nm _ kids =>
      ((if (nm =? name)%string then [n] else []) ++
       flat_map (find_in name) kids)%list
  end.

(** [tag.find_all(name)]: every descendant named [name], document order. *)
Definition find_all (n : Node) (name : string) : list Node :=
  match n with
  | Text _ => []
  | Tag _ _ kids => flat_map (find_in name) kids
  end.

(** [tag.get_text()]: the texts below the node, concatenated. *)
Fixpoint get_text (n : Node) : string :=
  match n with
  | Text s => s
  | Tag _ _ kids => fold_right (fun k acc => get_text k ++ acc) "" kids
  end.

(** [tag.get(key)]: the attribute's value, or [None]. *)
Definition get (n : Node) (key : string) : option string :=
  match n with
  | Text _ => None
  | Tag _ attrs _ =>
      match find (fun kv => (fst kv =? key)%string) attrs with
      | Some kv => Some (snd kv)
      | None => None
      end
  end.

(** ** The environment of a run

    - [requests_reply n url]: what [requests.get(url)] does when it is the
      request number [n] of the run: it returns a response or raises;
    - [html_parser body]: the top-level nodes [html.parser] builds for a
      body;
    - [read_csv_reply n url]: what reading and tokenizing the CSV at [url]
      does when it is request number [n]: it raises, or yields the table of
      the columns selected by [usecols], row by row, cells typed as pandas
      infers them. *)
Record Response : Type := mkResponse { status_code : Z; content : string }.

Record Env : Type := mkEnv {
  requests_reply : nat -> string -> Result Response;
  html_parser : string -> list Node;
  read_csv_reply : nat -> string -> Result (list (list Cell))
}.

Definition requests_get (env : Env) (url : string) : M Response :=
  fun w =>
    (requests_reply env (List.length (sent w)) url,
     mkWorld (sent w ++ [url]) (stdout w)).

(** [BeautifulSoup(content, 'html.parser')]: the document root. *)
Definition BeautifulSoup (env : Env) (body : string) : Node :=
  Tag "[document]" [] (html_parser env body).

(** A row on exactly [w] cells: short rows are completed with NaN. *)
Definition fit (w : nat) (r : list Cell) : list Cell :=
  firstn w (r ++ repeat (VFloat NaN) w).

(** The frame [read_csv] builds with [names=names]: with [index_col=0] the
    first column is the index and the others keep their names; otherwise
    the index is 0, 1, 2, ... *)
Definition frame_of_table (names : list string) (index_col : bool)
           (table : list (list Cell)) : DataFrame Cell :=
  let w := List.length names in
  if index_col then
    mkDataFrame (hd_error names) (tl names)
      (map (fun r => (hd (VFloat NaN) (fit w r), tl (fit w r))) table)
  else
    mkDataFrame None names
      (map (fun '(i, r) => (VInt (Z.of_nat i), fit w r))
           (combine (seq 0 (List.length table)) table)).

Definition pd_read_csv (env : Env) (url : string) (names : list string)
           (index_col : bool) : M (DataFrame Cell) :=
  fun w =>
    (match read_csv_reply env (List.length (sent w)) url with
     | Ok table => Ok (frame_of_table names index_col table)
     | Raised e => Raised e
     end,
     mkWorld (sent w ++ [url]) (stdout w)).

(** [pd.DataFrame.from_records(records, columns=cols)]. *)
Definition from_records (records : list (list Cell)) (cols : list string)
  : DataFrame Cell :=
  frame_of_table cols false records.

(** [df[mask]]: the rows where the mask holds. *)
Definition boolean_index {K} (df : DataFrame K) (mask : list bool)
  : DataFrame K :=
  mkDataFrame (index_name df) (columns df)
    (map fst (filter snd (combine (rows df) mask))).

(** [cell == text] for a text on the right. *)
Definition cell_eq_str (c : Cell) (s : string) : bool :=
  match c with
  | VStr s' => (s' =? s)%string
  | _ => false
  end.

Definition opt_cell (o : option string) : Cell :=
  match o with
  | Some s => VStr s
  | None => VNone
  end.

(** [pd.to_numeric(df[c].astype(str).str.replace(',', '.'), errors=...)],
    the expression both cleaning steps apply to a column. *)
Definition numeric_column {K} (errors : errors_mode) (df : DataFrame K)
           (c : string) : Result (list Cell) :=
  match getitem df c with
  | Ok col =>
      match to_numeric errors
              (map (replace_char "," ".") (map py_str col)) with
      | Ok xs => Ok (map VFloat xs)
      | Raised e => Raised e
      end
  | Raised e => Raised e
  end.

(* ================================================================== *)
(** * class SearchAvailableCurrencies                                   *)
(* ================================================================== *)

Module SearchAvailableCurrencies.

Definition url : string :=
  "https://ptax.bcb.gov.br/ptax_internet/consultaBoletim.do?method=exibeFormularioConsultaBoletim".

Definition _fetch_data (env : Env) : M Response :=
  requests_get env url.

Definition _clean_data (env : Env) (page : Response) : M (DataFrame Cell) :=
  let soup := BeautifulSoup env (content page) in
  let options := find_all soup "option" in
  let options_dict :=
    map (fun option => [VStr (get_text option); opt_cell (get option "value")])
        options in
  ret (from_records options_dict ["Currency"; "Code"]).

Definition get_available_currencies (env : Env) : M (DataFrame Cell) :=
  page <- _fetch_data env ;;
  _clean_data env page.

End SearchAvailableCurrencies.

(* ================================================================== *)
(** * class SearchCurrencyPrice                                         *)
(* ================================================================== *)

Module SearchCurrencyPrice.

Record t : Type := mk {
  currency_code : Z;
  initial_date : string;
  final_date : string
}.

Definition __init__ (currency_code : Z) (initial_date final_date : date)
  : M t :=
  assert_ (date_ltb initial_date final_date)
          "Final date is earlier than initial date" ;;
  ret (mk currency_code
          (strftime_d_m_Y initial_date)
          (strftime_d_m_Y final_date)).

Definition url (self : t) : string :=
  "https://ptax.bcb.gov.br/ptax_internet/consultaBoletim.do?method=gerarCSVFechamentoMoedaNoPeriodo"
  ++ "&ChkMoeda=" ++ str_int (currency_code self)
  ++ "&DATAINI=" ++ initial_date self
  ++ "&DATAFIM=" ++ final_date self.

Definition names : list string := ["Date"; "Tipo"; "Moeda"; "Compra"; "Venda"].

Definition parse_error_message : string :=
  "An error occurred when parsing data. Check if currency is available at "
  ++ "https://www.bcb.gov.br/estabilidadefinanceira/historicocotacoes".

Definition _fetch_data (env : Env) (self : t) : M (DataFrame Cell) :=
  try_except
    (pd_read_csv env (url self) names true)
    is_ParserError
    (fun _ => raise (mkexc Exception parse_error_message)).

Definition _clean_data (df : DataFrame Cell) : M (DataFrame Timestamp) :=
  df <- lift (set_axis df
                (to_datetime_coerce "%d%m%Y"
                   (map (fun x => zfill 8 (py_str x)) (index df)))) ;;
  compra <- lift (numeric_column errors_raise df "Compra") ;;
  df <- lift (setitem df "Compra" compra) ;;
  venda <- lift (numeric_column errors_raise df "Venda") ;;
  df <- lift (setitem df "Venda" venda) ;;
  ret (sort_index df).

Definition _check_if_code_exists (env : Env) (self : t) : M bool :=
  df <- SearchAvailableCurrencies.get_available_currencies env ;;
  code <- lift (getitem df "Code") ;;
  let mask := map (fun c => cell_eq_str c (str_int (currency_code self))) code in
  ret (negb (List.length (rows (boolean_index df mask)) =? 0)%nat).

Definition get_data (env : Env) (self : t) : M (DataFrame Timestamp) :=
  exists_ <- _check_if_code_exists env self ;;
  assert_ exists_ "Currency code does not exist" ;;
  pure_df <- _fetch_data env self ;;
  _clean_data pure_df.

End SearchCurrencyPrice.

(* ================================================================== *)
(** * class SearchAllCurrenciesPrices                                   *)
(* ================================================================== *)

Module SearchAllCurrenciesPrices.

Record t : Type := mk { reference_date : string }.

(** The default of [reference_date] is the value [datetime.datetime.now()]
    had when the [def] statement ran, that is when the module was
    imported: [import_time].  [now] is its value when line 160 runs. *)
Definition __init__ (import_time : datetime) (reference_date : option pydate)
           (now : datetime) : M t :=
  let reference_date :=
    match reference_date with
    | Some d => d
    | None => PDateTime import_time
    end in
  match reference_date with
  | PDate _ =>
      (* [date <= datetime] is not defined *)
      raise (mkexc TypeError
               "can't compare datetime.datetime to datetime.date")
  | PDateTime t =>
      assert_ (datetime_leb t now)
              "Final date is should be earlier than today" ;;
      ret (mk (strftime_Ymd (dt_date t)))
  end.

Definition url (self : t) : string :=
  "https://www4.bcb.gov.br/Download/fechamento/" ++ reference_date self
  ++ ".csv".

Definition columns : list string :=
  ["Reference Date";
   "Código";
   "Tipo";
   "Moeda";
   "Cotações em Real - Compra";
   "Cotações em Real - Venda";
   "Paridade - Compra";
   "Paridade - Venda"].

Definition not_found_marker : string := "HTTP Error 404: Not Found".

Definition _fetch_data (env : Env) (self : t) : M (DataFrame Cell) :=
  print (url self) ;;
  let df := empty_frame columns in
  try_except
    (pd_read_csv env (url self) columns false)
    is_Exception
    (fun exp =>
       if str_in not_found_marker (exc_str exp) then
         print ("Currency is not available for this date: "
                ++ reference_date self ++ ", " ++ url self) ;;
         ret df
       else raise exp).

Definition clean_column (df : DataFrame Cell) (column : string)
  : M (DataFrame Cell) :=
  col <- lift (numeric_column errors_coerce df column) ;;
  lift (setitem df column col).

(** [for column in cols: df[column] = ...]. *)
Fixpoint for_columns (cols : list string) (df : DataFrame Cell)
  : M (DataFrame Cell) :=
  match cols with
  | [] => ret df
  | column :: cols' =>
      df <- clean_column df column ;;
      for_columns cols' df
  end.

Definition _clean_data (df : DataFrame Cell) : M (DataFrame Cell) :=
  ref <- lift (getitem df "Reference Date") ;;
  df <- lift (setitem df "Reference Date"
                (map (fun c => VTime (to_datetime_cell "%d/%m/%Y" c)) ref)) ;;
  df <- lift (set_index df "Reference Date") ;;
  for_columns ["Cotações em Real - Compra";
               "Cotações em Real - Venda";
               "Paridade - Compra";
               "Paridade - Venda"] df.

Definition get_prices (env : Env) (self : t) : M (DataFrame Cell) :=
  pure_df <- _fetch_data env self ;;
  _clean_data pure_df.

End SearchAllCurrenciesPrices.

(* ================================================================== *)
(** * Vocabulary of the specification                                   *)
(* ================================================================== *)

(** The order on dates, spelled out. *)
Definition date_lt (a b : date) : Prop :=
  year a < year b \/
  (year a = year b /\
   (month a < month b \/ (month a = month b /\ day a < day b))).

Definition date_le (a b : date) : Prop := date_lt a b \/ a = b.

(** The 8-digit day-month-year text of a date, zero-padded: 2021-01-01 is
    written 01012021. *)
Definition ddmmyyyy (d : date) : string :=
  fmt_width 2 (day d) ++ fmt_width 2 (month d) ++ fmt_width 4 (year d).

(** The same with a blank in place of the leading zero of the day, which
    the [%d] directive of pandas also reads. *)
Definition blank_dmmyyyy (d : date) : string :=
  String " " (String (digit_char (day d))
                (fmt_width 2 (month d) ++ fmt_width 4 (year d))).

(** The number a spreadsheet or a CSV reader makes of that text: the day,
    month and year digits read as one integer (01012021 gives 1012021). *)
Definition key_number (d : date) : Z :=
  day d * 1000000 + month d * 10000 + year d.

(** What line 62 makes of one row key. *)
Definition coerce_key (k : Cell) : Timestamp :=
  strptime_coerce "%d%m%Y" (zfill 8 (py_str k)).

(** A cell whose text, with the comma turned into a point, is a number
    for [to_numeric]. *)
Definition numeric_cell (c : Cell) : Prop :=
  to_numeric_item (replace_char "," "." (py_str c)) <> None.

(** A list of index entries in the order of a sorted frame: dates in
    ascending order, then only [NaT]. *)
Definition dates_then_NaT (l : list Timestamp) : Prop :=
  exists (ds : list date) (n : nat),
    l = (map Stamp ds ++ repeat NaT n)%list /\ StronglySorted date_le ds.

(** Rows compared by their labels, in the order [sort_index] produces. *)
Definition row_le {V} (x y : Timestamp * V) : Prop :=
  ts_leb (fst x) (fst y) = true.

(** An [<option value="code">name</option>] element. *)
Definition option_element (name code : string) : Node :=
  Tag "option" [("value", code)] [Text name].

(** The record the catalog makes of an option element. *)
Definition currency_record (o : Node) : list Cell :=
  [VStr (get_text o); opt_cell (get o "value")].

(* ================================================================== *)
(** * Sample data                                                       *)
(* ================================================================== *)

Module Sample.

(** A catalog page with two currencies, and what the HTML parser makes
    of it. *)
Definition catalog_body : string :=
  "<select><option value='220'>USD</option><option value='978'>EUR</option></select>".

Definition catalog_nodes : list Node :=
  [Tag "select" [] [option_element "USD" "220"; option_element "EUR" "978"]].

Definition catalog_page : Response := mkResponse 200 catalog_body.

Definition parser (body : string) : list Node :=
  if (body =? catalog_body)%string then catalog_nodes else [].

(** Rows of a range CSV, out of order, one with a key that is no date. *)
Definition range_table : list (list Cell) :=
  [[VInt 4012021; VStr "A"; VStr "USD"; VStr "5,2345"; VStr "5,2351"];
   [VStr "99999999"; VStr "A"; VStr "USD"; VStr "5,1"; VStr "5,2"];
   [VInt 1012021; VStr "A"; VStr "USD"; VFloat (Fin (mkdec 51 (-1))); VStr "5,2"];
   [VStr "31122020"; VStr "A"; VStr "USD"; VStr "5,19"; VStr "5,2"]].

(** The same source with a quote that was not published. *)
Definition range_table_ND : list (list Cell) :=
  [[VInt 4012021; VStr "A"; VStr "USD"; VStr "5,2345"; VStr "5,2351"];
   [VInt 5012021; VStr "A"; VStr "USD"; VStr "N/D"; VStr "5,2"]].

Definition snapshot_table_ND : list (list Cell) :=
  [[VStr "04/01/2021"; VInt 220; VStr "A"; VStr "USD";
    VStr "5,2345"; VStr "N/D"; VStr "1,0"; VStr "1,0"]].

(** An environment that serves the catalog page and a fixed CSV table. *)
Definition env_with (table : Result (list (list Cell))) : Env :=
  mkEnv (fun _ _ => Ok catalog_page) parser (fun _ _ => table).

Definition env : Env := env_with (Ok range_table).

(** A catalog that gains a currency between two requests. *)
Definition later_nodes : list Node :=
  [Tag "select" []
     [option_element "USD" "220"; option_element "EUR" "978";
      option_element "XYZ" "999"]].

Definition later_body : string :=
  "<select><option value='220'>USD</option><option value='978'>EUR</option><option value='999'>XYZ</option></select>".

(** The first request of a run gets the two-currency page, the later
    ones the three-currency page. *)
Definition env_changing : Env :=
  mkEnv (fun n _ => Ok (mkResponse 200
                          (if (n =? 0)%nat then catalog_body else later_body)))
        (fun body => if (body =? later_body)%string then later_nodes
                     else parser body)
        (fun _ _ => Ok range_table).

Definition jan_1 : date := mkdate 2021 1 1.
Definition jan_5 : date := mkdate 2021 1 5.
Definition jul_30 : date := mkdate 2021 7 30.

Definition morning (d : date) : datetime := mkdatetime d 36000000000.

(** What [get_data] returns in [env]. *)
Definition cleaned : DataFrame Timestamp :=
  mkDataFrame None ["Tipo"; "Moeda"; "Compra"; "Venda"]
    [(Stamp (mkdate 2020 12 31),
      [VStr "A"; VStr "USD"; VFloat (Fin (mkdec 519 (-2)));
       VFloat (Fin (mkdec 52 (-1)))]);
     (Stamp (mkdate 2021 1 1),
      [VStr "A"; VStr "USD"; VFloat (Fin (mkdec 51 (-1)));
       VFloat (Fin (mkdec 52 (-1)))]);
     (Stamp (mkdate 2021 1 4),
      [VStr "A"; VStr "USD"; VFloat (Fin (mkdec 52345 (-4)));
       VFloat (Fin (mkdec 52351 (-4)))]);
     (NaT,
      [VStr "A"; VStr "USD"; VFloat (Fin (mkdec 51 (-1)));
       VFloat (Fin (mkdec 52 (-1)))])].

End Sample.

(* ================================================================== *)
(** * Vocabulary of the further properties                              *)
(* ================================================================== *)

(** The integer a run of digits at the head of a text denotes, as [int]
    reads it. *)
Definition digits_value (s : string) : Z := fst (fst (read_digits s 0 0)).

(** The float [to_numeric(..., errors='coerce')] makes of a cell: the
    number its text denotes once the comma is a point, NaN otherwise. *)
Definition coerced_number (c : Cell) : pyfloat :=
  match to_numeric_item (replace_char "," "." (py_str c)) with
  | Some x => x
  | None => NaN
  end.

(** A row of the range CSV once cleaned: the first cell coerced to a
    date, the Tipo and Moeda cells as they were, the two quotes as
    floats. *)
Definition cleaned_range_row (r : list Cell) : Timestamp * list Cell :=
  let c := fun i => nth i (fit 5 r) (VFloat NaN) in
  (coerce_key (c 0%nat),
   [c 1%nat; c 2%nat;
    VFloat (coerced_number (c 3%nat)); VFloat (coerced_number (c 4%nat))]).

(** A row of the snapshot CSV once cleaned: the reference date as label,
    code, kind and name as they were, the four rates as floats. *)
Definition cleaned_snapshot_row (r : list Cell) : Cell * list Cell :=
  let c := fun i => nth i (fit 8 r) (VFloat NaN) in
  (VTime (to_datetime_cell "%d/%m/%Y" (c 0%nat)),
   [c 1%nat; c 2%nat; c 3%nat;
    VFloat (coerced_number (c 4%nat)); VFloat (coerced_number (c 5%nat));
    VFloat (coerced_number (c 6%nat)); VFloat (coerced_number (c 7%nat))]).

(** A row of the range frame after the three assignments of its
    cleaning step, before the sort: the label coerced, the cells at
    positions 2 and 3 (Compra, Venda) made floats. *)
Definition range_assigned (r : Cell * list Cell) : Timestamp * list Cell :=
  (coerce_key (fst r),
   set_nth 3 (VFloat (coerced_number (nth 3 (snd r) (VFloat NaN))))
     (set_nth 2 (VFloat (coerced_number (nth 2 (snd r) (VFloat NaN)))) (snd r))).

(** Whether a character occurs in a text. *)
Fixpoint has_char (c : ascii) (s : string) : bool :=
  match s with
  | EmptyString => false
  | String x r => Ascii.eqb x c || has_char c r
  end.

(** The order on datetimes, spelled out. *)
Definition datetime_le (a b : datetime) : Prop :=
  date_lt (dt_date a) (dt_date b) \/
  (dt_date a = dt_date b /\ dt_micros a <= dt_micros b).

(* ================================================================== *)
(** * Properties                                                        *)
(* ================================================================== *)

(** ** Digits *)

Lemma digit_cases (n : Z) :
  0 <= n <= 9 -> In n [0; 1; 2; 3; 4; 5; 6; 7; 8; 9].
Proof. cbn [In]. lia. Qed.

Ltac each_digit n H :=
  let C := fresh "C" in
  pose proof (digit_cases n H) as C; cbn [In] in C;
  repeat (destruct C as [C | C]; [subst n | ]); [ .. | destruct C].

Lemma digit_val_digit_char (n : Z) :
  0 <= n <= 9 -> digit_val (digit_char n) = Some n.
Proof. intros H. each_digit n H; reflexivity. Qed.

Lemma is_sign_digit_char (n : Z) :
  0 <= n <= 9 -> is_sign (digit_char n) = false.
Proof. intros H. each_digit n H; reflexivity. Qed.

Lemma digit_char_not_space (n : Z) :
  0 <= n <= 9 -> digit_char n <> " "%char.
Proof. intros H. each_digit n H; discriminate. Qed.

Lemma digit_val_inv (c : ascii) (k : Z) :
  digit_val c = Some k -> 0 <= k <= 9 /\ c = digit_char k.
Proof.
  destruct c as [[] [] [] [] [] [] [] []]; vm_compute; intros H;
    try discriminate H; injection H as <-; split; try reflexivity;
    split; discriminate.
Qed.

Lemma one_digit_spec (s r : string) (a : Z) :
  one_digit s = Some (a, r) <-> s = String (digit_char a) r /\ 0 <= a <= 9.
Proof.
  split.
  - destruct s as [| c s']; simpl; [discriminate |].
    destruct (digit_val c) as [k |] eqn:E; [| discriminate].
    intros H; injection H as <- <-.
    apply digit_val_inv in E. destruct E as [E ->]. now split.
  - intros [-> H]. simpl. now rewrite digit_val_digit_char.
Qed.

Ltac divmod := Z.to_euclidean_division_equations; lia.

Lemma fmt_width_2 (v : Z) :
  fmt_width 2 v =
  String (digit_char ((v / 10) mod 10)) (String (digit_char (v mod 10)) "").
Proof. reflexivity. Qed.

Lemma str_app_assoc (a b c : string) : (a ++ b) ++ c = a ++ (b ++ c).
Proof. induction a as [| x a IH]; simpl; [reflexivity | now rewrite IH]. Qed.

Lemma str_app_nil_r (a : string) : a ++ "" = a.
Proof. induction a as [| x a IH]; simpl; [reflexivity | now rewrite IH]. Qed.

Lemma str_length_app (a b : string) :
  String.length (a ++ b) = (String.length a + String.length b)%nat.
Proof. induction a as [| x a IH]; simpl; [reflexivity | now rewrite IH]. Qed.

Lemma length_fmt_width (w : nat) (n : Z) : String.length (fmt_width w n) = w.
Proof.
  revert n. induction w as [| w IH]; intros n; simpl; [reflexivity |].
  rewrite str_length_app, IH. simpl. lia.
Qed.

Lemma length_zeros (n : nat) : String.length (zeros n) = n.
Proof. induction n; simpl; congruence. Qed.

Lemma two_digits_spec (s r : string) (v : Z) :
  two_digits s = Some (v, r) <-> s = fmt_width 2 v ++ r /\ 0 <= v < 100.
Proof.
  unfold two_digits. split.
  - destruct (one_digit s) as [[a r1] |] eqn:E1; [| discriminate].
    destruct (one_digit r1) as [[b r2] |] eqn:E2; [| discriminate].
    intros H. apply one_digit_spec in E1, E2.
    destruct E1 as [-> Ha], E2 as [-> Hb].
    assert (Hv : v = 10 * a + b) by congruence.
    assert (Hr : r = r2) by congruence.
    subst r. rewrite fmt_width_2.
    replace (v / 10 mod 10) with a by divmod.
    replace (v mod 10) with b by divmod.
    split; [reflexivity | lia].
  - intros [-> Hv]. rewrite fmt_width_2. cbn [append one_digit].
    rewrite digit_val_digit_char by divmod. cbn [one_digit].
    rewrite digit_val_digit_char by divmod.
    do 2 f_equal. divmod.
Qed.

Lemma fmt_width_4 (v : Z) :
  fmt_width 4 v = fmt_width 2 (v / 100) ++ fmt_width 2 (v mod 100).
Proof.
  change (fmt_width 4 v) with
    (String (digit_char (((v / 10) / 10 / 10) mod 10))
       (String (digit_char (((v / 10) / 10) mod 10))
          (String (digit_char ((v / 10) mod 10))
             (String (digit_char (v mod 10)) "")))).
  rewrite !fmt_width_2. cbn [append].
  replace (v / 10 / 10 / 10 mod 10) with (v / 100 / 10 mod 10) by divmod.
  replace (v / 10 / 10 mod 10) with ((v / 100) mod 10) by divmod.
  replace (v / 10 mod 10) with ((v mod 100) / 10 mod 10) by divmod.
  replace (v mod 10) with ((v mod 100) mod 10) at 1 by divmod.
  reflexivity.
Qed.

Lemma four_digits_spec (s r : string) (v : Z) :
  four_digits s = Some (v, r) <-> s = fmt_width 4 v ++ r /\ 0 <= v < 10000.
Proof.
  unfold four_digits. split.
  - destruct (two_digits s) as [[a r1] |] eqn:E1; [| discriminate].
    destruct (two_digits r1) as [[b r2] |] eqn:E2; [| discriminate].
    intros H. apply two_digits_spec in E1, E2.
    destruct E1 as [-> Ha], E2 as [-> Hb].
    assert (Hv : v = 100 * a + b) by congruence.
    assert (Hr : r = r2) by congruence.
    subst r. rewrite fmt_width_4, str_app_assoc.
    replace (v / 100) with a by divmod.
    replace (v mod 100) with b by divmod.
    split; [reflexivity | lia].
  - intros [-> Hv]. rewrite fmt_width_4, str_app_assoc.
    assert (E1 : two_digits (fmt_width 2 (v / 100) ++ fmt_width 2 (v mod 100) ++ r)
                 = Some (v / 100, fmt_width 2 (v mod 100) ++ r))
      by (apply two_digits_spec; split; [reflexivity | divmod]).
    assert (E2 : two_digits (fmt_width 2 (v mod 100) ++ r) = Some (v mod 100, r))
      by (apply two_digits_spec; split; [reflexivity | divmod]).
    rewrite E1, E2. do 2 f_equal. divmod.
Qed.

(** ** The format matcher *)

Lemma alt_In (ok : Z -> bool) (x : option (Z * string)) (v : Z) (r : string) :
  In (v, r) (alt ok x) <-> x = Some (v, r) /\ ok v = true.
Proof.
  unfold alt. destruct x as [[v' r'] |].
  - destruct (ok v') eqn:E; simpl.
    + split.
      * intros [H | []]. injection H as -> ->. now split.
      * intros [H _]. left. now injection H as -> ->.
    + split; [intros [] |]. intros [H K]. injection H as -> ->. congruence.
  - simpl. split; [intros [] | intros [H _]; discriminate].
Qed.

Lemma match_Y_inv (s r : string) (v : Z) :
  In (v, r) (match_Y s) -> s = fmt_width 4 v ++ r /\ 0 <= v < 10000.
Proof.
  unfold match_Y. rewrite alt_In. intros [H _]. now apply four_digits_spec.
Qed.

Lemma match_m_inv (s r : string) (v : Z) :
  In (v, r) (match_m s) ->
  (s = fmt_width 2 v ++ r /\ 1 <= v <= 12) \/
  (s = String (digit_char v) r /\ 1 <= v <= 9).
Proof.
  unfold match_m. rewrite in_app_iff, !alt_In. intros [[H K] | [H K]].
  - left. apply two_digits_spec in H. split; [tauto | lia].
  - right. apply one_digit_spec in H. split; [tauto | lia].
Qed.

Lemma match_d_inv (s r : string) (v : Z) :
  In (v, r) (match_d s) ->
  (s = fmt_width 2 v ++ r /\ 1 <= v <= 31) \/
  (s = String (digit_char v) r /\ 1 <= v <= 9) \/
  (s = String " " (String (digit_char v) r) /\ 1 <= v <= 9).
Proof.
  unfold match_d. rewrite !in_app_iff, !alt_In. intros [[H K] | [[H K] | H]].
  - left. apply two_digits_spec in H. split; [tauto | lia].
  - right; left. apply one_digit_spec in H. split; [tauto | lia].
  - right; right. destruct s as [| c s']; [destruct H |].
    destruct (Ascii.eqb_spec c " ") as [-> | N].
    + apply alt_In in H. destruct H as [H K].
      apply one_digit_spec in H. destruct H as [-> H]. split; [reflexivity | lia].
    + exfalso. destruct c as [[] [] [] [] [] [] [] []];
        solve [destruct H | now apply N].
Qed.

Lemma match_d_two (v : Z) (r : string) :
  1 <= v <= 31 -> exists l, match_d (fmt_width 2 v ++ r) = (v, r) :: l.
Proof.
  intros H. unfold match_d.
  assert (E : two_digits (fmt_width 2 v ++ r) = Some (v, r))
    by (apply two_digits_spec; split; [reflexivity | lia]).
  rewrite E. unfold alt at 1.
  replace ((1 <=? v) && (v <=? 31)) with true by lia.
  eexists. reflexivity.
Qed.

Lemma match_d_blank (v : Z) (r : string) :
  1 <= v <= 9 ->
  match_d (String " " (String (digit_char v) r)) = [(v, r)].
Proof.
  intros H. unfold match_d, two_digits. cbn [one_digit].
  change (digit_val " ") with (@None Z). cbn [alt app].
  rewrite digit_val_digit_char by lia. cbn [alt].
  now replace (1 <=? v) with true by lia.
Qed.

Lemma match_m_two (v : Z) (r : string) :
  1 <= v <= 12 -> exists l, match_m (fmt_width 2 v ++ r) = (v, r) :: l.
Proof.
  intros H. unfold match_m.
  assert (E : two_digits (fmt_width 2 v ++ r) = Some (v, r))
    by (apply two_digits_spec; split; [reflexivity | lia]).
  rewrite E. unfold alt at 1.
  replace ((1 <=? v) && (v <=? 12)) with true by lia.
  eexists. reflexivity.
Qed.

Lemma match_Y_four (v : Z) (r : string) :
  0 <= v < 10000 -> match_Y (fmt_width 4 v ++ r) = [(v, r)].
Proof.
  intros H. unfold match_Y.
  assert (E : four_digits (fmt_width 4 v ++ r) = Some (v, r))
    by (apply four_digits_spec; split; [reflexivity | lia]).
  now rewrite E.
Qed.

Lemma date_valid_ranges (d : date) :
  date_valid d = true ->
  1 <= year d <= 9999 /\ 1 <= month d <= 12 /\ 1 <= day d <= 31.
Proof.
  unfold date_valid, days_in_month. intros H.
  repeat (apply andb_prop in H; destruct H as [H ?]).
  destruct (month d =? 2); [destruct (is_leap (year d)) |
    destruct ((month d =? 4) || (month d =? 6) || (month d =? 9) || (month d =? 11))];
    lia.
Qed.

(** The matches of [%d%m%Y] that start with a given day and month. *)
Lemma regex_dmY_tail (f : fields) (s : string) :
  regex_match [Dir_m; Dir_Y] f s =
  flat_map (fun '(v, r) =>
              flat_map (fun '(y, r') => [(mkfields (f_day f) v y, r')])
                       (match_Y r))
           (match_m s).
Proof.
  cbn [regex_match]. apply flat_map_ext. intros [v r]. cbn [regex_match].
  apply flat_map_ext. now intros [y r'].
Qed.

Lemma regex_m_Y_text (f : fields) (m y : Z) :
  1 <= m <= 12 -> 0 <= y < 10000 ->
  exists l,
    regex_match [Dir_m; Dir_Y] f (fmt_width 2 m ++ fmt_width 4 y) =
    (mkfields (f_day f) m y, "") :: l.
Proof.
  intros Hm Hy. rewrite regex_dmY_tail.
  destruct (match_m_two m (fmt_width 4 y) Hm) as [l ->].
  cbn [flat_map].
  rewrite <- (str_app_nil_r (fmt_width 4 y)), match_Y_four by assumption.
  cbn [flat_map app]. eexists. reflexivity.
Qed.

Lemma regex_dmY_unfold (f : fields) (s : string) :
  regex_match [Dir_d; Dir_m; Dir_Y] f s =
  flat_map (fun '(v, r) =>
              regex_match [Dir_m; Dir_Y] (mkfields v (f_month f) (f_year f)) r)
           (match_d s).
Proof. reflexivity. Qed.

Lemma compile_dmY : compile_format "%d%m%Y" = [Dir_d; Dir_m; Dir_Y].
Proof. reflexivity. Qed.

Lemma strptime_ddmmyyyy (d : date) :
  date_valid d = true -> in_bounds d = true ->
  strptime_coerce "%d%m%Y" (ddmmyyyy d) = Stamp d.
Proof.
  intros V B. destruct (date_valid_ranges d V) as (Hy & Hm & Hd).
  unfold strptime_coerce, ddmmyyyy. rewrite compile_dmY, regex_dmY_unfold.
  destruct (match_d_two (day d) (fmt_width 2 (month d) ++ fmt_width 4 (year d)) Hd)
    as [l ->].
  cbn [flat_map].
  destruct (regex_m_Y_text (mkfields (day d) (f_month default_fields)
                              (f_year default_fields)) (month d) (year d))
    as [l' ->]; [lia | lia |].
  cbn [app f_day f_month f_year].
  destruct d as [y m dd]; cbn [year month day] in *. now rewrite V, B.
Qed.

Lemma strptime_blank_dmmyyyy (d : date) :
  date_valid d = true -> in_bounds d = true -> day d <= 9 ->
  strptime_coerce "%d%m%Y" (blank_dmmyyyy d) = Stamp d.
Proof.
  intros V B D. destruct (date_valid_ranges d V) as (Hy & Hm & Hd).
  unfold strptime_coerce, blank_dmmyyyy. rewrite compile_dmY, regex_dmY_unfold.
  rewrite match_d_blank by lia.
  cbn [flat_map].
  destruct (regex_m_Y_text (mkfields (day d) (f_month default_fields)
                              (f_year default_fields)) (month d) (year d))
    as [l' ->]; [lia | lia |].
  cbn [app f_day f_month f_year].
  destruct d as [y m dd]; cbn [year month day] in *. now rewrite V, B.
Qed.

Lemma regex_dmY_In (f0 f : fields) (s r : string) :
  In (f, r) (regex_match [Dir_d; Dir_m; Dir_Y] f0 s) ->
  exists (vd vm vy : Z) (r1 r2 : string),
    f = mkfields vd vm vy /\
    In (vd, r1) (match_d s) /\ In (vm, r2) (match_m r1) /\
    In (vy, r) (match_Y r2).
Proof.
  rewrite regex_dmY_unfold, in_flat_map. intros [[vd r1] [Hd H]].
  rewrite regex_dmY_tail, in_flat_map in H. destruct H as [[vm r2] [Hm H]].
  rewrite in_flat_map in H. destruct H as [[vy r3] [Hy [H | []]]].
  injection H as <- <-. now exists vd, vm, vy, r1, r2.
Qed.

(** A key that parses is, once padded to 8 characters, the text of the
    date it parses to. *)
Lemma strptime_dmY_inv (s : string) (d : date) :
  (8 <= String.length s)%nat ->
  strptime_coerce "%d%m%Y" s = Stamp d ->
  date_valid d = true /\ in_bounds d = true /\
  (s = ddmmyyyy d \/ (day d <= 9 /\ s = blank_dmmyyyy d)).
Proof.
  intros L. unfold strptime_coerce. rewrite compile_dmY.
  destruct (regex_match [Dir_d; Dir_m; Dir_Y] default_fields s)
    as [| [f [| c r]] l] eqn:E; try discriminate.
  destruct (date_valid _ && in_bounds _) eqn:VB; [| discriminate].
  intros H; injection H as <-. apply andb_prop in VB. destruct VB as [V B].
  split; [exact V | split; [exact B |]].
  assert (I : In (f, "") (regex_match [Dir_d; Dir_m; Dir_Y] default_fields s))
    by (rewrite E; now left).
  apply regex_dmY_In in I.
  destruct I as (vd & vm & vy & r1 & r2 & -> & Hd & Hm & Hy).
  cbn [f_day f_month f_year year month day].
  apply match_Y_inv in Hy. destruct Hy as [-> Hy]. rewrite str_app_nil_r in *.
  apply match_m_inv in Hm. apply match_d_inv in Hd.
  unfold ddmmyyyy, blank_dmmyyyy. cbn [year month day].
  destruct Hm as [[-> Hm] | [-> Hm]];
    destruct Hd as [[-> Hd] | [[-> Hd] | [-> Hd]]];
    repeat (rewrite ?str_length_app, ?length_fmt_width in L; cbn [String.length] in L);
    try lia.
  - now left.
  - right. split; [lia | reflexivity].
Qed.

(** ** Integers as text *)

Lemma fmt_width_0 (w : nat) : fmt_width w 0 = zeros w.
Proof.
  induction w as [| w IH]; [reflexivity |].
  cbn [fmt_width]. change (0 / 10) with 0. change (0 mod 10) with 0.
  rewrite IH. clear IH. induction w as [| w IH]; [reflexivity |].
  cbn [zeros append]. now rewrite IH.
Qed.

Lemma zeros_snoc (n : nat) : zeros n ++ "0" = zeros (S n).
Proof. induction n as [| n IH]; [reflexivity |]. cbn [zeros append]. now rewrite IH. Qed.

(** With enough fuel, the digits of [n] are its zero-padded text without
    the padding. *)
Lemma digits_of_fmt (fuel : nat) :
  forall (n : Z) (k : nat),
    0 <= n < 10 ^ Z.of_nat fuel -> 0 <= n < 10 ^ Z.of_nat k -> (1 <= k)%nat ->
    (String.length (digits_of fuel n) <= k)%nat /\
    fmt_width k n = zeros (k - String.length (digits_of fuel n)) ++ digits_of fuel n.
Proof.
  induction fuel as [| f IH]; intros n k Hf Hk K.
  - assert (n = 0) by (change (10 ^ Z.of_nat 0) with 1 in Hf; lia). subst n.
    cbn [digits_of String.length]. rewrite Nat.sub_0_r, str_app_nil_r.
    split; [lia | apply fmt_width_0].
  - cbn [digits_of]. destruct (Z.ltb_spec n 10) as [Lt | Ge].
    + destruct k as [| k]; [lia |].
      cbn [String.length]. split; [lia |].
      cbn [fmt_width]. replace (n / 10) with 0 by divmod.
      replace (n mod 10) with n by divmod.
      rewrite fmt_width_0. now replace (S k - 1)%nat with k by lia.
    + destruct k as [| k]; [lia |].
      rewrite Nat2Z.inj_succ, Z.pow_succ_r in Hf, Hk by lia.
      assert (K' : (1 <= k)%nat).
      { destruct k; [change (10 ^ Z.of_nat 0) with 1 in Hk; lia | lia]. }
      destruct (IH (n / 10) k) as [L E]; [divmod | divmod | exact K' |].
      rewrite str_length_app. cbn [String.length]. split; [lia |].
      cbn [fmt_width]. rewrite E, str_app_assoc.
      now replace (S k - (String.length (digits_of f (n / 10)) + 1))%nat
        with (k - String.length (digits_of f (n / 10)))%nat by lia.
Qed.

Lemma digits_fuel_enough (n : Z) : 0 <= n -> n < 10 ^ Z.of_nat (digits_fuel n).
Proof.
  intros H. unfold digits_fuel.
  rewrite Nat2Z.inj_succ, Z2Nat.id by apply Z.log2_nonneg.
  destruct (Z.eq_dec n 0) as [-> | N]; [reflexivity |].
  pose proof (Z.log2_spec n ltac:(lia)) as [_ U].
  eapply Z.lt_le_trans; [exact U |].
  apply Z.pow_le_mono_l. lia.
Qed.

Lemma digits_of_head (fuel : nat) :
  forall (n : Z) (c : ascii) (r : string),
    0 <= n -> digits_of fuel n = String c r -> is_sign c = false.
Proof.
  induction fuel as [| f IH]; intros n c r Hn; cbn [digits_of]; [discriminate |].
  destruct (Z.ltb_spec n 10) as [Lt | Ge].
  - intros H; injection H as <- _. apply is_sign_digit_char. lia.
  - destruct (digits_of f (n / 10)) as [| c' r'] eqn:E; cbn [append].
    + intros H; injection H as <- _. apply is_sign_digit_char. divmod.
    + intros H; injection H as <- _. apply (IH (n / 10) c' r'); [divmod | exact E].
Qed.

(** Padding the decimal text of [n] to [k] characters gives [n] on [k]
    digits. *)
Lemma zfill_nat_digits (k : nat) (n : Z) :
  (1 <= k)%nat ->
  0 <= n < 10 ^ Z.of_nat k -> zfill k (nat_digits n) = fmt_width k n.
Proof.
  intros K H. unfold nat_digits.
  destruct (digits_of_fmt (digits_fuel n) n k) as [L E];
    [split; [lia | apply digits_fuel_enough; lia] | exact H | exact K |].
  rewrite E. unfold zfill.
  destruct (Nat.leb_spec k (String.length (digits_of (digits_fuel n) n))) as [Le | Gt].
  - now replace (k - _)%nat with 0%nat by lia.
  - destruct (digits_of (digits_fuel n) n) as [| c r] eqn:D.
    + cbn [String.length]. now rewrite Nat.sub_0_r, str_app_nil_r.
    + now rewrite (digits_of_head _ n c r ltac:(lia) D).
Qed.

Lemma fmt_width_app (a b : nat) :
  forall (x y : Z),
    0 <= y < 10 ^ Z.of_nat b ->
    fmt_width (a + b) (x * 10 ^ Z.of_nat b + y) = fmt_width a x ++ fmt_width b y.
Proof.
  induction b as [| b IH]; intros x y Hy.
  - change (10 ^ Z.of_nat 0) with 1 in *. assert (y = 0) by lia. subst y.
    rewrite Nat.add_0_r, str_app_nil_r. f_equal. lia.
  - rewrite Nat.add_succ_r. cbn [fmt_width].
    rewrite Nat2Z.inj_succ, Z.pow_succ_r in * by lia.
    replace ((x * (10 * 10 ^ Z.of_nat b) + y) / 10)
      with (x * 10 ^ Z.of_nat b + y / 10) by divmod.
    replace ((x * (10 * 10 ^ Z.of_nat b) + y) mod 10) with (y mod 10) by divmod.
    rewrite IH by divmod. now rewrite str_app_assoc.
Qed.

Lemma fmt_width_key_number (d : date) :
  date_valid d = true -> fmt_width 8 (key_number d) = ddmmyyyy d.
Proof.
  intros V. destruct (date_valid_ranges d V) as (Hy & Hm & Hd).
  unfold key_number, ddmmyyyy.
  change 8%nat with (2 + (2 + 4))%nat.
  replace (day d * 1000000 + month d * 10000 + year d)
    with (day d * 10 ^ Z.of_nat (2 + 4) + (month d * 10 ^ Z.of_nat 4 + year d))
    by (change (10 ^ Z.of_nat (2 + 4)) with 1000000;
        change (10 ^ Z.of_nat 4) with 10000; lia).
  rewrite fmt_width_app.
  - rewrite fmt_width_app; [reflexivity |].
    change (10 ^ Z.of_nat 4) with 10000. lia.
  - change (10 ^ Z.of_nat (2 + 4)) with 1000000.
    change (10 ^ Z.of_nat 4) with 10000. lia.
Qed.

(** Line 62 on a key that was read as a number. *)
Lemma coerce_key_number (d : date) :
  date_valid d = true -> in_bounds d = true ->
  coerce_key (VInt (key_number d)) = Stamp d.
Proof.
  intros V B. destruct (date_valid_ranges d V) as (Hy & Hm & Hd).
  unfold coerce_key. cbn [py_str]. unfold str_int.
  assert (P : 0 <= key_number d < 10 ^ Z.of_nat 8)
    by (unfold key_number; change (10 ^ Z.of_nat 8) with 100000000; lia).
  replace (key_number d <? 0) with false by lia.
  rewrite zfill_nat_digits, fmt_width_key_number by (assumption || lia).
  now apply strptime_ddmmyyyy.
Qed.

Lemma length_zfill (w : nat) (s : string) : (w <= String.length (zfill w s))%nat.
Proof.
  unfold zfill. destruct (Nat.leb_spec w (String.length s)) as [Le | Gt]; [exact Le |].
  destruct s as [| c r].
  - now rewrite length_zeros.
  - destruct (is_sign c); cbn [String.length] in *;
      rewrite ?str_length_app, ?length_zeros; cbn [String.length]; lia.
Qed.

(** ** The order on dates and timestamps *)

Lemma date_compare_eq (a b : date) : date_compare a b = Eq <-> a = b.
Proof.
  unfold date_compare. destruct a as [y m d], b as [y' m' d']; cbn [year month day].
  split.
  - destruct (Z.compare_spec y y'); try discriminate.
    destruct (Z.compare_spec m m'); try discriminate.
    destruct (Z.compare_spec d d'); try discriminate. congruence.
  - intros H; injection H as -> -> ->. now rewrite !Z.compare_refl.
Qed.

Lemma date_compare_lt (a b : date) : date_compare a b = Lt <-> date_lt a b.
Proof.
  unfold date_compare, date_lt.
  destruct (Z.compare_spec (year a) (year b));
    destruct (Z.compare_spec (month a) (month b));
    destruct (Z.compare_spec (day a) (day b));
    split; intros; try discriminate; try reflexivity; lia.
Qed.

Lemma date_compare_gt (a b : date) : date_compare a b = Gt <-> date_lt b a.
Proof.
  unfold date_compare, date_lt.
  destruct (Z.compare_spec (year a) (year b));
    destruct (Z.compare_spec (month a) (month b));
    destruct (Z.compare_spec (day a) (day b));
    split; intros; try discriminate; try reflexivity; lia.
Qed.

Lemma date_ltb_lt (a b : date) : date_ltb a b = true <-> date_lt a b.
Proof.
  unfold date_ltb. rewrite <- date_compare_lt.
  destruct (date_compare a b); split; congruence.
Qed.

Lemma date_leb_le (a b : date) : date_leb a b = true <-> date_le a b.
Proof.
  unfold date_leb, date_le. rewrite <- date_compare_lt, <- date_compare_eq.
  destruct (date_compare a b); split; try tauto; try congruence.
  intros [H | H]; discriminate.
Qed.

(** [final_date > initial_date] fails exactly when the final date is the
    initial date or an earlier one. *)
Lemma date_ltb_false (a b : date) : date_ltb a b = false <-> date_le b a.
Proof.
  unfold date_ltb, date_le. rewrite <- date_compare_gt, <- (date_compare_eq b a).
  destruct (date_compare a b) eqn:E.
  - apply date_compare_eq in E. subst b.
    split; [intros _; right; now apply date_compare_eq | reflexivity].
  - split; [discriminate |]. intros [H | H]; [discriminate |].
    apply date_compare_eq in H. subst b.
    assert (date_compare a a = Eq) by now apply date_compare_eq. congruence.
  - split; [now left | reflexivity].
Qed.

Lemma date_lt_trans (a b c : date) : date_lt a b -> date_lt b c -> date_lt a c.
Proof. unfold date_lt. lia. Qed.

Lemma date_le_trans (a b c : date) : date_le a b -> date_le b c -> date_le a c.
Proof.
  unfold date_le. intros [H | ->] [K | ->]; auto.
  left. eapply date_lt_trans; eassumption.
Qed.

Lemma date_le_total (a b : date) : date_le a b \/ date_le b a.
Proof.
  destruct (date_compare a b) eqn:E.
  - apply date_compare_eq in E. left. now right.
  - apply date_compare_lt in E. left. now left.
  - apply date_compare_gt in E. right. now left.
Qed.

Lemma ts_leb_total (a b : Timestamp) : ts_leb a b = false -> ts_leb b a = true.
Proof.
  destruct a as [| x], b as [| y]; cbn; try congruence.
  intros H. apply date_leb_le.
  destruct (date_le_total x y) as [K | K]; [| exact K].
  apply date_leb_le in K. congruence.
Qed.

Lemma ts_leb_trans (a b c : Timestamp) :
  ts_leb a b = true -> ts_leb b c = true -> ts_leb a c = true.
Proof.
  destruct a as [| x], b as [| y], c as [| z]; cbn; try congruence.
  rewrite !date_leb_le. apply date_le_trans.
Qed.

(** ** [sort_index] *)

Section Sorting.

Context {V : Type}.

Lemma insert_row_perm (r : Timestamp * V) (l : list (Timestamp * V)) :
  Permutation (insert_row r l) (r :: l).
Proof.
  induction l as [| r' l IH]; cbn [insert_row]; [reflexivity |].
  destruct (ts_leb (fst r) (fst r')); [reflexivity |].
  rewrite IH. apply perm_swap.
Qed.

Lemma sort_rows_perm (l : list (Timestamp * V)) : Permutation (sort_rows l) l.
Proof.
  induction l as [| r l IH]; cbn [sort_rows]; [reflexivity |].
  rewrite insert_row_perm. now apply perm_skip.
Qed.

Lemma insert_row_sorted (r : Timestamp * V) (l : list (Timestamp * V)) :
  Sorted row_le l -> Sorted row_le (insert_row r l).
Proof.
  induction 1 as [| r' l S IH H]; cbn [insert_row].
  - repeat constructor.
  - destruct (ts_leb (fst r) (fst r')) eqn:E.
    + constructor; [now constructor | now constructor].
    + constructor; [exact IH |].
      apply ts_leb_total in E.
      destruct l as [| r'' l]; cbn [insert_row].
      * now constructor.
      * destruct (ts_leb (fst r) (fst r'')); constructor; [exact E |].
        now inversion H.
Qed.

Lemma sort_rows_sorted (l : list (Timestamp * V)) : StronglySorted row_le (sort_rows l).
Proof.
  apply Sorted_StronglySorted.
  - intros x y z. unfold row_le. apply ts_leb_trans.
  - induction l as [| r l IH]; cbn [sort_rows]; [constructor |].
    now apply insert_row_sorted.
Qed.

Lemma filter_partition (f : Timestamp * V -> bool) (l : list (Timestamp * V)) :
  Permutation (filter (fun r => negb (f r)) l ++ filter f l) l.
Proof.
  induction l as [| r l IH]; cbn [filter]; [reflexivity |].
  destruct (f r); cbn [negb app].
  - rewrite <- Permutation_middle. now apply perm_skip.
  - now apply perm_skip.
Qed.

End Sorting.

Lemma sort_index_perm (df : DataFrame Timestamp) :
  Permutation (rows (sort_index df)) (rows df).
Proof.
  unfold sort_index. cbn [rows]. rewrite sort_rows_perm.
  apply (filter_partition (fun r => isna (fst r))).
Qed.

Lemma stamps_sorted (l : list Timestamp) :
  Forall (fun t => isna t = false) l ->
  StronglySorted (fun a b => ts_leb a b = true) l ->
  exists ds, l = map Stamp ds /\ StronglySorted date_le ds.
Proof.
  induction l as [| t l IH]; intros F S.
  - exists []. split; [reflexivity | constructor].
  - inversion F as [| ? ? Ht Fl]; subst. inversion S as [| ? ? Sl Hl]; subst.
    destruct (IH Fl Sl) as (ds & -> & Sd).
    destruct t as [| d]; [discriminate |].
    exists (d :: ds). split; [reflexivity |].
    constructor; [exact Sd |].
    rewrite Forall_map in Hl. revert Hl. apply Forall_impl.
    intros d'. cbn. apply date_leb_le.
Qed.

Lemma all_NaT (l : list Timestamp) :
  Forall (fun t => isna t = true) l -> l = repeat NaT (List.length l).
Proof.
  induction 1 as [| t l Ht _ IH]; [reflexivity |].
  destruct t; [| discriminate]. cbn. now f_equal.
Qed.

(** A sorted frame lists its dates in ascending order and its [NaT] rows
    last. *)
Lemma sort_index_order (df : DataFrame Timestamp) :
  dates_then_NaT (index (sort_index df)).
Proof.
  unfold dates_then_NaT, index, sort_index. cbn [rows]. rewrite map_app.
  set (A := filter (fun r => negb (isna (fst r))) (rows df)).
  set (B := filter (fun r => isna (fst r)) (rows df)).
  destruct (stamps_sorted (map fst (sort_rows A))) as (ds & E & S).
  - rewrite Forall_map. apply Forall_forall. intros r I.
    apply (Permutation_in _ (sort_rows_perm A)) in I.
    apply filter_In in I. destruct I as [_ I].
    now destruct (isna (fst r)).
  - pose proof (sort_rows_sorted A) as S.
    induction S as [| r l S IH H]; cbn [map]; constructor; [exact IH |].
    rewrite Forall_map. exact H.
  - exists ds, (List.length (map fst B)). split; [| exact S].
    rewrite E. f_equal. apply all_NaT.
    rewrite Forall_map. apply Forall_forall. intros r I.
    apply filter_In in I. tauto.
Qed.

(** ** Frames *)

Lemma combine_labels {A B C} (f : A -> C) (g : A -> B -> C) :
  (forall a b, g a b = f a) ->
  forall (l : list A) (l' : list B),
    List.length l' = List.length l ->
    map (fun '(a, b) => g a b) (combine l l') = map f l.
Proof.
  intros E. induction l as [| a l IH]; intros [| b l'] H; cbn in *;
    try discriminate; [reflexivity |].
  rewrite E. f_equal. apply IH. lia.
Qed.

Lemma combine_values {A B} :
  forall (l : list A) (l' : list B),
    List.length l' = List.length l ->
    map snd (combine l l') = l'.
Proof.
  induction l as [| a l IH]; intros [| b l'] H; cbn in *;
    try discriminate; [reflexivity |].
  f_equal. apply IH. lia.
Qed.

Lemma set_axis_spec {K K'} (df : DataFrame K) (labels : list K') :
  List.length labels = List.length (rows df) ->
  exists df',
    set_axis df labels = Ok df' /\ index df' = labels /\
    columns df' = columns df /\ map snd (rows df') = map snd (rows df).
Proof.
  intros L. unfold set_axis. rewrite L, Nat.eqb_refl.
  eexists. split; [reflexivity |]. unfold index. cbn [rows columns].
  rewrite !map_map. repeat split.
  - rewrite <- (combine_values (rows df) labels L) at 2.
    apply map_ext. now intros [r k].
  - rewrite <- (combine_labels snd (fun (r : K * list Cell) (k : K') => snd r)
                  (fun _ _ => eq_refl) (rows df) labels L).
    apply map_ext. now intros [r k].
Qed.

Lemma setitem_index {K} (df df' : DataFrame K) (c : string) (vals : list Cell) :
  setitem df c vals = Ok df' -> index df' = index df.
Proof.
  unfold setitem, index.
  destruct (Nat.eqb_spec (List.length vals) (List.length (rows df))) as [L |];
    [| discriminate].
  destruct (position c (columns df)); intros H; injection H as <-; cbn [rows];
    rewrite map_map;
    rewrite <- (combine_labels fst (fun (r : K * list Cell) (v : Cell) => fst r)
                  (fun _ _ => eq_refl) (rows df) vals L);
    apply map_ext; now intros [r v].
Qed.

Lemma index_length {K} (df : DataFrame K) :
  List.length (index df) = List.length (rows df).
Proof. unfold index. apply length_map. Qed.

(** ** [SearchCurrencyPrice._clean_data] *)

(** The cleaning step neither sends a request nor prints; when it returns,
    its result is a sorted frame whose labels are the coerced keys. *)
Lemma range_clean_data_inv (df : DataFrame Cell) (w w' : World)
      (out : DataFrame Timestamp) :
  SearchCurrencyPrice._clean_data df w = (Ok out, w') ->
  w' = w /\
  exists pre, out = sort_index pre /\ index pre = map coerce_key (index df).
Proof.
  unfold SearchCurrencyPrice._clean_data, bind, lift, ret.
  destruct (set_axis_spec df
              (to_datetime_coerce "%d%m%Y"
                 (map (fun x => zfill 8 (py_str x)) (index df))))
    as (df1 & -> & I1 & _).
  { unfold to_datetime_coerce. now rewrite !length_map, index_length. }
  destruct (numeric_column errors_raise df1 "Compra") as [compra |]; [| discriminate].
  destruct (setitem df1 "Compra" compra) as [df2 |] eqn:E2; [| discriminate].
  destruct (numeric_column errors_raise df2 "Venda") as [venda |]; [| discriminate].
  destruct (setitem df2 "Venda" venda) as [df3 |] eqn:E3; [| discriminate].
  intros H; injection H as <- <-. split; [reflexivity |].
  exists df3. split; [reflexivity |].
  rewrite (setitem_index _ _ _ _ E3), (setitem_index _ _ _ _ E2), I1.
  unfold to_datetime_coerce. now rewrite map_map.
Qed.

Lemma range_clean_data_world (df : DataFrame Cell) (w : World) :
  snd (SearchCurrencyPrice._clean_data df w) = w.
Proof.
  unfold SearchCurrencyPrice._clean_data, bind, lift, ret.
  destruct (set_axis df _) as [df1 |]; [| reflexivity].
  destruct (numeric_column errors_raise df1 "Compra") as [compra |]; [| reflexivity].
  destruct (setitem df1 "Compra" compra) as [df2 |]; [| reflexivity].
  destruct (numeric_column errors_raise df2 "Venda") as [venda |]; [| reflexivity].
  destruct (setitem df2 "Venda" venda) as [df3 |]; reflexivity.
Qed.

(** Every key of the raw frame is a label of the cleaned one: no row is
    dropped, whatever its key. *)
Lemma range_clean_data_keeps_rows (df : DataFrame Cell) (w w' : World)
      (out : DataFrame Timestamp) :
  SearchCurrencyPrice._clean_data df w = (Ok out, w') ->
  Permutation (index out) (map coerce_key (index df)).
Proof.
  intros H. apply range_clean_data_inv in H.
  destruct H as (_ & pre & -> & <-).
  unfold index. apply Permutation_map, sort_index_perm.
Qed.

(** When [get_data] returns a frame, that frame came out of the cleaning
    step. *)
Lemma get_data_Ok_inv (env : Env) (self : SearchCurrencyPrice.t) (w w' : World)
      (out : DataFrame Timestamp) :
  SearchCurrencyPrice.get_data env self w = (Ok out, w') ->
  exists pure_df w1, SearchCurrencyPrice._clean_data pure_df w1 = (Ok out, w').
Proof.
  unfold SearchCurrencyPrice.get_data, bind at 1.
  destruct (SearchCurrencyPrice._check_if_code_exists env self w) as [[ex |] w1];
    [| discriminate].
  unfold bind at 1.
  destruct (assert_ ex "Currency code does not exist" w1) as [[[] |] w2];
    [| discriminate].
  unfold bind.
  destruct (SearchCurrencyPrice._fetch_data env self w2) as [[pure_df |] w3];
    [| discriminate].
  intros H. now exists pure_df, w3.
Qed.

(** ** When the cleaning step returns *)

Lemma to_numeric_raise_ok (l : list string) :
  forall pos : Z,
    Forall (fun s => to_numeric_item s <> None) l ->
    exists xs : list pyfloat,
      to_numeric_from errors_raise pos l = Ok xs /\
      List.length xs = List.length l.
Proof.
  induction l as [| s l IH]; intros pos F; cbn [to_numeric_from].
  - now exists [].
  - inversion F as [| ? ? Hs Fl]; subst.
    destruct (to_numeric_item s) as [x |]; [| now elim Hs].
    destruct (IH (pos + 1) Fl) as (xs & -> & L).
    exists (x :: xs). split; [reflexivity | cbn; now rewrite L].
Qed.

Lemma nth_set_nth_other {A} (l : list A) :
  forall (i j : nat) (x d : A), i <> j -> nth i (set_nth j x l) d = nth i l d.
Proof.
  induction l as [| y l IH]; intros [| i] [| j] x d N; cbn; try reflexivity;
    try (now elim N).
  apply IH. congruence.
Qed.

Lemma numeric_column_ok {K} (df : DataFrame K) (c : string) (i : nat) :
  position c (columns df) = Some i ->
  Forall (fun r => numeric_cell (nth i (snd r) (VFloat NaN))) (rows df) ->
  exists vals : list Cell,
    numeric_column errors_raise df c = Ok vals /\
    List.length vals = List.length (rows df).
Proof.
  intros P F. unfold numeric_column, getitem. rewrite P.
  destruct (to_numeric_raise_ok
              (map (replace_char "," ".")
                 (map py_str (map (fun r => nth i (snd r) (VFloat NaN)) (rows df)))) 0)
    as (xs & E & L).
  { rewrite !Forall_map. exact F. }
  unfold to_numeric. rewrite E. eexists. split; [reflexivity |].
  rewrite length_map, L. now rewrite !length_map.
Qed.

Lemma setitem_existing {K} (df : DataFrame K) (c : string) (i : nat)
      (vals : list Cell) :
  position c (columns df) = Some i ->
  List.length vals = List.length (rows df) ->
  setitem df c vals =
  Ok (mkDataFrame (index_name df) (columns df)
        (map (fun '(r, v) => (fst r, set_nth i v (snd r)))
             (combine (rows df) vals))).
Proof.
  intros P L. unfold setitem. now rewrite L, Nat.eqb_refl, P.
Qed.

(** On a frame with the four columns of the range query whose Compra and
    Venda cells all read as numbers, the cleaning step returns. *)
Lemma range_clean_data_returns (df : DataFrame Cell) (w : World) :
  columns df = tl SearchCurrencyPrice.names ->
  Forall (fun r => numeric_cell (nth 2 (snd r) (VFloat NaN)) /\
                   numeric_cell (nth 3 (snd r) (VFloat NaN))) (rows df) ->
  exists out : DataFrame Timestamp,
    SearchCurrencyPrice._clean_data df w = (Ok out, w).
Proof.
  intros C F. unfold SearchCurrencyPrice._clean_data, bind, lift, ret.
  destruct (set_axis_spec df
              (to_datetime_coerce "%d%m%Y"
                 (map (fun x => zfill 8 (py_str x)) (index df))))
    as (df1 & -> & _ & C1 & R1).
  { unfold to_datetime_coerce. now rewrite !length_map, index_length. }
  rewrite C in C1.
  assert (F1 : Forall (fun cells => numeric_cell (nth 2 cells (VFloat NaN)) /\
                                    numeric_cell (nth 3 cells (VFloat NaN)))
                      (map snd (rows df1)))
    by (rewrite R1, Forall_map; exact F).
  rewrite Forall_map in F1.
  destruct (numeric_column_ok df1 "Compra" 2) as (compra & -> & L2).
  { now rewrite C1. }
  { revert F1. apply Forall_impl. tauto. }
  rewrite (setitem_existing df1 "Compra" 2 compra) by (now rewrite ?C1).
  match goal with |- context [numeric_column errors_raise ?d "Venda"] =>
    set (df2 := d) end.
  destruct (numeric_column_ok df2 "Venda" 3) as (venda & -> & L3).
  { unfold df2. cbn [columns]. now rewrite C1. }
  { unfold df2. cbn [rows]. rewrite Forall_map.
    apply Forall_forall. intros [r v] I. cbn [snd].
    rewrite nth_set_nth_other by discriminate.
    apply in_combine_l in I. rewrite Forall_forall in F1.
    now apply F1. }
  rewrite (setitem_existing df2 "Venda" 3 venda);
    [| unfold df2; cbn [columns]; now rewrite C1 | exact L3].
  eexists. reflexivity.
Qed.

Lemma mask_some_true {A} (l : list A) (mask : list bool) :
  List.length l = List.length mask -> In true mask ->
  filter snd (combine l mask) <> [].
Proof.
  revert l. induction mask as [| b mask IH]; intros [| a l] L I; cbn in *;
    try discriminate; try contradiction.
  destruct b; [discriminate |].
  destruct I as [I | I]; [discriminate |]. apply IH; [lia | exact I].
Qed.

(* ================================================================== *)
(** * The catalog                                                       *)
(* ================================================================== *)

Lemma map_combine_seq {A B} (g : A -> B) (l : list A) :
  forall start : nat,
    map (fun '(i, r) => g r) (combine (seq start (List.length l)) l) = map g l.
Proof.
  induction l as [| a l IH]; intros start; cbn; [reflexivity |].
  f_equal. apply IH.
Qed.

Lemma catalog_run (env : Env) (w : World) (page : Response) :
  requests_reply env (List.length (sent w)) SearchAvailableCurrencies.url = Ok page ->
  SearchAvailableCurrencies.get_available_currencies env w =
  (Ok (from_records
         (map currency_record (find_all (BeautifulSoup env (content page)) "option"))
         ["Currency"; "Code"]),
   mkWorld (sent w ++ [SearchAvailableCurrencies.url]) (stdout w)).
Proof.
  intros R.
  unfold SearchAvailableCurrencies.get_available_currencies,
    SearchAvailableCurrencies._fetch_data, SearchAvailableCurrencies._clean_data,
    requests_get, bind, ret.
  now rewrite R.
Qed.

Lemma catalog_records (options : list Node) :
  map snd (rows (from_records (map currency_record options) ["Currency"; "Code"]))
  = map currency_record options.
Proof.
  unfold from_records, frame_of_table. cbn [rows].
  rewrite map_map.
  transitivity (map (fun '(i, r) => fit 2 r)
                  (combine (seq 0 (List.length (map currency_record options)))
                     (map currency_record options))).
  - apply map_ext. now intros [i r].
  - rewrite (map_combine_seq (fit 2)), map_map. now apply map_ext.
Qed.

Lemma catalog_codes (options : list Node) :
  getitem (from_records (map currency_record options) ["Currency"; "Code"]) "Code"
  = Ok (map (fun o => opt_cell (get o "value")) options).
Proof.
  unfold getitem.
  change (position "Code" (columns (from_records (map currency_record options)
                                      ["Currency"; "Code"])))
    with (Some 1%nat).
  cbv beta iota. f_equal.
  transitivity (map (fun c => nth 1 c (VFloat NaN))
                  (map snd (rows (from_records (map currency_record options)
                                    ["Currency"; "Code"])))).
  - now rewrite map_map.
  - now rewrite catalog_records, map_map.
Qed.

Lemma find_in_option_element (name code : string) :
  find_in "option" (option_element name code) = [option_element name code].
Proof. reflexivity. Qed.

Lemma find_all_options (attrs : list (string * string))
      (opts : list (string * string)) :
  find_all
    (Tag "[document]" []
       [Tag "select" attrs (map (fun '(n, c) => option_element n c) opts)])
    "option"
  = map (fun '(n, c) => option_element n c) opts.
Proof.
  cbn [find_all flat_map find_in String.eqb Ascii.eqb Bool.eqb app].
  rewrite app_nil_r.
  induction opts as [| [n c] opts IH]; [reflexivity |].
  cbn [map flat_map]. rewrite IH. reflexivity.
Qed.

(** C8.  The catalog operation returns one record per option element of
    the page, in the order [find_all] meets them in the document, each
    made of the element's text and of its [value] attribute.  On a page
    whose options are the children of one [select], in any number and
    with repetitions or not, the records are exactly those options' names
    and codes in the order of the page: nothing is sorted or merged.  One
    request is sent. *)
Theorem catalog_lists_options_in_order :
  forall (env : Env) (w : World) (page : Response),
    requests_reply env (List.length (sent w)) SearchAvailableCurrencies.url
    = Ok page ->
    exists df : DataFrame Cell,
      SearchAvailableCurrencies.get_available_currencies env w =
      (Ok df, mkWorld (sent w ++ [SearchAvailableCurrencies.url]) (stdout w)) /\
      columns df = ["Currency"; "Code"] /\
      map snd (rows df) =
      map currency_record (find_all (BeautifulSoup env (content page)) "option") /\
      (forall (attrs : list (string * string)) (opts : list (string * string)),
         html_parser env (content page) =
         [Tag "select" attrs (map (fun '(n, c) => option_element n c) opts)] ->
         map snd (rows df) = map (fun '(n, c) => [VStr n; VStr c]) opts).
Proof.
  intros env w page R. eexists. split; [apply (catalog_run env w page R) |].
  split; [reflexivity |]. split; [apply catalog_records |].
  intros attrs opts P. rewrite catalog_records. unfold BeautifulSoup.
  rewrite P, find_all_options, map_map. apply map_ext. intros [n c].
  unfold currency_record, option_element. cbn. now rewrite str_app_nil_r.
Qed.

Lemma catalog_lists_options_in_order_witness :
  exists df : DataFrame Cell,
    SearchAvailableCurrencies.get_available_currencies Sample.env fresh =
    (Ok df, mkWorld [SearchAvailableCurrencies.url] []) /\
    map snd (rows df) = [[VStr "USD"; VStr "220"]; [VStr "EUR"; VStr "978"]].
Proof.
  destruct (catalog_lists_options_in_order Sample.env fresh Sample.catalog_page
              eq_refl) as (df & E & _ & _ & F).
  exists df. split; [exact E |].
  exact (F [] [("USD", "220"); ("EUR", "978")] eq_refl).
Defined.


(* ================================================================== *)
(** * The range query                                                   *)
(* ================================================================== *)

(** ** The catalog check *)

Lemma mask_all_false {A} (l : list A) (mask : list bool) :
  Forall (fun b => b = false) mask -> filter snd (combine l mask) = [].
Proof.
  intros F. revert l. induction F as [| b mask -> _ IH]; intros [| a l];
    cbn; auto.
Qed.

Lemma cell_eq_str_opt (o : option string) (s : string) :
  cell_eq_str (opt_cell o) s = true <-> o = Some s.
Proof.
  destruct o as [s' |]; cbn; [| split; discriminate].
  rewrite String.eqb_eq. split; congruence.
Qed.

(** The check answers [False] when no option carries the code. *)
Lemma check_code_absent (env : Env) (self : SearchCurrencyPrice.t) (w : World)
      (page : Response) :
  requests_reply env (List.length (sent w)) SearchAvailableCurrencies.url = Ok page ->
  ~ In (Some (str_int (SearchCurrencyPrice.currency_code self)))
       (map (fun o => get o "value")
            (find_all (BeautifulSoup env (content page)) "option")) ->
  SearchCurrencyPrice._check_if_code_exists env self w =
  (Ok false, mkWorld (sent w ++ [SearchAvailableCurrencies.url]) (stdout w)).
Proof.
  intros R N. unfold SearchCurrencyPrice._check_if_code_exists, bind.
  rewrite (catalog_run env w page R). unfold lift. rewrite catalog_codes.
  unfold ret, boolean_index. cbn [rows].
  rewrite mask_all_false; [reflexivity |].
  rewrite Forall_map, Forall_map. apply Forall_forall. intros o I.
  destruct (cell_eq_str _ _) eqn:E; [| reflexivity].
  apply cell_eq_str_opt in E. elim N. rewrite <- E.
  apply in_map_iff. now exists o.
Qed.

(** The requests of one [get_data]: the catalog, then at most the data. *)
Lemma get_data_requests (env : Env) (self : SearchCurrencyPrice.t) (w : World) :
  sent (snd (SearchCurrencyPrice.get_data env self w)) =
    (sent w ++ [SearchAvailableCurrencies.url])%list \/
  sent (snd (SearchCurrencyPrice.get_data env self w)) =
    (sent w ++ [SearchAvailableCurrencies.url; SearchCurrencyPrice.url self])%list.
Proof.
  unfold SearchCurrencyPrice.get_data, SearchCurrencyPrice._check_if_code_exists,
    SearchAvailableCurrencies.get_available_currencies,
    SearchAvailableCurrencies._fetch_data, SearchAvailableCurrencies._clean_data,
    requests_get, bind, ret, lift.
  destruct (requests_reply env _ _) as [page |]; [| now left].
  destruct (getitem _ "Code") as [code |]; [| now left].
  unfold assert_. destruct (negb _); [| now left].
  unfold ret, SearchCurrencyPrice._fetch_data, try_except, pd_read_csv, raise.
  cbn [sent stdout].
  destruct (read_csv_reply env _ _) as [table | e].
  - rewrite range_clean_data_world. cbn [sent]. right.
    now rewrite <- app_assoc.
  - destruct (is_ParserError (exc_cls e)); cbn [snd sent]; right;
      now rewrite <- app_assoc.
Qed.

(** C4.  When the catalog that is fetched has no option whose value is the
    decimal text of the currency code, [get_data] raises [AssertionError]
    (the specification's UnknownCurrencyError) after one request, the
    catalog's, and the data request is not sent.  Whatever was requested
    before, an invocation begins by requesting the catalog anew. *)
Theorem unknown_code_rejected :
  forall (env : Env) (self : SearchCurrencyPrice.t) (w : World),
    (forall page : Response,
       requests_reply env (List.length (sent w)) SearchAvailableCurrencies.url
       = Ok page ->
       ~ In (Some (str_int (SearchCurrencyPrice.currency_code self)))
            (map (fun o => get o "value")
                 (find_all (BeautifulSoup env (content page)) "option")) ->
       SearchCurrencyPrice.get_data env self w =
       (Raised (mkexc AssertionError "Currency code does not exist"),
        mkWorld (sent w ++ [SearchAvailableCurrencies.url]) (stdout w))) /\
    (exists rest : list string,
       sent (snd (SearchCurrencyPrice.get_data env self w)) =
       (sent w ++ SearchAvailableCurrencies.url :: rest)%list /\
       (rest = [] \/ rest = [SearchCurrencyPrice.url self])).
Proof.
  intros env self w. split.
  - intros page R N. unfold SearchCurrencyPrice.get_data, bind.
    now rewrite (check_code_absent env self w page R N).
  - destruct (get_data_requests env self w) as [E | E]; rewrite E.
    + exists []. split; [reflexivity | now left].
    + exists [SearchCurrencyPrice.url self]. split; [reflexivity | now right].
Qed.

Lemma unknown_code_rejected_witness :
  SearchCurrencyPrice.get_data Sample.env
    (SearchCurrencyPrice.mk 999 "01/01/2021" "30/07/2021") fresh =
  (Raised (mkexc AssertionError "Currency code does not exist"),
   mkWorld [SearchAvailableCurrencies.url] []).
Proof.
  apply (proj1 (unknown_code_rejected Sample.env
                  (SearchCurrencyPrice.mk 999 "01/01/2021" "30/07/2021") fresh)
           Sample.catalog_page).
  - reflexivity.
  - vm_compute. intros [H | [H | []]]; discriminate H.
Defined.

(** The check answers [True] when some option carries the code. *)
Lemma check_code_present (env : Env) (self : SearchCurrencyPrice.t) (w : World)
      (page : Response) :
  requests_reply env (List.length (sent w)) SearchAvailableCurrencies.url = Ok page ->
  In (Some (str_int (SearchCurrencyPrice.currency_code self)))
     (map (fun o => get o "value")
          (find_all (BeautifulSoup env (content page)) "option")) ->
  SearchCurrencyPrice._check_if_code_exists env self w =
  (Ok true, mkWorld (sent w ++ [SearchAvailableCurrencies.url]) (stdout w)).
Proof.
  intros R I. unfold SearchCurrencyPrice._check_if_code_exists, bind.
  rewrite (catalog_run env w page R). unfold lift. rewrite catalog_codes.
  unfold ret, boolean_index. cbn [rows]. do 2 f_equal.
  set (options := find_all (BeautifulSoup env (content page)) "option") in *.
  set (mask := map _ (map _ options)).
  assert (N : filter snd
                (combine (rows (from_records (map currency_record options)
                                  ["Currency"; "Code"])) mask) <> []).
  { apply mask_some_true.
    - unfold mask. rewrite !length_map.
      rewrite <- (length_map snd), catalog_records. now rewrite length_map.
    - unfold mask. rewrite map_map. apply in_map_iff.
      apply in_map_iff in I. destruct I as (o & E & I).
      exists o. split; [| exact I]. now apply cell_eq_str_opt. }
  destruct (filter snd _); [now elim N | reflexivity].
Qed.

Lemma nth_tl {A} (l : list A) (i : nat) (d : A) : nth i (tl l) d = nth (S i) l d.
Proof. destruct l; [now destruct i | reflexivity]. Qed.

(** With a known code, a CSV that is read and quotes that are numbers,
    [get_data] returns after its two requests. *)
Lemma get_data_returns (env : Env) (self : SearchCurrencyPrice.t) (w : World)
      (page : Response) (table : list (list Cell)) :
  requests_reply env (List.length (sent w)) SearchAvailableCurrencies.url = Ok page ->
  In (Some (str_int (SearchCurrencyPrice.currency_code self)))
     (map (fun o => get o "value")
          (find_all (BeautifulSoup env (content page)) "option")) ->
  read_csv_reply env (S (List.length (sent w))) (SearchCurrencyPrice.url self)
  = Ok table ->
  Forall (fun r => numeric_cell (nth 3 (fit 5 r) (VFloat NaN)) /\
                   numeric_cell (nth 4 (fit 5 r) (VFloat NaN))) table ->
  exists out : DataFrame Timestamp,
    SearchCurrencyPrice.get_data env self w =
    (Ok out,
     mkWorld (sent w ++ [SearchAvailableCurrencies.url; SearchCurrencyPrice.url self])
       (stdout w)) /\
    SearchCurrencyPrice._clean_data
      (frame_of_table SearchCurrencyPrice.names true table)
      (mkWorld (sent w ++ [SearchAvailableCurrencies.url; SearchCurrencyPrice.url self])
         (stdout w))
    = (Ok out,
       mkWorld (sent w ++ [SearchAvailableCurrencies.url; SearchCurrencyPrice.url self])
         (stdout w)).
Proof.
  intros R I T F.
  unfold SearchCurrencyPrice.get_data, bind.
  rewrite (check_code_present env self w page R I).
  cbn [assert_]. unfold ret at 1.
  unfold SearchCurrencyPrice._fetch_data, try_except, pd_read_csv.
  cbn [sent stdout]. rewrite length_app. cbn [List.length].
  rewrite Nat.add_1_r, T, <- app_assoc. cbn [app].
  destruct (range_clean_data_returns
              (frame_of_table SearchCurrencyPrice.names true table)
              (mkWorld (sent w ++ [SearchAvailableCurrencies.url;
                                   SearchCurrencyPrice.url self]) (stdout w)))
    as (out & E).
  - reflexivity.
  - cbn [frame_of_table rows]. rewrite Forall_map. revert F.
    apply Forall_impl. intros r. cbn [snd]. now rewrite !nth_tl.
  - exists out. split; exact E.
Qed.

(** C1.  Whenever a range query that was constructed and run returns a
    table, the labels of that table are dates in ascending order followed
    only by [NaT] entries: the table is sorted by date, and the rows whose
    key could not be read as a date come last.  And a table is returned
    whenever the final date is after the initial one, the catalog lists the
    code, the CSV is read and its quotes are numbers; its labels are then
    the coerced keys of all the rows read. *)
Theorem get_data_sorted_by_date :
  (forall (env : Env) (code : Z) (d1 d2 : date) (w w' : World)
          (out : DataFrame Timestamp),
     (self <- SearchCurrencyPrice.__init__ code d1 d2 ;;
      SearchCurrencyPrice.get_data env self) w = (Ok out, w') ->
     dates_then_NaT (index out)) /\
  (forall (env : Env) (code : Z) (d1 d2 : date) (w : World)
          (page : Response) (table : list (list Cell)),
     date_lt d1 d2 ->
     requests_reply env (List.length (sent w)) SearchAvailableCurrencies.url
     = Ok page ->
     In (Some (str_int code))
        (map (fun o => get o "value")
             (find_all (BeautifulSoup env (content page)) "option")) ->
     read_csv_reply env (S (List.length (sent w)))
       (SearchCurrencyPrice.url
          (SearchCurrencyPrice.mk code (strftime_d_m_Y d1) (strftime_d_m_Y d2)))
     = Ok table ->
     Forall (fun r => numeric_cell (nth 3 (fit 5 r) (VFloat NaN)) /\
                      numeric_cell (nth 4 (fit 5 r) (VFloat NaN))) table ->
     exists (out : DataFrame Timestamp) (w' : World),
       (self <- SearchCurrencyPrice.__init__ code d1 d2 ;;
        SearchCurrencyPrice.get_data env self) w = (Ok out, w') /\
       dates_then_NaT (index out) /\
       Permutation (index out)
         (map (fun r => coerce_key (hd (VFloat NaN) (fit 5 r))) table)).
Proof.
  split.
  - intros env code d1 d2 w w' out. unfold bind at 1.
    destruct (SearchCurrencyPrice.__init__ code d1 d2 w) as [[self |] w1];
      [| discriminate].
    intros H. apply get_data_Ok_inv in H. destruct H as (pure_df & w2 & H).
    apply range_clean_data_inv in H. destruct H as (_ & pre & -> & _).
    apply sort_index_order.
  - intros env code d1 d2 w page table D R I T F.
    apply date_ltb_lt in D.
    unfold bind at 1. unfold SearchCurrencyPrice.__init__, bind at 1, assert_.
    rewrite D. unfold ret at 1 2.
    destruct (get_data_returns env
                (SearchCurrencyPrice.mk code (strftime_d_m_Y d1) (strftime_d_m_Y d2))
                w page table R I T F) as (out & -> & E).
    exists out. eexists. split; [reflexivity |].
    pose proof (range_clean_data_keeps_rows _ _ _ _ E) as P.
    apply range_clean_data_inv in E. destruct E as (_ & pre & -> & _).
    split; [apply sort_index_order |].
    unfold index at 2 in P. cbn [frame_of_table rows] in P.
    rewrite !map_map in P. exact P.
Qed.

Lemma get_data_sorted_by_date_witness :
  dates_then_NaT (index Sample.cleaned) /\
  exists (out : DataFrame Timestamp) (w' : World),
    (self <- SearchCurrencyPrice.__init__ 220 Sample.jan_1 Sample.jul_30 ;;
     SearchCurrencyPrice.get_data Sample.env self) fresh = (Ok out, w') /\
    dates_then_NaT (index out) /\
    Permutation (index out)
      (map (fun r => coerce_key (hd (VFloat NaN) (fit 5 r))) Sample.range_table).
Proof.
  split.
  - eapply (proj1 get_data_sorted_by_date
              Sample.env 220 Sample.jan_1 Sample.jul_30 fresh).
    vm_compute. reflexivity.
  - apply (proj2 get_data_sorted_by_date
             Sample.env 220 Sample.jan_1 Sample.jul_30 fresh Sample.catalog_page
             Sample.range_table).
    + unfold date_lt. cbn. lia.
    + reflexivity.
    + vm_compute. now left.
    + reflexivity.
    + unfold numeric_cell. repeat constructor; vm_compute; discriminate.
Defined.



(** C3.  Constructing a range query with a final date that is the initial
    date or an earlier one raises [AssertionError] (the specification's
    InvalidRangeError); with a final date strictly after the initial date
    it returns the query object.  Either way the world is left as it was:
    nothing has been requested. *)
Theorem init_checks_date_order :
  forall (code : Z) (d1 d2 : date) (w : World),
    (date_le d2 d1 ->
     SearchCurrencyPrice.__init__ code d1 d2 w =
     (Raised (mkexc AssertionError "Final date is earlier than initial date"), w))
    /\
    (date_lt d1 d2 ->
     SearchCurrencyPrice.__init__ code d1 d2 w =
     (Ok (SearchCurrencyPrice.mk code (strftime_d_m_Y d1) (strftime_d_m_Y d2)), w)).
Proof.
  intros code d1 d2 w. unfold SearchCurrencyPrice.__init__, bind, assert_.
  split; intros H.
  - apply date_ltb_false in H. now rewrite H.
  - apply date_ltb_lt in H. now rewrite H.
Qed.

Lemma init_checks_date_order_witness :
  SearchCurrencyPrice.__init__ 220 Sample.jul_30 Sample.jan_1 fresh =
  (Raised (mkexc AssertionError "Final date is earlier than initial date"), fresh)
  /\
  SearchCurrencyPrice.__init__ 220 Sample.jan_1 Sample.jan_1 fresh =
  (Raised (mkexc AssertionError "Final date is earlier than initial date"), fresh)
  /\
  SearchCurrencyPrice.__init__ 220 Sample.jan_1 Sample.jul_30 fresh =
  (Ok (SearchCurrencyPrice.mk 220 "01/01/2021" "30/07/2021"), fresh).
Proof.
  split; [| split].
  - apply (proj1 (init_checks_date_order 220 Sample.jul_30 Sample.jan_1 fresh)).
    left. unfold date_lt. cbn. lia.
  - apply (proj1 (init_checks_date_order 220 Sample.jan_1 Sample.jan_1 fresh)).
    now right.
  - apply (proj2 (init_checks_date_order 220 Sample.jan_1 Sample.jul_30 fresh)).
    unfold date_lt. cbn. lia.
Defined.





(** C9.  When reading the range CSV raises [ParserError], the fetch step
    raises a plain [Exception] (the specification's UpstreamFormatError)
    whose message names the page
    https://www.bcb.gov.br/estabilidadefinanceira/historicocotacoes,
    where the caller can check that the currency is available.  The request
    has been sent by then. *)
Theorem parse_failure_names_lookup_page :
  forall (env : Env) (self : SearchCurrencyPrice.t) (w : World) (e : PyExc),
    read_csv_reply env (List.length (sent w)) (SearchCurrencyPrice.url self)
    = Raised e ->
    exc_cls e = ParserError ->
    SearchCurrencyPrice._fetch_data env self w =
    (Raised (mkexc Exception SearchCurrencyPrice.parse_error_message),
     mkWorld (sent w ++ [SearchCurrencyPrice.url self]) (stdout w)) /\
    str_in "https://www.bcb.gov.br/estabilidadefinanceira/historicocotacoes"
           SearchCurrencyPrice.parse_error_message = true /\
    str_in "Check if currency is available at"
           SearchCurrencyPrice.parse_error_message = true.
Proof.
  intros env self w e R C.
  unfold SearchCurrencyPrice._fetch_data, try_except, pd_read_csv, raise.
  rewrite R. cbn [exc_cls]. rewrite C. cbn [is_ParserError].
  repeat split; reflexivity.
Qed.

Lemma parse_failure_names_lookup_page_witness :
  SearchCurrencyPrice._fetch_data
    (Sample.env_with (Raised (mkexc ParserError "Error tokenizing data")))
    (SearchCurrencyPrice.mk 220 "01/01/2021" "30/07/2021") fresh =
  (Raised (mkexc Exception SearchCurrencyPrice.parse_error_message),
   mkWorld [SearchCurrencyPrice.url
              (SearchCurrencyPrice.mk 220 "01/01/2021" "30/07/2021")] []).
Proof.
  apply (parse_failure_names_lookup_page
           (Sample.env_with (Raised (mkexc ParserError "Error tokenizing data")))
           (SearchCurrencyPrice.mk 220 "01/01/2021" "30/07/2021") fresh
           (mkexc ParserError "Error tokenizing data"));
    reflexivity.
Defined.

(** Any other exception of the read leaves the fetch step as it is. *)
Lemma range_fetch_passes_other_errors (env : Env) (self : SearchCurrencyPrice.t)
      (w : World) (e : PyExc) :
  read_csv_reply env (List.length (sent w)) (SearchCurrencyPrice.url self)
  = Raised e ->
  exc_cls e <> ParserError ->
  fst (SearchCurrencyPrice._fetch_data env self w) = Raised e.
Proof.
  intros R C.
  unfold SearchCurrencyPrice._fetch_data, try_except, pd_read_csv, raise.
  rewrite R. cbn [exc_cls fst].
  destruct (exc_cls e); try reflexivity. now elim C.
Qed.

(* ================================================================== *)
(** * Numeric cells                                                     *)
(* ================================================================== *)

(** Comma-decimal text is read as the number it denotes. *)
Lemma comma_decimal_text :
  to_numeric_item (replace_char "," "." (py_str (VStr "5,2345"))) =
  Some (Fin (mkdec 52345 (-4))) /\
  Qeq (dec_value (mkdec 52345 (-4))) (Qmake 52345 10000).
Proof. split; reflexivity. Qed.

(** Text that is no number has no value. *)
Lemma not_a_number_text :
  to_numeric_item (replace_char "," "." (py_str (VStr "N/D"))) = None.
Proof. reflexivity. Qed.

(** Under [errors='coerce'] the conversion of a column always returns, one
    value per text. *)
Lemma to_numeric_coerce_total (l : list string) :
  forall pos : Z,
    exists xs : list pyfloat,
      to_numeric_from errors_coerce pos l = Ok xs /\
      xs = map (fun s => match to_numeric_item s with
                         | Some x => x
                         | None => NaN
                         end) l.
Proof.
  induction l as [| s l IH]; intros pos; cbn [to_numeric_from map].
  - now exists [].
  - destruct (IH (pos + 1)) as (xs & -> & E).
    destruct (to_numeric_item s); eexists; (split; [reflexivity | now rewrite E]).
Qed.

(** Under the default [errors='raise'] the conversion raises [ValueError]
    as soon as one text is no number. *)
Lemma to_numeric_raise_fails (l : list string) :
  forall pos : Z,
    (exists s, In s l /\ to_numeric_item s = None) ->
    exists e : PyExc,
      to_numeric_from errors_raise pos l = Raised e /\ exc_cls e = ValueError.
Proof.
  induction l as [| s l IH]; intros pos (s' & I & N); [destruct I |].
  cbn [to_numeric_from]. destruct (to_numeric_item s) as [x |] eqn:E.
  - destruct I as [-> | I]; [congruence |].
    destruct (IH (pos + 1)) as (e & -> & C); [now exists s' |]. now exists e.
  - eexists. split; reflexivity.
Qed.

(** The cleaning step of the range query raises as soon as one Compra
    cell is no number. *)
Lemma range_clean_data_raises (df : DataFrame Cell) (w : World) :
  columns df = tl SearchCurrencyPrice.names ->
  (exists r, In r (rows df) /\
             to_numeric_item
               (replace_char "," "." (py_str (nth 2 (snd r) (VFloat NaN)))) = None) ->
  exists e : PyExc,
    SearchCurrencyPrice._clean_data df w = (Raised e, w) /\
    exc_cls e = ValueError.
Proof.
  intros C (r & I & N).
  unfold SearchCurrencyPrice._clean_data, bind, lift, ret.
  destruct (set_axis_spec df
              (to_datetime_coerce "%d%m%Y"
                 (map (fun x => zfill 8 (py_str x)) (index df))))
    as (df1 & -> & _ & C1 & R1).
  { unfold to_datetime_coerce. now rewrite !length_map, index_length. }
  unfold numeric_column, getitem. rewrite C1, C.
  change (position "Compra" (tl SearchCurrencyPrice.names)) with (Some 2%nat).
  cbv beta iota. unfold to_numeric.
  destruct (to_numeric_raise_fails
              (map (replace_char "," ".")
                 (map py_str
                    (map (fun r => nth 2 (snd r) (VFloat NaN)) (rows df1)))) 0)
    as (e & -> & E).
  - exists (replace_char "," "." (py_str (nth 2 (snd r) (VFloat NaN)))).
    split; [| exact N].
    rewrite <- (map_map snd (fun c => nth 2 c (VFloat NaN))), R1, !map_map.
    apply in_map_iff. now exists r.
  - now exists e.
Qed.

(** C2 (the code departs from it).  A range CSV whose Compra column holds
    the texts 5,2345 and N/D: the cleaning step of the range query raises
    [ValueError], because its [to_numeric] runs with the default
    [errors='raise'].  The snapshot's cleaning step, which passes
    [errors='coerce'], turns the same text into NaN and 5,2345 into
    5.2345. *)
Theorem range_cleaning_raises_on_text :
  SearchCurrencyPrice.get_data (Sample.env_with (Ok Sample.range_table_ND))
    (SearchCurrencyPrice.mk 220 "01/01/2021" "30/07/2021") fresh =
  (Raised (unable_to_parse "N/D" 1),
   mkWorld [SearchAvailableCurrencies.url;
            SearchCurrencyPrice.url
              (SearchCurrencyPrice.mk 220 "01/01/2021" "30/07/2021")] []) /\
  fst (SearchAllCurrenciesPrices.get_prices
         (Sample.env_with (Ok Sample.snapshot_table_ND))
         (SearchAllCurrenciesPrices.mk "20210104") fresh) =
  Ok (mkDataFrame (Some "Reference Date")
        (tl SearchAllCurrenciesPrices.columns)
        [(VTime (Stamp (mkdate 2021 1 4)),
          [VInt 220; VStr "A"; VStr "USD";
           VFloat (Fin (mkdec 52345 (-4))); VFloat NaN;
           VFloat (Fin (mkdec 1 0)); VFloat (Fin (mkdec 1 0))])]).
Proof. split; vm_compute; reflexivity. Qed.
(* ================================================================== *)
(** * The daily snapshot                                                *)
(* ================================================================== *)

(** The frame [get_prices] returns when there is no data. *)
Lemma snapshot_clean_empty (w : World) :
  SearchAllCurrenciesPrices._clean_data
    (empty_frame SearchAllCurrenciesPrices.columns) w =
  (Ok (mkDataFrame (Some "Reference Date")
         (tl SearchAllCurrenciesPrices.columns) []), w).
Proof. reflexivity. Qed.

(** The handler of the snapshot fetch, whatever the exception. *)
Lemma snapshot_fetch_on_error (env : Env) (self : SearchAllCurrenciesPrices.t)
      (w : World) (e : PyExc) :
  read_csv_reply env (List.length (sent w)) (SearchAllCurrenciesPrices.url self)
  = Raised e ->
  SearchAllCurrenciesPrices._fetch_data env self w =
  if is_Exception (exc_cls e) &&
     str_in SearchAllCurrenciesPrices.not_found_marker (exc_str e)
  then
    (Ok (empty_frame SearchAllCurrenciesPrices.columns),
     mkWorld (sent w ++ [SearchAllCurrenciesPrices.url self])
       (stdout w ++
        [SearchAllCurrenciesPrices.url self;
         "Currency is not available for this date: " ++
         SearchAllCurrenciesPrices.reference_date self ++ ", " ++
         SearchAllCurrenciesPrices.url self]))
  else
    (Raised e,
     mkWorld (sent w ++ [SearchAllCurrenciesPrices.url self])
       (stdout w ++ [SearchAllCurrenciesPrices.url self])).
Proof.
  intros R.
  unfold SearchAllCurrenciesPrices._fetch_data, bind, print, try_except,
    pd_read_csv, raise, ret.
  cbn [sent stdout]. rewrite R.
  destruct (is_Exception (exc_cls e)); cbn [andb]; [| reflexivity].
  destruct (str_in _ (exc_str e)); [| reflexivity].
  cbn [sent stdout]. now rewrite <- app_assoc.
Qed.

(** The claim C5 as worded fails on these two replies.  A 404 whose reason
    phrase is not "Not Found" is a not-found condition, yet [get_prices]
    raises it; a network failure whose text quotes the marker is another
    failure, yet [get_prices] returns the empty table.  The handler reads
    the text of the exception, not the status of the reply. *)
Lemma snapshot_not_found_depends_on_text :
  fst (SearchAllCurrenciesPrices.get_prices
         (Sample.env_with (Raised (http_error 404 "File not found")))
         (SearchAllCurrenciesPrices.mk "20210101") fresh)
  = Raised (http_error 404 "File not found") /\
  fst (SearchAllCurrenciesPrices.get_prices
         (Sample.env_with
            (Raised (mkexc URLError "<urlopen error HTTP Error 404: Not Found>")))
         (SearchAllCurrenciesPrices.mk "20210101") fresh)
  = Ok (mkDataFrame (Some "Reference Date")
          (tl SearchAllCurrenciesPrices.columns) []).
Proof.
  split; vm_compute; reflexivity.
Qed.

(** C5 (amended).  Let reading the snapshot CSV raise an exception [e].
    If [except Exception] catches [e] and the text of [e] contains
    "HTTP Error 404: Not Found", the fetch step returns the empty table
    with the eight declared columns and [get_prices] returns the empty
    table whose index and columns are those eight labels, after the one
    request; nothing is raised.  In every other case, that is when the
    text of [e] does not contain the marker or [e] is not an [Exception],
    [e] itself reaches the caller of both.  The urllib error of a 404 with
    the standard reason phrase has such a text. *)
Theorem snapshot_empty_iff_text_has_marker :
  forall (env : Env) (self : SearchAllCurrenciesPrices.t) (w : World) (e : PyExc),
    read_csv_reply env (List.length (sent w)) (SearchAllCurrenciesPrices.url self)
    = Raised e ->
    (is_Exception (exc_cls e) = true ->
     str_in SearchAllCurrenciesPrices.not_found_marker (exc_str e) = true ->
     exists w' : World,
       SearchAllCurrenciesPrices._fetch_data env self w =
       (Ok (mkDataFrame None SearchAllCurrenciesPrices.columns []), w') /\
       SearchAllCurrenciesPrices.get_prices env self w =
       (Ok (mkDataFrame (Some "Reference Date")
              (tl SearchAllCurrenciesPrices.columns) []), w') /\
       sent w' = (sent w ++ [SearchAllCurrenciesPrices.url self])%list) /\
    (is_Exception (exc_cls e) &&
     str_in SearchAllCurrenciesPrices.not_found_marker (exc_str e) = false ->
     exists w' : World,
       SearchAllCurrenciesPrices._fetch_data env self w = (Raised e, w') /\
       SearchAllCurrenciesPrices.get_prices env self w = (Raised e, w') /\
       sent w' = (sent w ++ [SearchAllCurrenciesPrices.url self])%list) /\
    is_Exception (exc_cls (http_error 404 "Not Found")) &&
    str_in SearchAllCurrenciesPrices.not_found_marker
      (exc_str (http_error 404 "Not Found")) = true /\
    List.length SearchAllCurrenciesPrices.columns = 8%nat /\
    schema (mkDataFrame (K := Cell) (Some "Reference Date")
              (tl SearchAllCurrenciesPrices.columns) [])
    = SearchAllCurrenciesPrices.columns.
Proof.
  intros env self w e R.
  pose proof (snapshot_fetch_on_error env self w e R) as F.
  split; [| split; [| split; [| split]]]; try reflexivity.
  - intros C T. rewrite C, T in F. cbn [andb] in F.
    eexists. split; [exact F |]. split; [| reflexivity].
    unfold SearchAllCurrenciesPrices.get_prices, bind. rewrite F.
    apply snapshot_clean_empty.
  - intros N. rewrite N in F.
    eexists. split; [exact F |]. split; [| reflexivity].
    unfold SearchAllCurrenciesPrices.get_prices, bind. now rewrite F.
Qed.

Lemma snapshot_empty_iff_text_has_marker_witness :
  (exists w' : World,
     SearchAllCurrenciesPrices.get_prices
       (Sample.env_with (Raised (http_error 404 "Not Found")))
       (SearchAllCurrenciesPrices.mk "20210101") fresh =
     (Ok (mkDataFrame (Some "Reference Date")
            (tl SearchAllCurrenciesPrices.columns) []), w')) /\
  (exists w' : World,
     SearchAllCurrenciesPrices.get_prices
       (Sample.env_with (Raised (http_error 500 "Internal Server Error")))
       (SearchAllCurrenciesPrices.mk "20210101") fresh =
     (Raised (http_error 500 "Internal Server Error"), w')).
Proof.
  split.
  - destruct (proj1 (snapshot_empty_iff_text_has_marker
                       (Sample.env_with (Raised (http_error 404 "Not Found")))
                       (SearchAllCurrenciesPrices.mk "20210101") fresh
                       (http_error 404 "Not Found") eq_refl)
                eq_refl eq_refl)
      as (w' & _ & G & _).
    now exists w'.
  - destruct (proj1 (proj2 (snapshot_empty_iff_text_has_marker
                       (Sample.env_with
                          (Raised (http_error 500 "Internal Server Error")))
                       (SearchAllCurrenciesPrices.mk "20210101") fresh
                       (http_error 500 "Internal Server Error") eq_refl))
                eq_refl)
      as (w' & _ & G & _).
    now exists w'.
Defined.

(** ** The constructor of the snapshot query *)

(** With a [datetime] given, the constructor compares it with the clock. *)
Lemma snapshot_init_given (import_time now t : datetime) (w : World) :
  SearchAllCurrenciesPrices.__init__ import_time (Some (PDateTime t)) now w =
  if datetime_leb t now
  then (Ok (SearchAllCurrenciesPrices.mk (strftime_Ymd (dt_date t))), w)
  else (Raised (mkexc AssertionError
                  "Final date is should be earlier than today"), w).
Proof.
  unfold SearchAllCurrenciesPrices.__init__, bind, assert_.
  now destruct (datetime_leb t now).
Qed.

(** With a plain [date] given, the comparison itself raises. *)
Lemma snapshot_init_plain_date (import_time now : datetime) (d : date) (w : World) :
  SearchAllCurrenciesPrices.__init__ import_time (Some (PDate d)) now w =
  (Raised (mkexc TypeError "can't compare datetime.datetime to datetime.date"), w).
Proof. reflexivity. Qed.

(** With no argument, the query is for the day the module was imported,
    whatever the clock says now. *)
Lemma snapshot_init_default (import_time now : datetime) (w : World) :
  datetime_leb import_time now = true ->
  SearchAllCurrenciesPrices.__init__ import_time None now w =
  (Ok (SearchAllCurrenciesPrices.mk (strftime_Ymd (dt_date import_time))), w).
Proof.
  intros H. unfold SearchAllCurrenciesPrices.__init__, bind, assert_.
  now rewrite H.
Qed.

(** C7 (the code departs from it).  A module imported on 2021-01-01 and a
    query constructed without a date on 2021-01-05: the query is for
    20210101, not for the current day 20210105, and that is the file it
    then requests. *)
Theorem default_reference_date_is_import_time :
  SearchAllCurrenciesPrices.__init__
    (Sample.morning Sample.jan_1) None (Sample.morning Sample.jan_5) fresh =
  (Ok (SearchAllCurrenciesPrices.mk "20210101"), fresh) /\
  strftime_Ymd (dt_date (Sample.morning Sample.jan_5)) = "20210105" /\
  SearchAllCurrenciesPrices.url (SearchAllCurrenciesPrices.mk "20210101") =
  "https://www4.bcb.gov.br/Download/fechamento/20210101.csv".
Proof. repeat split. Qed.


(** ** The snapshot's cleaning step always returns *)

Lemma clean_column_ok (df : DataFrame Cell) (c : string) (i : nat) (w : World) :
  position c (columns df) = Some i ->
  exists df' : DataFrame Cell,
    SearchAllCurrenciesPrices.clean_column df c w = (Ok df', w) /\
    columns df' = columns df /\
    List.length (rows df') = List.length (rows df).
Proof.
  intros P.
  unfold SearchAllCurrenciesPrices.clean_column, bind, lift, numeric_column,
    getitem, to_numeric.
  rewrite P.
  destruct (to_numeric_coerce_total
              (map (replace_char "," ".")
                 (map py_str (map (fun r => nth i (snd r) (VFloat NaN)) (rows df)))) 0)
    as (xs & -> & E).
  rewrite (setitem_existing df c i (map VFloat xs) P)
    by (rewrite E; now rewrite !length_map).
  eexists. split; [reflexivity |]. split; [reflexivity |].
  cbn [rows]. rewrite length_map, length_combine, length_map, E, !length_map.
  apply Nat.min_id.
Qed.

(** Whatever the cells of a table with the eight declared columns, the
    cleaning step of the snapshot returns a table with as many rows: a cell
    that is no number or no date becomes NaN or NaT. *)
Lemma snapshot_clean_data_returns (df : DataFrame Cell) (w : World) :
  columns df = SearchAllCurrenciesPrices.columns ->
  exists out : DataFrame Cell,
    SearchAllCurrenciesPrices._clean_data df w = (Ok out, w) /\
    List.length (rows out) = List.length (rows df).
Proof.
  intros C. unfold SearchAllCurrenciesPrices._clean_data, bind at 1, lift at 1.
  unfold getitem. rewrite C.
  change (position "Reference Date" SearchAllCurrenciesPrices.columns)
    with (Some 0%nat).
  cbv beta iota. unfold bind at 1, lift at 1.
  rewrite (setitem_existing df "Reference Date" 0)
    by (rewrite ?C, ?length_map; reflexivity).
  unfold bind at 1, lift at 1, set_index. cbn [columns]. rewrite C.
  change (position "Reference Date" SearchAllCurrenciesPrices.columns)
    with (Some 0%nat).
  cbv beta iota.
  match goal with |- context [SearchAllCurrenciesPrices.for_columns _ ?d] =>
    set (df2 := d) end.
  assert (C2 : columns df2 = tl SearchAllCurrenciesPrices.columns) by reflexivity.
  assert (L2 : List.length (rows df2) = List.length (rows df)).
  { unfold df2. cbn [rows].
    rewrite !length_map, length_combine, !length_map. apply Nat.min_id. }
  clearbody df2. cbn [SearchAllCurrenciesPrices.for_columns]. unfold bind.
  destruct (clean_column_ok df2 "Cotações em Real - Compra" 3 w)
    as (df3 & -> & C3 & L3); [now rewrite C2 |].
  destruct (clean_column_ok df3 "Cotações em Real - Venda" 4 w)
    as (df4 & -> & C4 & L4); [now rewrite C3, C2 |].
  destruct (clean_column_ok df4 "Paridade - Compra" 5 w)
    as (df5 & -> & C5 & L5); [now rewrite C4, C3, C2 |].
  destruct (clean_column_ok df5 "Paridade - Venda" 6 w)
    as (df6 & -> & C6 & L6); [now rewrite C5, C4, C3, C2 |].
  exists df6. split; [reflexivity | congruence].
Qed.

(* ================================================================== *)
(** * Further properties                                                *)
(* ================================================================== *)

(** ** Reading digits back *)

Lemma read_digits_fmt_width (k : nat) :
  forall (n : Z) (rest : string) (acc : Z) (c : nat),
    0 <= n < 10 ^ Z.of_nat k ->
    read_digits (fmt_width k n ++ rest) acc c =
    read_digits rest (acc * 10 ^ Z.of_nat k + n) (c + k).
Proof.
  induction k as [| k IH]; intros n rest acc c H.
  - change (10 ^ Z.of_nat 0) with 1 in *. cbn [fmt_width append].
    rewrite Nat.add_0_r. f_equal. lia.
  - cbn [fmt_width]. rewrite str_app_assoc. cbn [append].
    rewrite Nat2Z.inj_succ, Z.pow_succ_r in * by lia.
    rewrite IH by divmod. cbn [read_digits].
    rewrite digit_val_digit_char by divmod.
    f_equal; [divmod | lia].
Qed.

Lemma read_digits_stop (c : ascii) (r : string) (acc : Z) (n : nat) :
  digit_val c = None -> read_digits (String c r) acc n = (acc, n, String c r).
Proof. intros H. cbn [read_digits]. now rewrite H. Qed.

Lemma digits_value_fmt_width (k : nat) (n : Z) :
  0 <= n < 10 ^ Z.of_nat k -> digits_value (fmt_width k n) = n.
Proof.
  intros H. unfold digits_value.
  rewrite <- (str_app_nil_r (fmt_width k n)), read_digits_fmt_width by exact H.
  cbn. lia.
Qed.

(** The text of a number has as many characters as the number needs. *)
Lemma digits_of_length_bound (fuel : nat) :
  forall (n : Z) (k : nat),
    0 <= n < 10 ^ Z.of_nat fuel -> (1 <= k)%nat ->
    (String.length (digits_of fuel n) <= k)%nat -> n < 10 ^ Z.of_nat k.
Proof.
  induction fuel as [| f IH]; intros n k Hf K L.
  - change (10 ^ Z.of_nat 0) with 1 in Hf.
    assert (0 < 10 ^ Z.of_nat k) by (apply Z.pow_pos_nonneg; lia). lia.
  - cbn [digits_of] in L. destruct k as [| k]; [lia |].
    rewrite Nat2Z.inj_succ, Z.pow_succ_r in * by lia.
    destruct (Z.ltb_spec n 10) as [Lt | Ge].
    + assert (0 < 10 ^ Z.of_nat k) by (apply Z.pow_pos_nonneg; lia). lia.
    + rewrite str_length_app in L. cbn [String.length] in L.
      assert (P : 0 <= n / 10 < 10 ^ Z.of_nat f) by divmod.
      destruct k as [| k].
      * exfalso. destruct f as [| f]; [change (10 ^ Z.of_nat 0) with 1 in P; lia |].
        cbn [digits_of] in L. destruct (n / 10 <? 10); cbn [String.length] in L;
          rewrite ?str_length_app in L; cbn [String.length] in L; lia.
      * pose proof (IH (n / 10) (S k) P ltac:(lia) ltac:(lia)). divmod.
Qed.

(** [str] of an integer read back as an integer. *)
Lemma zfill_str_int_nonneg (n : Z) (s : string) :
  0 <= n -> zfill 8 (str_int n) = s -> String.length s = 8%nat ->
  n < 100000000 /\ s = fmt_width 8 n.
Proof.
  intros N E L. unfold str_int in E. replace (n <? 0) with false in E by lia.
  assert (B : n < 10 ^ Z.of_nat 8).
  { apply (digits_of_length_bound (digits_fuel n) n 8);
      [split; [lia | now apply digits_fuel_enough] | lia |].
    fold (nat_digits n).
    destruct (Nat.leb_spec 8 (String.length (nat_digits n))) as [Le | Gt]; [| lia].
    unfold zfill in E. apply Nat.leb_le in Le. rewrite Le in E. subst s. lia. }
  split; [exact B |].
  rewrite zfill_nat_digits in E by lia. now subst s.
Qed.

Lemma fmt_width_head (k : nat) :
  forall n : Z, exists (x : Z) (r : string),
    0 <= x <= 9 /\ fmt_width (S k) n = String (digit_char x) r.
Proof.
  induction k as [| k IH]; intros n.
  - exists (n mod 10), "". split; [divmod | reflexivity].
  - destruct (IH (n / 10)) as (x & r & H & E).
    exists x, (r ++ String (digit_char (n mod 10)) "").
    split; [exact H |]. change (fmt_width (S (S k)) n)
      with (fmt_width (S k) (n / 10) ++ String (digit_char (n mod 10)) "").
    now rewrite E.
Qed.

Lemma ddmmyyyy_head (d : date) :
  exists (x : Z) (r : string), 0 <= x <= 9 /\ ddmmyyyy d = String (digit_char x) r.
Proof.
  unfold ddmmyyyy. destruct (fmt_width_head 1 (day d)) as (x & r & H & E).
  rewrite E. cbn [append]. now exists x, (r ++ fmt_width 2 (month d) ++ fmt_width 4 (year d)).
Qed.

Lemma length_ddmmyyyy (d : date) : String.length (ddmmyyyy d) = 8%nat.
Proof. unfold ddmmyyyy. now rewrite !str_length_app, !length_fmt_width. Qed.

Lemma length_blank_dmmyyyy (d : date) : String.length (blank_dmmyyyy d) = 8%nat.
Proof.
  unfold blank_dmmyyyy. cbn [String.length].
  now rewrite !str_length_app, !length_fmt_width.
Qed.

Lemma key_number_bounds (d : date) :
  date_valid d = true -> 0 <= key_number d < 10 ^ Z.of_nat 8.
Proof.
  intros V. destruct (date_valid_ranges d V) as (Hy & Hm & Hd).
  unfold key_number. change (10 ^ Z.of_nat 8) with 100000000. lia.
Qed.

Lemma zfill_minus_head (w : nat) (r : string) :
  exists r' : string, zfill w (String "-" r) = String "-" r'.
Proof.
  unfold zfill. destruct (w <=? String.length (String "-" r))%nat;
    [now exists r |].
  change (is_sign "-") with true. cbv iota. eexists. reflexivity.
Qed.

(** X1.  An integer row key is read as a date exactly when it is the
    number made of that date's day, month and year digits (1012021 for
    2021-01-01): no other integer, and no negative one, gives a date. *)
Theorem integer_key_is_date_iff_key_number :
  forall (n : Z) (d : date),
    coerce_key (VInt n) = Stamp d <->
    date_valid d = true /\ in_bounds d = true /\ n = key_number d.
Proof.
  intros n d. split.
  - intros H. unfold coerce_key in H. cbn [py_str] in H.
    apply strptime_dmY_inv in H; [| apply length_zfill].
    destruct H as (V & B & H). split; [exact V | split; [exact B |]].
    destruct (Z.ltb_spec n 0) as [Neg | Pos].
    + exfalso. unfold str_int in H. replace (n <? 0) with true in H by lia.
      destruct (zfill_minus_head 8 (nat_digits (- n))) as (r' & E).
      rewrite E in H. destruct H as [H | [_ H]].
      * destruct (ddmmyyyy_head d) as (x & r & Hx & Ed). rewrite Ed in H.
        injection H as H _. pose proof (is_sign_digit_char x Hx) as S.
        rewrite <- H in S. discriminate S.
      * discriminate H.
    + destruct H as [H | [_ H]].
      * destruct (zfill_str_int_nonneg n _ Pos H (length_ddmmyyyy d)) as [Bn E].
        rewrite <- (fmt_width_key_number d V) in E.
        rewrite <- (digits_value_fmt_width 8 n)
          by (change (10 ^ Z.of_nat 8) with 100000000; lia).
        rewrite <- E. apply digits_value_fmt_width. now apply key_number_bounds.
      * exfalso.
        destruct (zfill_str_int_nonneg n _ Pos H (length_blank_dmmyyyy d)) as [_ E].
        destruct (fmt_width_head 7 n) as (x & r & Hx & Ef). rewrite Ef in E.
        injection E as E _. symmetry in E. now apply digit_char_not_space in E.
  - intros (V & B & ->). now apply coerce_key_number.
Qed.

Lemma integer_key_is_date_iff_key_number_witness :
  coerce_key (VInt 31122020) = Stamp (mkdate 2020 12 31) /\
  31122020 = key_number (mkdate 2020 12 31).
Proof.
  split.
  - apply (proj2 (integer_key_is_date_iff_key_number 31122020 (mkdate 2020 12 31))).
    repeat split.
  - exact (proj2 (proj2 (proj1 (integer_key_is_date_iff_key_number 31122020
                                  (mkdate 2020 12 31)) eq_refl))).
Defined.

(** ** Keys that are no dates *)

Lemma has_char_app (c : ascii) (a b : string) :
  has_char c (a ++ b) = has_char c a || has_char c b.
Proof.
  induction a as [| x a IH]; cbn [append has_char]; [reflexivity |].
  now rewrite IH, orb_assoc.
Qed.

Lemma has_char_digit (c : ascii) (x : Z) :
  is_digit c = false -> 0 <= x <= 9 -> Ascii.eqb (digit_char x) c = false.
Proof.
  intros N H. destruct (Ascii.eqb_spec (digit_char x) c) as [<- | _];
    [| reflexivity].
  pose proof (digit_val_digit_char x H) as D. unfold digit_val in D.
  rewrite N in D. discriminate D.
Qed.

Lemma has_char_fmt_width (c : ascii) (k : nat) :
  is_digit c = false -> forall n : Z, has_char c (fmt_width k n) = false.
Proof.
  intros N. induction k as [| k IH]; intros n; cbn [fmt_width has_char];
    [reflexivity |].
  rewrite has_char_app, IH. cbn [has_char].
  rewrite has_char_digit by (assumption || divmod). reflexivity.
Qed.

Lemma has_char_zeros (c : ascii) (k : nat) :
  is_digit c = false -> has_char c (zeros k) = false.
Proof.
  intros N. induction k as [| k IH]; cbn [zeros has_char]; [reflexivity |].
  rewrite IH. change "0"%char with (digit_char 0).
  rewrite has_char_digit by (assumption || lia). reflexivity.
Qed.

Lemma has_char_zfill (c : ascii) (w : nat) (s : string) :
  is_digit c = false -> has_char c (zfill w s) = has_char c s.
Proof.
  intros N. unfold zfill. destruct (w <=? String.length s)%nat; [reflexivity |].
  destruct s as [| x r].
  - now rewrite has_char_zeros.
  - destruct (is_sign x); cbn [has_char]; rewrite has_char_app, has_char_zeros by exact N;
      reflexivity.
Qed.

(** A text that holds a character which is neither a digit nor a blank
    is not read as a date. *)
Lemma strptime_dmY_foreign_char (c : ascii) (s : string) :
  is_digit c = false -> c <> " "%char -> has_char c s = true ->
  strptime_coerce "%d%m%Y" (zfill 8 s) = NaT.
Proof.
  intros N B H.
  destruct (strptime_coerce "%d%m%Y" (zfill 8 s)) as [| d] eqn:E; [reflexivity |].
  exfalso. apply strptime_dmY_inv in E; [| apply length_zfill].
  destruct E as (V & _ & E).
  destruct (date_valid_ranges d V) as (_ & _ & Hd).
  assert (F : has_char c (zfill 8 s) = false).
  { destruct E as [-> | [D9 ->]].
    - unfold ddmmyyyy. now rewrite !has_char_app, !has_char_fmt_width.
    - unfold blank_dmmyyyy. cbn [has_char].
      rewrite has_char_app, !has_char_fmt_width by exact N.
      rewrite has_char_digit.
      + destruct (Ascii.eqb_spec " " c) as [<- | _]; [now elim B | reflexivity].
      + exact N.
      + lia. }
  rewrite has_char_zfill in F by exact N. congruence.
Qed.

Lemma repr_float_mark (x : pyfloat) :
  has_char "." (repr_float x) || has_char "e" (repr_float x)
  || has_char "n" (repr_float x) = true.
Proof.
  destruct x as [[m e] | | []]; try reflexivity.
  unfold repr_float. cbn [mantissa exponent].
  destruct (m =? 0); [reflexivity |].
  set (ds := nat_digits (Z.abs m)).
  set (n := Z.of_nat (String.length ds)).
  destruct ((-4 <? n + e) && (n + e <=? 16)).
  - destruct (n + e <=? 0); [| destruct (n <=? n + e)];
      rewrite !has_char_app; cbn [has_char];
      change (Ascii.eqb "." ".") with true;
      rewrite ?orb_true_r, ?orb_true_l; reflexivity.
  - rewrite !(has_char_app "e"). cbn [has_char].
    change (Ascii.eqb "e" "e") with true.
    rewrite ?orb_true_r, ?orb_true_l. reflexivity.
Qed.

(** X2.  A row key that is a float or [None] is never read as a date.
    (pandas holds a key column as floats as soon as one key is missing:
    every row of such a table is labelled [NaT].) *)
Theorem float_key_is_never_a_date :
  (forall x : pyfloat, coerce_key (VFloat x) = NaT) /\
  coerce_key VNone = NaT.
Proof.
  split; [| reflexivity].
  intros x. unfold coerce_key. cbn [py_str].
  pose proof (repr_float_mark x) as M.
  apply orb_prop in M. destruct M as [M | M]; [apply orb_prop in M; destruct M as [M | M] |].
  - now apply (strptime_dmY_foreign_char "." _).
  - now apply (strptime_dmY_foreign_char "e" _).
  - now apply (strptime_dmY_foreign_char "n" _).
Qed.


(** ** Comma-decimal texts *)

Lemma replace_char_app (old : ascii) (new a b : string) :
  replace_char old new (a ++ b) = replace_char old new a ++ replace_char old new b.
Proof.
  induction a as [| x a IH]; cbn [append replace_char]; [reflexivity |].
  destruct (Ascii.eqb x old); rewrite IH; [now rewrite str_app_assoc | reflexivity].
Qed.

Lemma replace_char_absent (old : ascii) (new s : string) :
  has_char old s = false -> replace_char old new s = s.
Proof.
  induction s as [| x s IH]; cbn [has_char replace_char]; [reflexivity |].
  intros H. apply orb_false_elim in H. destruct H as [-> H]. now rewrite IH.
Qed.

Lemma read_sign_none (c : ascii) (r : string) :
  is_sign c = false -> read_sign (String c r) = (false, String c r).
Proof.
  destruct c as [[] [] [] [] [] [] [] []]; intros H; try reflexivity;
    discriminate H.
Qed.

Lemma skip_spaces_none (c : ascii) (r : string) :
  is_space c = false -> skip_spaces (String c r) = String c r.
Proof. intros H. cbn [skip_spaces]. now rewrite H. Qed.

(** Removing the trailing zeros of a mantissa keeps the number. *)
Lemma dec_value_step (m e : Z) :
  m mod 10 = 0 ->
  Qeq (dec_value (mkdec (m / 10) (e + 1))) (dec_value (mkdec m e)).
Proof.
  intros H. unfold dec_value, Qeq. cbn [mantissa exponent].
  assert (M : m = 10 * (m / 10)) by divmod.
  destruct (Z.leb_spec 0 e) as [P | N].
  - replace (0 <=? e + 1) with true by lia. cbn [inject_Z Qnum Qden].
    rewrite Z.pow_add_r by lia. change (10 ^ 1) with 10. nia.
  - destruct (Z.leb_spec 0 (e + 1)) as [P1 | N1]; cbn [inject_Z Qnum Qden].
    + assert (e = -1) by lia. subst e. cbn. lia.
    + rewrite !Z2Pos.id by (apply Z.pow_pos_nonneg; lia).
      replace (- e) with (- (e + 1) + 1) by lia.
      rewrite Z.pow_add_r by lia. change (10 ^ 1) with 10.
      replace (- (e + 1) + 1 - 1) with (- (e + 1)) by lia.
      set (p := 10 ^ (- (e + 1))). nia.
Qed.

Lemma dec_value_strip (fuel : nat) :
  forall m e : Z, Qeq (dec_value (strip_zeros fuel m e)) (dec_value (mkdec m e)).
Proof.
  induction fuel as [| f IH]; intros m e; cbn [strip_zeros]; [reflexivity |].
  destruct (Z.eqb_spec (m mod 10) 0) as [Z0 | _]; [| reflexivity].
  rewrite IH. now apply dec_value_step.
Qed.

Lemma dec_value_normal (m e : Z) :
  Qeq (dec_value (normal m e)) (dec_value (mkdec m e)).
Proof.
  unfold normal. destruct (Z.eqb_spec m 0) as [-> | _]; [| apply dec_value_strip].
  unfold dec_value, Qeq. cbn [mantissa exponent].
  destruct (0 <=? e); cbn; lia.
Qed.

Lemma fmt_width_head_not (k : nat) (n : Z) (rest : string) (P : ascii -> bool) :
  (forall x, 0 <= x <= 9 -> P (digit_char x) = false) ->
  (forall c r, rest = String c r -> P c = false) ->
  forall c r, fmt_width k n ++ rest = String c r -> P c = false.
Proof.
  intros Hd Hr c r E. destruct k as [| k].
  - cbn in E. now apply (Hr c r).
  - destruct (fmt_width_head k n) as (x & r' & Hx & Ef). rewrite Ef in E.
    cbn in E. injection E as <- _. now apply Hd.
Qed.

(** The number that a text [digits , digits] denotes. *)
Lemma to_double_point_decimal (a b : nat) (n f : Z) :
  (1 <= a + b)%nat -> 0 <= n < 10 ^ Z.of_nat a -> 0 <= f < 10 ^ Z.of_nat b ->
  to_double (fmt_width a n ++ String "." (fmt_width b f)) =
  Some (Fin (normal (n * 10 ^ Z.of_nat b + f) (- Z.of_nat b))).
Proof.
  intros L Hn Hf. unfold to_double.
  destruct (fmt_width a n ++ String "." (fmt_width b f)) as [| c r] eqn:E.
  { destruct (fmt_width a n); discriminate E. }
  assert (S : is_space c = false).
  { apply (fmt_width_head_not a n _ is_space) with (c := c) (r := r) in E;
      [exact E | |].
    - intros x Hx. each_digit x Hx; reflexivity.
    - intros c' r' H. now injection H as <- _. }
  assert (G : is_sign c = false).
  { apply (fmt_width_head_not a n _ is_sign) with (c := c) (r := r) in E;
      [exact E | apply is_sign_digit_char |].
    intros c' r' H. now injection H as <- _. }
  rewrite skip_spaces_none, read_sign_none by assumption.
  rewrite <- E, read_digits_fmt_width by exact Hn.
  rewrite read_digits_stop by reflexivity.
  rewrite <- (str_app_nil_r (fmt_width b f)), read_digits_fmt_width by exact Hf.
  cbn [read_digits read_exponent skip_spaces Nat.add].
  replace (a + b =? 0)%nat with false by (symmetry; apply Nat.eqb_neq; lia).
  do 3 f_equal; lia.
Qed.

(** X3.  A comma-decimal text of at most fifteen digits, that is digits, a
    comma and digits (at least one and at most fifteen digits in all), is
    read by [to_numeric] as the float that this decimal names, whether
    errors are raised or coerced: 5,2345 is the float 5.2345, of decimal
    value 52345/10000.  Fifteen digits is the bound under which a decimal
    and the binary64 float nearest to it determine each other. *)
Theorem comma_decimal_is_read_as_number :
  forall (a b : nat) (n f : Z) (errors : errors_mode),
    (1 <= a + b <= 15)%nat ->
    0 <= n < 10 ^ Z.of_nat a -> 0 <= f < 10 ^ Z.of_nat b ->
    exists d : decimal,
      to_numeric errors
        (map (replace_char "," ".")
           (map py_str [VStr (fmt_width a n ++ String "," (fmt_width b f))]))
      = Ok [Fin d] /\
      Qeq (dec_value d) (Qmake (n * 10 ^ Z.of_nat b + f) (Z.to_pos (10 ^ Z.of_nat b))).
Proof.
  intros a b n f errors [L _] Hn Hf.
  exists (normal (n * 10 ^ Z.of_nat b + f) (- Z.of_nat b)). split.
  - cbn [map py_str]. rewrite replace_char_app. cbn [replace_char].
    change (Ascii.eqb "," ",") with true. cbv iota.
    rewrite !replace_char_absent by (now apply has_char_fmt_width).
    cbn [append]. unfold to_numeric. cbn [to_numeric_from].
    unfold to_numeric_item, floatify.
    rewrite (to_double_point_decimal a b n f L Hn Hf).
    destruct (fmt_width a n ++ String "." (fmt_width b f)) as [| c r] eqn:E.
    { destruct (fmt_width a n); discriminate E. }
    cbn [String.eqb]. now destruct errors.
  - rewrite dec_value_normal. unfold dec_value. cbn [mantissa exponent].
    destruct (Z.leb_spec 0 (- Z.of_nat b)) as [P | N].
    + assert (b = 0%nat) by lia. subst b. cbn. unfold Qeq. cbn. lia.
    + now rewrite Z.opp_involutive.
Qed.

Lemma comma_decimal_is_read_as_number_witness :
  exists d : decimal,
    to_numeric errors_raise
      (map (replace_char "," ".") (map py_str [VStr "5,2345"])) = Ok [Fin d] /\
    Qeq (dec_value d) (Qmake 52345 10000).
Proof.
  destruct (comma_decimal_is_read_as_number 1 4 5 2345 errors_raise)
    as (d & E & V); [cbn; lia | cbn; lia | cbn; lia |].
  exists d. split; [exact E | exact V].
Defined.

(** ** What the cleaning steps compute *)

Lemma combine_map_self {A B C} (f : A -> B) (g : A -> B -> C) (l : list A) :
  map (fun '(r, v) => g r v) (combine l (map f l)) = map (fun r => g r (f r)) l.
Proof. induction l as [| a l IH]; cbn; [reflexivity | now rewrite IH]. Qed.

Lemma to_numeric_coerce_value (l : list string) :
  forall pos : Z,
    to_numeric_from errors_coerce pos l =
    Ok (map (fun s => match to_numeric_item s with
                      | Some x => x
                      | None => NaN
                      end) l).
Proof.
  intros pos. destruct (to_numeric_coerce_total l pos) as (xs & -> & ->).
  reflexivity.
Qed.

Lemma to_numeric_raise_value (l : list string) :
  forall pos : Z,
    Forall (fun s => to_numeric_item s <> None) l ->
    to_numeric_from errors_raise pos l =
    Ok (map (fun s => match to_numeric_item s with
                      | Some x => x
                      | None => NaN
                      end) l).
Proof.
  induction l as [| s l IH]; intros pos F; cbn [to_numeric_from map];
    [reflexivity |].
  inversion F as [| ? ? Hs Fl]; subst.
  destruct (to_numeric_item s) as [x |]; [| now elim Hs].
  now rewrite IH.
Qed.

Lemma numeric_or_not (l : list Cell) :
  Forall numeric_cell l \/
  exists c, In c l /\ to_numeric_item (replace_char "," "." (py_str c)) = None.
Proof.
  induction l as [| c l [IH | (c' & I & N)]].
  - left. constructor.
  - destruct (to_numeric_item (replace_char "," "." (py_str c))) eqn:E.
    + left. constructor; [unfold numeric_cell; congruence | exact IH].
    + right. exists c. split; [now left | exact E].
  - right. exists c'. split; [now right | exact N].
Qed.

(** [df[c] = pd.to_numeric(...)] on an existing column, when every text
    of the column is a number or errors are coerced. *)
Lemma numeric_column_value {K} (errors : errors_mode) (df : DataFrame K)
      (c : string) (i : nat) :
  position c (columns df) = Some i ->
  (errors = errors_coerce \/
   Forall (fun r => numeric_cell (nth i (snd r) (VFloat NaN))) (rows df)) ->
  numeric_column errors df c =
  Ok (map (fun r => VFloat (coerced_number (nth i (snd r) (VFloat NaN)))) (rows df)).
Proof.
  intros P H. unfold numeric_column, getitem, to_numeric. rewrite P.
  assert (E : to_numeric_from errors 0
                (map (replace_char "," ".")
                   (map py_str (map (fun r => nth i (snd r) (VFloat NaN)) (rows df))))
              = Ok (map (fun s => match to_numeric_item s with
                                  | Some x => x
                                  | None => NaN
                                  end)
                      (map (replace_char "," ".")
                         (map py_str
                            (map (fun r => nth i (snd r) (VFloat NaN)) (rows df)))))).
  { destruct H as [-> | F]; [apply to_numeric_coerce_value |].
    destruct errors; [| apply to_numeric_coerce_value].
    apply to_numeric_raise_value. rewrite !Forall_map. exact F. }
  rewrite E. now rewrite !map_map.
Qed.

Lemma assign_numeric {K} (df : DataFrame K) (c : string) (i : nat) :
  position c (columns df) = Some i ->
  setitem df c
    (map (fun r => VFloat (coerced_number (nth i (snd r) (VFloat NaN)))) (rows df))
  = Ok (mkDataFrame (index_name df) (columns df)
          (map (fun r => (fst r,
                          set_nth i (VFloat (coerced_number (nth i (snd r) (VFloat NaN))))
                            (snd r)))
               (rows df))).
Proof.
  intros P. rewrite (setitem_existing df c i) by (now rewrite ?length_map).
  do 2 f_equal.
  apply (combine_map_self
           (fun r => VFloat (coerced_number (nth i (snd r) (VFloat NaN))))
           (fun (r : K * list Cell) v => (fst r, set_nth i v (snd r)))).
Qed.

(** A row of a table on [w] columns has [w] cells. *)
Lemma length_fit (w : nat) (r : list Cell) : List.length (fit w r) = w.
Proof.
  unfold fit. rewrite length_firstn, length_app, repeat_length. lia.
Qed.

Lemma set_axis_value {K K'} (df : DataFrame K) (f : K -> K') :
  set_axis df (map f (index df)) =
  Ok (mkDataFrame None (columns df) (map (fun r => (f (fst r), snd r)) (rows df))).
Proof.
  unfold set_axis, index. rewrite !length_map, Nat.eqb_refl, map_map.
  do 2 f_equal.
  apply (combine_map_self (fun r : K * list Cell => f (fst r))
           (fun (r : K * list Cell) k => (k, snd r))).
Qed.

(** The cleaning step of the range query, on a frame with the four
    columns: what it returns when every quote is a number. *)
Lemma range_clean_data_value (df : DataFrame Cell) (w : World) :
  columns df = tl SearchCurrencyPrice.names ->
  Forall (fun r => numeric_cell (nth 2 (snd r) (VFloat NaN)) /\
                   numeric_cell (nth 3 (snd r) (VFloat NaN))) (rows df) ->
  SearchCurrencyPrice._clean_data df w =
  (Ok (sort_index (mkDataFrame None (columns df) (map range_assigned (rows df)))), w).
Proof.
  intros C F. unfold SearchCurrencyPrice._clean_data, bind, lift, ret.
  unfold to_datetime_coerce.
  rewrite (map_map (fun x => zfill 8 (py_str x)) (strptime_coerce "%d%m%Y")).
  change (fun x => strptime_coerce "%d%m%Y" (zfill 8 (py_str x))) with coerce_key.
  rewrite set_axis_value.
  rewrite (numeric_column_value errors_raise _ "Compra" 2);
    [| cbn [columns]; now rewrite C
     | right; cbn [rows]; rewrite Forall_map; revert F; apply Forall_impl;
       cbn [snd]; tauto].
  rewrite (assign_numeric _ "Compra" 2) by (cbn [columns]; now rewrite C).
  cbn [rows index_name columns]. rewrite !map_map. cbn [fst snd].
  rewrite (numeric_column_value errors_raise _ "Venda" 3);
    [| cbn [columns]; now rewrite C
     | right; cbn [rows]; rewrite Forall_map; revert F; apply Forall_impl;
       intros r [_ H]; cbn [snd]; now rewrite nth_set_nth_other by discriminate].
  rewrite (assign_numeric _ "Venda" 3) by (cbn [columns]; now rewrite C).
  cbn [rows index_name columns]. rewrite !map_map. cbn [fst snd].
  do 4 f_equal. apply map_ext. intros r. unfold range_assigned.
  now rewrite nth_set_nth_other by discriminate.
Qed.

(** The same step raises when a Venda cell is no number. *)
Lemma range_clean_data_raises_venda (df : DataFrame Cell) (w : World) :
  columns df = tl SearchCurrencyPrice.names ->
  Forall (fun r => numeric_cell (nth 2 (snd r) (VFloat NaN))) (rows df) ->
  (exists r, In r (rows df) /\
             to_numeric_item
               (replace_char "," "." (py_str (nth 3 (snd r) (VFloat NaN)))) = None) ->
  exists e : PyExc,
    SearchCurrencyPrice._clean_data df w = (Raised e, w) /\
    exc_cls e = ValueError.
Proof.
  intros C F (r & I & N). unfold SearchCurrencyPrice._clean_data, bind, lift, ret.
  unfold to_datetime_coerce.
  rewrite (map_map (fun x => zfill 8 (py_str x)) (strptime_coerce "%d%m%Y")).
  rewrite set_axis_value.
  rewrite (numeric_column_value errors_raise _ "Compra" 2);
    [| cbn [columns]; now rewrite C
     | right; cbn [rows]; rewrite Forall_map; exact F].
  rewrite (assign_numeric _ "Compra" 2) by (cbn [columns]; now rewrite C).
  cbn [rows index_name columns]. rewrite !map_map. cbn [fst snd].
  unfold numeric_column, getitem. cbn [columns rows]. rewrite C.
  change (position "Venda" (tl SearchCurrencyPrice.names)) with (Some 3%nat).
  cbv beta iota. unfold to_numeric.
  match goal with |- context [to_numeric_from errors_raise 0 ?l] =>
    destruct (to_numeric_raise_fails l 0) as (e & -> & E) end.
  - exists (replace_char "," "." (py_str (nth 3 (snd r) (VFloat NaN)))).
    split; [| exact N]. rewrite !map_map. apply in_map_iff. exists r.
    split; [| exact I]. cbn [snd]. now rewrite nth_set_nth_other by discriminate.
  - now exists e.
Qed.

Lemma fetched_range_rows (table : list (list Cell)) :
  map range_assigned (rows (frame_of_table SearchCurrencyPrice.names true table))
  = map cleaned_range_row table.
Proof.
  cbn [frame_of_table rows]. rewrite map_map. apply map_ext. intros r.
  unfold range_assigned, cleaned_range_row. cbn [fst snd].
  pose proof (length_fit 5 r) as L.
  change (List.length SearchCurrencyPrice.names) with 5%nat.
  destruct (fit 5 r) as [| c0 [| c1 [| c2 [| c3 [| c4 [| c5 l]]]]]];
    try discriminate L. reflexivity.
Qed.

Lemma fetched_range_numeric (table : list (list Cell)) :
  Forall (fun r => numeric_cell (nth 2 (snd r) (VFloat NaN)) /\
                   numeric_cell (nth 3 (snd r) (VFloat NaN)))
         (rows (frame_of_table SearchCurrencyPrice.names true table)) <->
  Forall (fun r => numeric_cell (nth 3 (fit 5 r) (VFloat NaN)) /\
                   numeric_cell (nth 4 (fit 5 r) (VFloat NaN))) table.
Proof.
  cbn [frame_of_table rows]. rewrite Forall_map.
  change (List.length SearchCurrencyPrice.names) with 5%nat.
  split; apply Forall_impl; intros r; cbn [snd]; now rewrite !nth_tl.
Qed.



(** X5.  When the cleaning step of the range query returns, its rows are
    the rows of the CSV, each with its key coerced to a date, its Tipo and
    Moeda cells untouched and its own two quotes as floats, in sorted
    order: no row is lost, added or mixed with another.  The columns keep
    their names and the index loses its name. *)
Theorem range_cleaning_keeps_each_row :
  forall (table : list (list Cell)) (w w' : World) (out : DataFrame Timestamp),
    SearchCurrencyPrice._clean_data
      (frame_of_table SearchCurrencyPrice.names true table) w = (Ok out, w') ->
    Permutation (rows out) (map cleaned_range_row table) /\
    columns out = ["Tipo"; "Moeda"; "Compra"; "Venda"] /\
    index_name out = None /\
    Forall (fun r => List.length (snd r) = 4%nat) (rows out).
Proof.
  intros table w w' out H.
  assert (W : w' = w).
  { pose proof (range_clean_data_world
                  (frame_of_table SearchCurrencyPrice.names true table) w) as S.
    now rewrite H in S. }
  subst w'.
  assert (N : Forall (fun r => numeric_cell (nth 3 (fit 5 r) (VFloat NaN)) /\
                              numeric_cell (nth 4 (fit 5 r) (VFloat NaN))) table).
  { destruct (numeric_or_not (map (fun r => nth 3 (fit 5 r) (VFloat NaN)) table))
      as [F3 | (c & I & E)];
      [destruct (numeric_or_not (map (fun r => nth 4 (fit 5 r) (VFloat NaN)) table))
         as [F4 | (c & I & E)] |].
    - rewrite Forall_map in F3, F4. rewrite Forall_forall in *.
      intros r I. split; [now apply F3 | now apply F4].
    - exfalso. apply in_map_iff in I. destruct I as (r & <- & I).
      destruct (range_clean_data_raises_venda
                  (frame_of_table SearchCurrencyPrice.names true table) w eq_refl)
        as (e & R & _); [| | congruence].
      + cbn [frame_of_table rows]. rewrite Forall_map. rewrite Forall_map in F3.
        revert F3. apply Forall_impl. intros r'. cbn [snd]. now rewrite nth_tl.
      + exists (hd (VFloat NaN) (fit 5 r), tl (fit 5 r)). split.
        * cbn [frame_of_table rows]. apply in_map_iff. now exists r.
        * cbn [snd]. now rewrite nth_tl.
    - exfalso. apply in_map_iff in I. destruct I as (r & <- & I).
      destruct (range_clean_data_raises
                  (frame_of_table SearchCurrencyPrice.names true table) w eq_refl)
        as (e & R & _); [| congruence].
      exists (hd (VFloat NaN) (fit 5 r), tl (fit 5 r)). split.
      + cbn [frame_of_table rows]. apply in_map_iff. now exists r.
      + cbn [snd]. now rewrite nth_tl. }
  apply fetched_range_numeric in N.
  rewrite (range_clean_data_value
             (frame_of_table SearchCurrencyPrice.names true table) w eq_refl N) in H.
  injection H as <-.
  assert (P : Permutation
                (rows (sort_index
                         (mkDataFrame None
                            (columns (frame_of_table SearchCurrencyPrice.names true table))
                            (map range_assigned
                               (rows (frame_of_table SearchCurrencyPrice.names true table))))))
                (map cleaned_range_row table)).
  { rewrite sort_index_perm. cbn [rows]. now rewrite <- fetched_range_rows. }
  repeat split; try reflexivity; [exact P |].
  apply Forall_forall. intros r I. apply (Permutation_in _ P) in I.
  apply in_map_iff in I. now destruct I as (r0 & <- & _).
Qed.

Lemma range_cleaning_keeps_each_row_witness :
  Permutation (rows Sample.cleaned) (map cleaned_range_row Sample.range_table).
Proof.
  apply (range_cleaning_keeps_each_row Sample.range_table fresh fresh Sample.cleaned).
  reflexivity.
Defined.

(** ** The snapshot, row by row *)

Lemma assign_column {K} (df : DataFrame K) (c : string) (i : nat)
      (g : K * list Cell -> Cell) :
  position c (columns df) = Some i ->
  setitem df c (map g (rows df)) =
  Ok (mkDataFrame (index_name df) (columns df)
        (map (fun r => (fst r, set_nth i (g r) (snd r))) (rows df))).
Proof.
  intros P. rewrite (setitem_existing df c i) by (now rewrite ?length_map).
  do 2 f_equal.
  apply (combine_map_self g (fun (r : K * list Cell) v => (fst r, set_nth i v (snd r)))).
Qed.

Lemma clean_column_value (df : DataFrame Cell) (c : string) (i : nat) (w : World) :
  position c (columns df) = Some i ->
  SearchAllCurrenciesPrices.clean_column df c w =
  (Ok (mkDataFrame (index_name df) (columns df)
         (map (fun r => (fst r,
                         set_nth i (VFloat (coerced_number (nth i (snd r) (VFloat NaN))))
                           (snd r)))
              (rows df))), w).
Proof.
  intros P. unfold SearchAllCurrenciesPrices.clean_column, bind, lift.
  rewrite (numeric_column_value errors_coerce df c i P) by now left.
  now rewrite (assign_numeric df c i P).
Qed.

(** The cleaning step of the snapshot on the frame read from a CSV. *)
Lemma snapshot_clean_data_value (table : list (list Cell)) (w : World) :
  SearchAllCurrenciesPrices._clean_data
    (frame_of_table SearchAllCurrenciesPrices.columns false table) w =
  (Ok (mkDataFrame (Some "Reference Date") (tl SearchAllCurrenciesPrices.columns)
         (map cleaned_snapshot_row table)), w).
Proof.
  unfold SearchAllCurrenciesPrices._clean_data.
  set (df := frame_of_table SearchAllCurrenciesPrices.columns false table).
  unfold bind at 1, lift at 1, getitem.
  change (position "Reference Date" (columns df)) with (Some 0%nat). cbv beta iota.
  unfold bind at 1, lift at 1.
  rewrite (map_map (fun r => nth 0 (snd r) (VFloat NaN))
             (fun c => VTime (to_datetime_cell "%d/%m/%Y" c))).
  rewrite (assign_column df "Reference Date" 0
             (fun r => VTime (to_datetime_cell "%d/%m/%Y" (nth 0 (snd r) (VFloat NaN)))))
    by reflexivity.
  unfold bind at 1, lift at 1, set_index. cbn [columns rows index_name].
  change (position "Reference Date" (columns df)) with (Some 0%nat). cbv beta iota.
  change (remove_nth 0 (columns df)) with (tl SearchAllCurrenciesPrices.columns).
  rewrite map_map. cbn [fst snd].
  cbn [SearchAllCurrenciesPrices.for_columns]. unfold bind, ret.
  rewrite (clean_column_value _ "Cotações em Real - Compra" 3) by reflexivity.
  rewrite (clean_column_value _ "Cotações em Real - Venda" 4) by reflexivity.
  rewrite (clean_column_value _ "Paridade - Compra" 5) by reflexivity.
  rewrite (clean_column_value _ "Paridade - Venda" 6) by reflexivity.
  cbn [rows columns index_name]. rewrite !map_map. cbn [fst snd].
  do 3 f_equal. unfold df. cbn [frame_of_table rows].
  change (List.length SearchAllCurrenciesPrices.columns) with 8%nat.
  rewrite map_map.
  rewrite <- (map_combine_seq cleaned_snapshot_row table 0).
  apply map_ext. intros [i r]. cbn [fst snd]. unfold cleaned_snapshot_row.
  pose proof (length_fit 8 r) as L.
  destruct (fit 8 r)
    as [| c0 [| c1 [| c2 [| c3 [| c4 [| c5 [| c6 [| c7 [| c8 l]]]]]]]]];
    try discriminate L. reflexivity.
Qed.

Lemma get_prices_on_table (env : Env) (self : SearchAllCurrenciesPrices.t)
      (w : World) (table : list (list Cell)) :
  read_csv_reply env (List.length (sent w)) (SearchAllCurrenciesPrices.url self)
  = Ok table ->
  SearchAllCurrenciesPrices.get_prices env self w =
  (Ok (mkDataFrame (Some "Reference Date") (tl SearchAllCurrenciesPrices.columns)
         (map cleaned_snapshot_row table)),
   mkWorld (sent w ++ [SearchAllCurrenciesPrices.url self])
     (stdout w ++ [SearchAllCurrenciesPrices.url self])).
Proof.
  intros R.
  unfold SearchAllCurrenciesPrices.get_prices, bind at 1.
  unfold SearchAllCurrenciesPrices._fetch_data, bind, print, try_except, pd_read_csv.
  cbn [sent stdout]. rewrite R.
  apply snapshot_clean_data_value.
Qed.



(** X7.  Whatever the reply, [get_prices] sends exactly one request, to
    the file of its reference date, and the only exception it can raise
    is the one that reading the CSV raised: the content of the table never
    makes it fail. *)
Theorem get_prices_raises_only_what_the_read_raised :
  forall (env : Env) (self : SearchAllCurrenciesPrices.t) (w : World),
    sent (snd (SearchAllCurrenciesPrices.get_prices env self w)) =
    (sent w ++ [SearchAllCurrenciesPrices.url self])%list /\
    (forall e : PyExc,
       fst (SearchAllCurrenciesPrices.get_prices env self w) = Raised e ->
       read_csv_reply env (List.length (sent w)) (SearchAllCurrenciesPrices.url self)
       = Raised e).
Proof.
  intros env self w.
  destruct (read_csv_reply env (List.length (sent w))
              (SearchAllCurrenciesPrices.url self)) as [table | e0] eqn:R.
  - rewrite (get_prices_on_table env self w table R).
    split; [reflexivity | discriminate].
  - unfold SearchAllCurrenciesPrices.get_prices, bind.
    rewrite (snapshot_fetch_on_error env self w e0 R).
    destruct (is_Exception (exc_cls e0) &&
              str_in SearchAllCurrenciesPrices.not_found_marker (exc_str e0)).
    + rewrite snapshot_clean_empty. split; [reflexivity | discriminate].
    + split; [reflexivity |]. cbn [fst]. intros e H. now injection H as ->.
Qed.

Lemma get_prices_raises_only_what_the_read_raised_witness :
  fst (SearchAllCurrenciesPrices.get_prices
         (Sample.env_with (Raised (http_error 500 "Internal Server Error")))
         (SearchAllCurrenciesPrices.mk "20210104") fresh)
  = Raised (http_error 500 "Internal Server Error") /\
  read_csv_reply (Sample.env_with (Raised (http_error 500 "Internal Server Error")))
    0 (SearchAllCurrenciesPrices.url (SearchAllCurrenciesPrices.mk "20210104"))
  = Raised (http_error 500 "Internal Server Error").
Proof.
  split; [reflexivity |].
  apply (proj2 (get_prices_raises_only_what_the_read_raised
                  (Sample.env_with (Raised (http_error 500 "Internal Server Error")))
                  (SearchAllCurrenciesPrices.mk "20210104") fresh)).
  reflexivity.
Defined.

(** ** Every outcome of [get_data] *)

Lemma range_clean_fetched_cases (table : list (list Cell)) (w : World) :
  (exists out, SearchCurrencyPrice._clean_data
                 (frame_of_table SearchCurrencyPrice.names true table) w
               = (Ok out, w) /\ dates_then_NaT (index out)) \/
  (exists e, SearchCurrencyPrice._clean_data
               (frame_of_table SearchCurrencyPrice.names true table) w
             = (Raised e, w) /\ exc_cls e = ValueError).
Proof.
  set (df := frame_of_table SearchCurrencyPrice.names true table).
  destruct (numeric_or_not (map (fun r => nth 2 (snd r) (VFloat NaN)) (rows df)))
    as [F2 | (c & I & E)].
  - destruct (numeric_or_not (map (fun r => nth 3 (snd r) (VFloat NaN)) (rows df)))
      as [F3 | (c & I & E)].
    + left. eexists. split.
      * apply range_clean_data_value; [reflexivity |].
        rewrite Forall_map in F2, F3. rewrite Forall_forall in *.
        intros r I. split; [now apply F2 | now apply F3].
      * apply sort_index_order.
    + right. apply range_clean_data_raises_venda;
        [reflexivity | now rewrite Forall_map in F2 |].
      apply in_map_iff in I. destruct I as (r & <- & I). now exists r.
  - right. apply range_clean_data_raises; [reflexivity |].
    apply in_map_iff in I. destruct I as (r & <- & I). now exists r.
Qed.

Lemma opt_string_dec (a b : option string) : {a = b} + {a <> b}.
Proof. decide equality. apply string_dec. Qed.

Lemma catalog_check_run (env : Env) (self : SearchCurrencyPrice.t) (w : World)
      (page : Response) :
  requests_reply env (List.length (sent w)) SearchAvailableCurrencies.url = Ok page ->
  exists b : bool,
    SearchCurrencyPrice._check_if_code_exists env self w =
    (Ok b, mkWorld (sent w ++ [SearchAvailableCurrencies.url]) (stdout w)) /\
    (b = true <->
     In (Some (str_int (SearchCurrencyPrice.currency_code self)))
        (map (fun o => get o "value")
             (find_all (BeautifulSoup env (content page)) "option"))).
Proof.
  intros R.
  destruct (in_dec opt_string_dec
              (Some (str_int (SearchCurrencyPrice.currency_code self)))
              (map (fun o => get o "value")
                   (find_all (BeautifulSoup env (content page)) "option")))
    as [I | N].
  - exists true. split; [now apply (check_code_present env self w page) | tauto].
  - exists false. split; [now apply (check_code_absent env self w page) |].
    split; [discriminate | tauto].
Qed.

(** X8.  Whatever the catalog, the CSV and the rows are, [get_data]
    either returns a table sorted by date or raises one of: the exception
    of the catalog request, [AssertionError] for a code the catalog does
    not list, [Exception] with the parse message when the read raised
    [ParserError], the exception of the read itself when it is of another
    class, or the [ValueError] of a quote that is no number. *)
Theorem get_data_outcomes :
  forall (env : Env) (self : SearchCurrencyPrice.t) (w : World),
    match fst (SearchCurrencyPrice.get_data env self w) with
    | Ok out => dates_then_NaT (index out)
    | Raised e =>
        requests_reply env (List.length (sent w)) SearchAvailableCurrencies.url
        = Raised e \/
        e = mkexc AssertionError "Currency code does not exist" \/
        (e = mkexc Exception SearchCurrencyPrice.parse_error_message /\
         exists e', read_csv_reply env (S (List.length (sent w)))
                      (SearchCurrencyPrice.url self) = Raised e' /\
                    exc_cls e' = ParserError) \/
        (read_csv_reply env (S (List.length (sent w)))
           (SearchCurrencyPrice.url self) = Raised e /\
         exc_cls e <> ParserError) \/
        exc_cls e = ValueError
    end.
Proof.
  intros env self w. unfold SearchCurrencyPrice.get_data, bind at 1.
  destruct (requests_reply env (List.length (sent w)) SearchAvailableCurrencies.url)
    as [page | e] eqn:R.
  - destruct (catalog_check_run env self w page R) as (b & -> & _).
    unfold bind at 1, assert_. destruct b; [| cbn; now right; left].
    unfold ret at 1, bind.
    unfold SearchCurrencyPrice._fetch_data, try_except, pd_read_csv.
    cbn [sent stdout]. rewrite length_app. cbn [List.length]. rewrite Nat.add_1_r.
    destruct (read_csv_reply env (S (List.length (sent w)))
                (SearchCurrencyPrice.url self)) as [table | e'] eqn:T.
    + match goal with |- context [SearchCurrencyPrice._clean_data ?d ?w0] =>
        destruct (range_clean_fetched_cases table w0) as [(out & -> & S) | (e & -> & V)]
      end; cbn [fst]; [exact S | now do 4 right].
    + destruct (is_ParserError (exc_cls e')) eqn:P; cbn [fst raise].
      * right; right; left. split; [reflexivity |]. exists e'.
        split; [reflexivity |]. now destruct (exc_cls e').
      * right; right; right; left. split; [reflexivity |].
        intros C. rewrite C in P. discriminate P.
  - unfold SearchCurrencyPrice._check_if_code_exists,
      SearchAvailableCurrencies.get_available_currencies,
      SearchAvailableCurrencies._fetch_data, requests_get, bind.
    rewrite R. cbn [fst]. now left.
Qed.

Lemma get_data_after_check (env : Env) (self : SearchCurrencyPrice.t) (w : World)
      (page : Response) :
  requests_reply env (List.length (sent w)) SearchAvailableCurrencies.url = Ok page ->
  In (Some (str_int (SearchCurrencyPrice.currency_code self)))
     (map (fun o => get o "value")
          (find_all (BeautifulSoup env (content page)) "option")) ->
  SearchCurrencyPrice.get_data env self w =
  match read_csv_reply env (S (List.length (sent w))) (SearchCurrencyPrice.url self) with
  | Ok table =>
      SearchCurrencyPrice._clean_data
        (frame_of_table SearchCurrencyPrice.names true table)
        (mkWorld (sent w ++ [SearchAvailableCurrencies.url; SearchCurrencyPrice.url self])
           (stdout w))
  | Raised e =>
      (Raised (if is_ParserError (exc_cls e)
               then mkexc Exception SearchCurrencyPrice.parse_error_message
               else e),
       mkWorld (sent w ++ [SearchAvailableCurrencies.url; SearchCurrencyPrice.url self])
         (stdout w))
  end.
Proof.
  intros R I. unfold SearchCurrencyPrice.get_data, bind.
  rewrite (check_code_present env self w page R I).
  cbn [assert_]. unfold ret at 1.
  unfold SearchCurrencyPrice._fetch_data, try_except, pd_read_csv.
  cbn [sent stdout]. rewrite length_app. cbn [List.length].
  rewrite Nat.add_1_r, <- app_assoc. cbn [app].
  destruct (read_csv_reply env (S (List.length (sent w)))
              (SearchCurrencyPrice.url self)) as [table | e]; [reflexivity |].
  now destruct (is_ParserError (exc_cls e)).
Qed.

(** X9.  [get_data] and its two requests.  When the catalog request
    raises, that exception reaches the caller and nothing else is
    requested.  When the catalog lists the code, the data request is sent
    next, to the URL carrying the code and both dates; and an exception of
    that read which is not a [ParserError] reaches the caller unchanged. *)
Theorem get_data_requests_and_failures :
  forall (env : Env) (self : SearchCurrencyPrice.t) (w : World),
    (forall e : PyExc,
       requests_reply env (List.length (sent w)) SearchAvailableCurrencies.url
       = Raised e ->
       SearchCurrencyPrice.get_data env self w =
       (Raised e, mkWorld (sent w ++ [SearchAvailableCurrencies.url]) (stdout w))) /\
    (forall page : Response,
       requests_reply env (List.length (sent w)) SearchAvailableCurrencies.url
       = Ok page ->
       In (Some (str_int (SearchCurrencyPrice.currency_code self)))
          (map (fun o => get o "value")
               (find_all (BeautifulSoup env (content page)) "option")) ->
       sent (snd (SearchCurrencyPrice.get_data env self w)) =
       (sent w ++ [SearchAvailableCurrencies.url; SearchCurrencyPrice.url self])%list /\
       (forall e : PyExc,
          read_csv_reply env (S (List.length (sent w)))
            (SearchCurrencyPrice.url self) = Raised e ->
          exc_cls e <> ParserError ->
          fst (SearchCurrencyPrice.get_data env self w) = Raised e)).
Proof.
  intros env self w. split.
  - intros e R.
    unfold SearchCurrencyPrice.get_data, SearchCurrencyPrice._check_if_code_exists,
      SearchAvailableCurrencies.get_available_currencies,
      SearchAvailableCurrencies._fetch_data, requests_get, bind.
    now rewrite R.
  - intros page R I. rewrite (get_data_after_check env self w page R I).
    destruct (read_csv_reply env (S (List.length (sent w)))
                (SearchCurrencyPrice.url self)) as [table | e'] eqn:T.
    + split; [| discriminate]. now rewrite range_clean_data_world.
    + split; [reflexivity |].
      intros e E N. injection E as <-. cbn [fst].
      destruct (exc_cls e') eqn:C; try reflexivity. now elim N.
Qed.

Lemma get_data_requests_and_failures_witness :
  SearchCurrencyPrice.get_data
    (mkEnv (fun _ _ => Raised (mkexc ConnectionError "Connection refused"))
           Sample.parser (fun _ _ => Ok Sample.range_table))
    (SearchCurrencyPrice.mk 220 "01/01/2021" "30/07/2021") fresh =
  (Raised (mkexc ConnectionError "Connection refused"),
   mkWorld [SearchAvailableCurrencies.url] []) /\
  fst (SearchCurrencyPrice.get_data
         (Sample.env_with (Raised (http_error 503 "Service Unavailable")))
         (SearchCurrencyPrice.mk 220 "01/01/2021" "30/07/2021") fresh)
  = Raised (http_error 503 "Service Unavailable").
Proof.
  split.
  - apply (proj1 (get_data_requests_and_failures
                    (mkEnv (fun _ _ => Raised (mkexc ConnectionError "Connection refused"))
                           Sample.parser (fun _ _ => Ok Sample.range_table))
                    (SearchCurrencyPrice.mk 220 "01/01/2021" "30/07/2021") fresh)).
    reflexivity.
  - apply (proj2 (proj2 (get_data_requests_and_failures
                    (Sample.env_with (Raised (http_error 503 "Service Unavailable")))
                    (SearchCurrencyPrice.mk 220 "01/01/2021" "30/07/2021") fresh)
                   Sample.catalog_page eq_refl
                   ltac:(vm_compute; now left))).
    + reflexivity.
    + discriminate.
Defined.

(** ** The catalog check *)

Lemma pow10_mono (a b : nat) : (a <= b)%nat -> 10 ^ Z.of_nat a <= 10 ^ Z.of_nat b.
Proof. intros H. apply Z.pow_le_mono_r; lia. Qed.

Lemma nat_digits_inj (n m : Z) :
  0 <= n -> 0 <= m -> nat_digits n = nat_digits m -> n = m.
Proof.
  intros Hn Hm E.
  set (K := Nat.max (digits_fuel n) (digits_fuel m)).
  assert (Bn : 0 <= n < 10 ^ Z.of_nat K).
  { split; [exact Hn |]. eapply Z.lt_le_trans; [now apply digits_fuel_enough |].
    apply pow10_mono. apply Nat.le_max_l. }
  assert (Bm : 0 <= m < 10 ^ Z.of_nat K).
  { split; [exact Hm |]. eapply Z.lt_le_trans; [now apply digits_fuel_enough |].
    apply pow10_mono. apply Nat.le_max_r. }
  assert (K1 : (1 <= K)%nat) by (unfold K, digits_fuel; lia).
  rewrite <- (digits_value_fmt_width K n Bn), <- (digits_value_fmt_width K m Bm).
  rewrite <- !zfill_nat_digits by assumption. now rewrite E.
Qed.

Lemma nat_digits_no_minus (n : Z) (r : string) :
  0 <= n -> nat_digits n <> String "-" r.
Proof.
  intros Hn E. apply digits_of_head in E; [discriminate E | exact Hn].
Qed.

(** [str] of an integer determines the integer. *)
Lemma str_int_inj (n m : Z) : str_int n = str_int m -> n = m.
Proof.
  unfold str_int.
  destruct (Z.ltb_spec n 0) as [Nn | Pn], (Z.ltb_spec m 0) as [Nm | Pm]; intros E.
  - injection E as E. apply nat_digits_inj in E; lia.
  - symmetry in E. now apply nat_digits_no_minus in E.
  - now apply nat_digits_no_minus in E.
  - now apply nat_digits_inj.
Qed.

(** X10.  With the catalog fetched, the check answers [True] exactly when
    some option element has a [value] attribute equal to the decimal text
    of the code (an option without that attribute never counts), and it
    has sent the catalog request only.  The decimal text determines the
    code, so an option value is matched by at most one code. *)
Theorem check_accepts_exactly_listed_codes :
  forall (env : Env) (self : SearchCurrencyPrice.t) (w : World) (page : Response),
    requests_reply env (List.length (sent w)) SearchAvailableCurrencies.url
    = Ok page ->
    (exists b : bool,
       SearchCurrencyPrice._check_if_code_exists env self w =
       (Ok b, mkWorld (sent w ++ [SearchAvailableCurrencies.url]) (stdout w)) /\
       (b = true <->
        exists o : Node,
          In o (find_all (BeautifulSoup env (content page)) "option") /\
          get o "value" = Some (str_int (SearchCurrencyPrice.currency_code self)))) /\
    (forall c c' : Z, str_int c = str_int c' -> c = c').
Proof.
  intros env self w page R. split; [| exact str_int_inj].
  destruct (catalog_check_run env self w page R) as (b & E & H).
  exists b. split; [exact E |]. rewrite H, in_map_iff. split.
  - intros (o & G & I). now exists o.
  - intros (o & I & G). now exists o.
Qed.

Lemma check_accepts_exactly_listed_codes_witness :
  exists b : bool,
    SearchCurrencyPrice._check_if_code_exists Sample.env
      (SearchCurrencyPrice.mk 978 "01/01/2021" "30/07/2021") fresh =
    (Ok b, mkWorld [SearchAvailableCurrencies.url] []) /\
    (b = true <->
     exists o : Node,
       In o (find_all (BeautifulSoup Sample.env Sample.catalog_body) "option") /\
       get o "value" = Some "978").
Proof.
  exact (proj1 (check_accepts_exactly_listed_codes Sample.env
                  (SearchCurrencyPrice.mk 978 "01/01/2021" "30/07/2021") fresh
                  Sample.catalog_page eq_refl)).
Defined.

(** X15.  A page without option elements gives the empty catalog, with
    its two columns and no exception; [get_data] then refuses every
    code. *)
Theorem empty_catalog_refuses_every_code :
  forall (env : Env) (w : World) (page : Response),
    requests_reply env (List.length (sent w)) SearchAvailableCurrencies.url
    = Ok page ->
    find_all (BeautifulSoup env (content page)) "option" = [] ->
    SearchAvailableCurrencies.get_available_currencies env w =
    (Ok (mkDataFrame None ["Currency"; "Code"] []),
     mkWorld (sent w ++ [SearchAvailableCurrencies.url]) (stdout w)) /\
    (forall self : SearchCurrencyPrice.t,
       SearchCurrencyPrice.get_data env self w =
       (Raised (mkexc AssertionError "Currency code does not exist"),
        mkWorld (sent w ++ [SearchAvailableCurrencies.url]) (stdout w))).
Proof.
  intros env w page R E. split.
  - rewrite (catalog_run env w page R), E. reflexivity.
  - intros self. unfold SearchCurrencyPrice.get_data, bind.
    rewrite (check_code_absent env self w page R); [reflexivity |].
    rewrite E. intros [].
Qed.

Lemma empty_catalog_refuses_every_code_witness :
  SearchCurrencyPrice.get_data
    (mkEnv (fun _ _ => Ok (mkResponse 200 "<html></html>")) Sample.parser
           (fun _ _ => Ok Sample.range_table))
    (SearchCurrencyPrice.mk 220 "01/01/2021" "30/07/2021") fresh =
  (Raised (mkexc AssertionError "Currency code does not exist"),
   mkWorld [SearchAvailableCurrencies.url] []).
Proof.
  apply (proj2 (empty_catalog_refuses_every_code
                  (mkEnv (fun _ _ => Ok (mkResponse 200 "<html></html>")) Sample.parser
                         (fun _ _ => Ok Sample.range_table))
                  fresh (mkResponse 200 "<html></html>") eq_refl eq_refl)).
Defined.

(** ** The two modes of [to_numeric] *)



(** ** The snapshot's constructor and its file *)

Lemma datetime_leb_le (a b : datetime) : datetime_leb a b = true <-> datetime_le a b.
Proof.
  unfold datetime_leb, datetime_le.
  destruct (date_compare (dt_date a) (dt_date b)) eqn:C.
  - apply date_compare_eq in C. rewrite Z.leb_le. split.
    + intros H. right. now split.
    + intros [H | [_ H]]; [| exact H].
      apply date_compare_lt in H. rewrite C in H.
      assert (date_compare (dt_date b) (dt_date b) = Eq) by now apply date_compare_eq.
      congruence.
  - apply date_compare_lt in C. split; [now left | reflexivity].
  - split; [discriminate |]. intros [H | [H _]].
    + apply date_compare_lt in H. congruence.
    + apply date_compare_eq in H. congruence.
Qed.

(** X11.  Constructing the snapshot query with a [datetime]: it succeeds
    when that moment is not after the clock, and the query is for the day
    of that moment, the time of day being dropped; it raises
    [AssertionError] when the moment is after the clock.  With a plain
    [date] the comparison with the clock raises [TypeError].  Nothing is
    requested, and the import time plays no role. *)
Theorem snapshot_init_checks_the_clock :
  forall (import_time now t : datetime) (d : date) (w : World),
    (datetime_le t now ->
     SearchAllCurrenciesPrices.__init__ import_time (Some (PDateTime t)) now w =
     (Ok (SearchAllCurrenciesPrices.mk (strftime_Ymd (dt_date t))), w)) /\
    (~ datetime_le t now ->
     SearchAllCurrenciesPrices.__init__ import_time (Some (PDateTime t)) now w =
     (Raised (mkexc AssertionError "Final date is should be earlier than today"), w)) /\
    SearchAllCurrenciesPrices.__init__ import_time (Some (PDate d)) now w =
    (Raised (mkexc TypeError "can't compare datetime.datetime to datetime.date"), w).
Proof.
  intros import_time now t d w. rewrite snapshot_init_given.
  split; [| split; [| reflexivity]]; intros H.
  - apply datetime_leb_le in H. now rewrite H.
  - destruct (datetime_leb t now) eqn:E; [| reflexivity].
    apply datetime_leb_le in E. now elim H.
Qed.

Lemma snapshot_init_checks_the_clock_witness :
  SearchAllCurrenciesPrices.__init__ (Sample.morning Sample.jan_1)
    (Some (PDateTime (mkdatetime Sample.jan_1 0))) (Sample.morning Sample.jan_5) fresh =
  (Ok (SearchAllCurrenciesPrices.mk "20210101"), fresh) /\
  SearchAllCurrenciesPrices.__init__ (Sample.morning Sample.jan_1)
    (Some (PDateTime (mkdatetime Sample.jan_5 36000000001)))
    (Sample.morning Sample.jan_5) fresh =
  (Raised (mkexc AssertionError "Final date is should be earlier than today"), fresh).
Proof.
  split.
  - apply (proj1 (snapshot_init_checks_the_clock (Sample.morning Sample.jan_1)
                    (Sample.morning Sample.jan_5) (mkdatetime Sample.jan_1 0)
                    Sample.jan_1 fresh)).
    left. unfold date_lt. cbn. lia.
  - apply (proj1 (proj2 (snapshot_init_checks_the_clock (Sample.morning Sample.jan_1)
                    (Sample.morning Sample.jan_5)
                    (mkdatetime Sample.jan_5 36000000001) Sample.jan_1 fresh))).
    unfold datetime_le, date_lt. cbn. intros [H | [_ H]]; lia.
Defined.

(** ** Texts that determine what they were made from *)

Lemma str_app_inv_head (a x y : string) : a ++ x = a ++ y -> x = y.
Proof.
  induction a as [| c a IH]; cbn; [trivial |]. intros H. injection H as H.
  now apply IH.
Qed.

Lemma str_app_inv_length (a a' x x' : string) :
  String.length a = String.length a' -> a ++ x = a' ++ x' -> a = a' /\ x = x'.
Proof.
  revert a'. induction a as [| c a IH]; intros [| c' a'] L E; cbn in *;
    try discriminate L; [now split |].
  injection E as -> E. destruct (IH a' ltac:(lia) E) as [-> ->]. now split.
Qed.

Lemma fmt_width_inj (k : nat) (n m : Z) :
  0 <= n < 10 ^ Z.of_nat k -> 0 <= m < 10 ^ Z.of_nat k ->
  fmt_width k n = fmt_width k m -> n = m.
Proof.
  intros Hn Hm E.
  rewrite <- (digits_value_fmt_width k n Hn), <- (digits_value_fmt_width k m Hm).
  now rewrite E.
Qed.

Lemma strftime_Ymd_inj (d d' : date) :
  date_valid d = true -> date_valid d' = true ->
  strftime_Ymd d = strftime_Ymd d' -> d = d'.
Proof.
  intros V V' E.
  destruct (date_valid_ranges d V) as (Hy & Hm & Hd).
  destruct (date_valid_ranges d' V') as (Hy' & Hm' & Hd').
  unfold strftime_Ymd in E.
  apply str_app_inv_length in E; [| now rewrite !length_fmt_width].
  destruct E as [Ey E].
  apply str_app_inv_length in E; [| now rewrite !length_fmt_width].
  destruct E as [Em Ed].
  apply fmt_width_inj in Ey, Em, Ed;
    try (change (10 ^ Z.of_nat 4) with 10000);
    try (change (10 ^ Z.of_nat 2) with 100); try lia.
  destruct d, d'; cbn in *; congruence.
Qed.

Lemma strftime_d_m_Y_inj (d d' : date) :
  date_valid d = true -> date_valid d' = true ->
  strftime_d_m_Y d = strftime_d_m_Y d' -> d = d'.
Proof.
  intros V V' E.
  destruct (date_valid_ranges d V) as (Hy & Hm & Hd).
  destruct (date_valid_ranges d' V') as (Hy' & Hm' & Hd').
  unfold strftime_d_m_Y in E.
  apply str_app_inv_length in E; [| now rewrite !length_fmt_width].
  destruct E as [Ed E]. apply (str_app_inv_head "/") in E.
  apply str_app_inv_length in E; [| now rewrite !length_fmt_width].
  destruct E as [Em Ey]. apply (str_app_inv_head "/") in Ey.
  apply fmt_width_inj in Ey, Em, Ed;
    try (change (10 ^ Z.of_nat 4) with 10000);
    try (change (10 ^ Z.of_nat 2) with 100); try lia.
  destruct d, d'; cbn in *; congruence.
Qed.

Lemma length_strftime_d_m_Y (d : date) : String.length (strftime_d_m_Y d) = 10%nat.
Proof.
  unfold strftime_d_m_Y.
  rewrite !str_length_app, !length_fmt_width. reflexivity.
Qed.

(** X13.  Two snapshot queries built from moments that are not after the
    clock request the same file exactly when their moments fall on the
    same day: the file name is the day as yyyymmdd, which determines the
    day, and the time of day is ignored. *)
Theorem snapshot_file_is_the_day :
  forall (import_time now t t' : datetime) (w : World),
    date_valid (dt_date t) = true -> date_valid (dt_date t') = true ->
    datetime_le t now -> datetime_le t' now ->
    exists q q' : SearchAllCurrenciesPrices.t,
      SearchAllCurrenciesPrices.__init__ import_time (Some (PDateTime t)) now w
      = (Ok q, w) /\
      SearchAllCurrenciesPrices.__init__ import_time (Some (PDateTime t')) now w
      = (Ok q', w) /\
      (SearchAllCurrenciesPrices.url q = SearchAllCurrenciesPrices.url q' <->
       dt_date t = dt_date t').
Proof.
  intros import_time now t t' w V V' L L'.
  apply datetime_leb_le in L, L'.
  exists (SearchAllCurrenciesPrices.mk (strftime_Ymd (dt_date t))),
         (SearchAllCurrenciesPrices.mk (strftime_Ymd (dt_date t'))).
  rewrite !snapshot_init_given, L, L'. split; [reflexivity | split; [reflexivity |]].
  unfold SearchAllCurrenciesPrices.url.
  cbn [SearchAllCurrenciesPrices.reference_date]. split.
  - intros E. apply str_app_inv_head in E.
    apply str_app_inv_length in E.
    + now apply strftime_Ymd_inj.
    + unfold strftime_Ymd. now rewrite !str_length_app, !length_fmt_width.
  - now intros ->.
Qed.

Lemma snapshot_file_is_the_day_witness :
  exists q q' : SearchAllCurrenciesPrices.t,
    SearchAllCurrenciesPrices.__init__ (Sample.morning Sample.jan_1)
      (Some (PDateTime (mkdatetime Sample.jan_1 0))) (Sample.morning Sample.jan_5) fresh
    = (Ok q, fresh) /\
    SearchAllCurrenciesPrices.__init__ (Sample.morning Sample.jan_1)
      (Some (PDateTime (Sample.morning Sample.jan_1))) (Sample.morning Sample.jan_5) fresh
    = (Ok q', fresh) /\
    (SearchAllCurrenciesPrices.url q = SearchAllCurrenciesPrices.url q' <->
     Sample.jan_1 = Sample.jan_1).
Proof.
  apply (snapshot_file_is_the_day (Sample.morning Sample.jan_1)
           (Sample.morning Sample.jan_5) (mkdatetime Sample.jan_1 0)
           (Sample.morning Sample.jan_1) fresh);
    try reflexivity; left; unfold date_lt; cbn; lia.
Defined.

Lemma has_char_digits_of (c : ascii) (fuel : nat) :
  is_digit c = false ->
  forall n : Z, 0 <= n -> has_char c (digits_of fuel n) = false.
Proof.
  intros N. induction fuel as [| f IH]; intros n Hn; cbn [digits_of has_char];
    [reflexivity |].
  destruct (Z.ltb_spec n 10).
  - cbn [has_char]. rewrite has_char_digit by (assumption || lia). reflexivity.
  - rewrite has_char_app, IH by divmod. cbn [has_char].
    rewrite has_char_digit by (assumption || divmod). reflexivity.
Qed.

Lemma has_amp_str_int (n : Z) : has_char "&" (str_int n) = false.
Proof.
  unfold str_int, nat_digits. destruct (n <? 0) eqn:E.
  - cbn [has_char]. rewrite has_char_digits_of by (reflexivity || lia). reflexivity.
  - apply has_char_digits_of; [reflexivity | lia].
Qed.

Lemma split_at_char (c : ascii) (a a' x x' : string) :
  has_char c a = false -> has_char c a' = false ->
  a ++ String c x = a' ++ String c x' -> a = a' /\ x = x'.
Proof.
  revert a'. induction a as [| y a IH]; intros [| y' a'] H H' E; cbn in *.
  - injection E as ->. now split.
  - injection E as -> _. rewrite Ascii.eqb_refl in H'. discriminate H'.
  - injection E as -> _. rewrite Ascii.eqb_refl in H. discriminate H.
  - injection E as -> E. apply orb_false_elim in H, H'.
    destruct (IH a' (proj2 H) (proj2 H') E) as [-> ->]. now split.
Qed.

(** X12.  The URL of the data request determines the query: two range
    queries, each built from a code and two calendar days, request the
    same URL only when they have the same code and the same days. *)
Theorem range_url_determines_the_query :
  forall (c c' : Z) (d1 d2 d1' d2' : date),
    date_valid d1 = true -> date_valid d2 = true ->
    date_valid d1' = true -> date_valid d2' = true ->
    SearchCurrencyPrice.url
      (SearchCurrencyPrice.mk c (strftime_d_m_Y d1) (strftime_d_m_Y d2)) =
    SearchCurrencyPrice.url
      (SearchCurrencyPrice.mk c' (strftime_d_m_Y d1') (strftime_d_m_Y d2')) ->
    c = c' /\ d1 = d1' /\ d2 = d2'.
Proof.
  intros c c' d1 d2 d1' d2' V1 V2 V1' V2' E.
  unfold SearchCurrencyPrice.url in E.
  cbn [SearchCurrencyPrice.currency_code SearchCurrencyPrice.initial_date
       SearchCurrencyPrice.final_date] in E.
  apply str_app_inv_head in E.
  apply (str_app_inv_head "&ChkMoeda=") in E.
  change ("&DATAINI=" ++ ?x) with (String "&" ("DATAINI=" ++ x)) in E.
  apply split_at_char in E; try apply has_amp_str_int.
  destruct E as [Ec E]. apply str_int_inj in Ec.
  apply (str_app_inv_head "DATAINI=") in E.
  apply str_app_inv_length in E; [| now rewrite !length_strftime_d_m_Y].
  destruct E as [E1 E]. apply (str_app_inv_head "&DATAFIM=") in E.
  split; [exact Ec |]. split; now apply strftime_d_m_Y_inj.
Qed.

Lemma range_url_determines_the_query_witness :
  220 = 220 /\ Sample.jan_1 = Sample.jan_1 /\ Sample.jul_30 = Sample.jul_30.
Proof.
  apply (range_url_determines_the_query 220 220 Sample.jan_1 Sample.jul_30
           Sample.jan_1 Sample.jul_30); reflexivity.
Defined.

(** ** Which HTTP errors the snapshot takes for missing data *)

Lemma prefix_app (p r : string) : String.prefix p (p ++ r) = true.
Proof.
  induction p as [| c p IH]; cbn; [now destruct r |].
  destruct (ascii_dec c c) as [_ | N]; [exact IH | now elim N].
Qed.

Lemma prefix_inv (p s : string) :
  String.prefix p s = true -> exists r, s = p ++ r.
Proof.
  revert s. induction p as [| c p IH]; intros s H.
  - now exists s.
  - destruct s as [| c' s]; cbn in H; [discriminate H |].
    destruct (ascii_dec c c') as [<- | _]; [| discriminate H].
    destruct (IH s H) as (r & ->). now exists r.
Qed.

Lemma prefix_skip (a p s : string) :
  String.prefix (a ++ p) (a ++ s) = String.prefix p s.
Proof.
  induction a as [| c a IH]; cbn; [reflexivity |].
  destruct (ascii_dec c c) as [_ | N]; [exact IH | now elim N].
Qed.

Lemma str_in_absent (c : ascii) (m s : string) :
  has_char c s = false -> str_in (String c m) s = false.
Proof.
  induction s as [| x s IH]; cbn [has_char str_in]; intros H.
  - reflexivity.
  - apply orb_false_elim in H. destruct H as [X H].
    rewrite (IH H), orb_false_r. cbn.
    destruct (ascii_dec c x) as [-> | _]; [| reflexivity].
    rewrite Ascii.eqb_refl in X. discriminate X.
Qed.

Lemma has_char_str_int (c : ascii) (n : Z) :
  is_digit c = false -> c <> "-"%char -> has_char c (str_int n) = false.
Proof.
  intros D M. unfold str_int, nat_digits. destruct (n <? 0) eqn:E.
  - cbn [has_char]. rewrite has_char_digits_of by (assumption || lia).
    destruct (Ascii.eqb_spec "-" c) as [<- | _]; [now elim M | reflexivity].
  - apply has_char_digits_of; [exact D | lia].
Qed.

(** The handler's test on the text of an HTTP error. *)
Lemma not_found_marker_test (code : Z) (reason : string) :
  has_char "H" reason = false ->
  str_in SearchAllCurrenciesPrices.not_found_marker
         (exc_str (http_error code reason)) = true <->
  code = 404 /\ String.prefix "Not Found" reason = true.
Proof.
  intros H. unfold http_error. cbn [exc_str].
  change SearchAllCurrenciesPrices.not_found_marker
    with ("HTTP Error " ++ "404: Not Found").
  change ("HTTP Error " ++ str_int code ++ ": " ++ reason)
    with (String "H" ("TTP Error " ++ str_int code ++ ": " ++ reason)).
  cbn [str_in].
  change (String "H" ("TTP Error " ++ str_int code ++ ": " ++ reason))
    with ("HTTP Error " ++ str_int code ++ ": " ++ reason).
  rewrite prefix_skip.
  replace (str_in ("HTTP Error " ++ "404: Not Found")
             ("TTP Error " ++ str_int code ++ ": " ++ reason)) with false.
  2:{ symmetry. apply (str_in_absent "H").
      rewrite !has_char_app, has_char_str_int by (reflexivity || discriminate).
      now rewrite H. }
  rewrite orb_false_r. split.
  - intros P. apply prefix_inv in P. destruct P as (r & E).
    change ("404: Not Found" ++ r) with ("404" ++ String ":" (" Not Found" ++ r)) in E.
    change (str_int code ++ ": " ++ reason)
      with (str_int code ++ String ":" (" " ++ reason)) in E.
    apply split_at_char in E;
      [| apply has_char_str_int; (reflexivity || discriminate) | reflexivity].
    destruct E as [Ec Er]. split.
    + now apply (str_int_inj code 404).
    + apply (str_app_inv_head " ") in Er. rewrite Er.
      apply (prefix_app "Not Found" r).
  - intros [-> P]. apply prefix_inv in P. destruct P as (r & ->).
    apply (prefix_app "404: Not Found" r).
Qed.

(** X16.  For an HTTP error whose reason phrase has no capital H (every
    standard phrase but that of status 505), the snapshot fetch returns
    the empty table exactly when the status is 404 and the phrase starts
    with "Not Found"; with any other status, or a 404 with another phrase,
    the error reaches the caller. *)
Theorem only_404_not_found_means_no_data :
  forall (env : Env) (self : SearchAllCurrenciesPrices.t) (w : World)
         (code : Z) (reason : string),
    has_char "H" reason = false ->
    read_csv_reply env (List.length (sent w)) (SearchAllCurrenciesPrices.url self)
    = Raised (http_error code reason) ->
    (code = 404 /\ String.prefix "Not Found" reason = true ->
     fst (SearchAllCurrenciesPrices._fetch_data env self w) =
     Ok (mkDataFrame None SearchAllCurrenciesPrices.columns [])) /\
    (~ (code = 404 /\ String.prefix "Not Found" reason = true) ->
     fst (SearchAllCurrenciesPrices._fetch_data env self w) =
     Raised (http_error code reason)).
Proof.
  intros env self w code reason H R.
  rewrite (snapshot_fetch_on_error env self w _ R).
  pose proof (not_found_marker_test code reason H) as T.
  change (is_Exception (exc_cls (http_error code reason))) with true.
  cbn [andb].
  destruct (str_in SearchAllCurrenciesPrices.not_found_marker
              (exc_str (http_error code reason))).
  - split; [reflexivity |]. intros N. elim N. now apply T.
  - split; [| reflexivity]. intros Y. apply T in Y. discriminate Y.
Qed.

Lemma only_404_not_found_means_no_data_witness :
  fst (SearchAllCurrenciesPrices._fetch_data
         (Sample.env_with (Raised (http_error 404 "Not Found")))
         (SearchAllCurrenciesPrices.mk "20210101") fresh)
  = Ok (mkDataFrame None SearchAllCurrenciesPrices.columns []) /\
  fst (SearchAllCurrenciesPrices._fetch_data
         (Sample.env_with (Raised (http_error 403 "Forbidden")))
         (SearchAllCurrenciesPrices.mk "20210101") fresh)
  = Raised (http_error 403 "Forbidden").
Proof.
  split.
  - apply (proj1 (only_404_not_found_means_no_data
                    (Sample.env_with (Raised (http_error 404 "Not Found")))
                    (SearchAllCurrenciesPrices.mk "20210101") fresh 404 "Not Found"
                    eq_refl eq_refl)).
    now split.
  - apply (proj2 (only_404_not_found_means_no_data
                    (Sample.env_with (Raised (http_error 403 "Forbidden")))
                    (SearchAllCurrenciesPrices.mk "20210101") fresh 403 "Forbidden"
                    eq_refl eq_refl)).
    intros [C _]. discriminate C.
Defined.

(** ** The reference dates of the snapshot *)

Lemma regex_lit (c : ascii) (fmt : list directive) (f : fields) (r : string) :
  regex_match (Dir_lit c :: fmt) f (String c r) = regex_match fmt f r.
Proof. cbn [regex_match]. now rewrite Ascii.eqb_refl. Qed.

Lemma compile_d_m_Y :
  compile_format "%d/%m/%Y" = [Dir_d; Dir_lit "/"; Dir_m; Dir_lit "/"; Dir_Y].
Proof. reflexivity. Qed.

Lemma regex_Y_text (f : fields) (y : Z) :
  0 <= y < 10000 ->
  regex_match [Dir_Y] f (fmt_width 4 y) = [(mkfields (f_day f) (f_month f) y, "")].
Proof.
  intros H. cbn [regex_match].
  rewrite <- (str_app_nil_r (fmt_width 4 y)), match_Y_four by exact H.
  reflexivity.
Qed.

Lemma strptime_d_m_Y_text (d : date) :
  date_valid d = true -> in_bounds d = true ->
  strptime_coerce "%d/%m/%Y" (strftime_d_m_Y d) = Stamp d.
Proof.
  intros V B. destruct (date_valid_ranges d V) as (Hy & Hm & Hd).
  unfold strptime_coerce, strftime_d_m_Y. rewrite compile_d_m_Y.
  change (regex_match [Dir_d; Dir_lit "/"; Dir_m; Dir_lit "/"; Dir_Y] default_fields
            (fmt_width 2 (day d) ++ "/" ++ fmt_width 2 (month d) ++ "/" ++
             fmt_width 4 (year d)))
    with (flat_map
            (fun '(v, r) =>
               regex_match [Dir_lit "/"; Dir_m; Dir_lit "/"; Dir_Y]
                 (mkfields v (f_month default_fields) (f_year default_fields)) r)
            (match_d (fmt_width 2 (day d) ++ "/" ++ fmt_width 2 (month d) ++ "/" ++
                      fmt_width 4 (year d)))).
  destruct (match_d_two (day d)
              ("/" ++ fmt_width 2 (month d) ++ "/" ++ fmt_width 4 (year d)) Hd)
    as [l ->].
  cbn [flat_map].
  change ("/" ++ fmt_width 2 (month d) ++ "/" ++ fmt_width 4 (year d))
    with (String "/" (fmt_width 2 (month d) ++ "/" ++ fmt_width 4 (year d))).
  rewrite regex_lit.
  change (regex_match [Dir_m; Dir_lit "/"; Dir_Y] ?f ?s)
    with (flat_map
            (fun '(v, r) =>
               regex_match [Dir_lit "/"; Dir_Y] (mkfields (f_day f) v (f_year f)) r)
            (match_m s)).
  destruct (match_m_two (month d) ("/" ++ fmt_width 4 (year d)) Hm) as [l' ->].
  cbn [flat_map].
  change ("/" ++ fmt_width 4 (year d)) with (String "/" (fmt_width 4 (year d))).
  rewrite regex_lit, regex_Y_text by lia.
  cbn [app f_day f_month f_year].
  destruct d as [y m dd]; cbn [year month day] in *. now rewrite V, B.
Qed.

(** X17.  A row of the snapshot whose reference date cell is the text
    dd/mm/yyyy of a calendar day (one the index can hold) is labelled with
    that day; a cell that is missing (NaN or [None]) gives the label
    [NaT]. *)
Theorem snapshot_reads_reference_dates :
  (forall (d : date) (rest : list Cell),
     date_valid d = true -> in_bounds d = true ->
     fst (cleaned_snapshot_row (VStr (strftime_d_m_Y d) :: rest)) = VTime (Stamp d)) /\
  (forall rest : list Cell,
     fst (cleaned_snapshot_row (VFloat NaN :: rest)) = VTime NaT /\
     fst (cleaned_snapshot_row (VNone :: rest)) = VTime NaT) /\
  fst (cleaned_snapshot_row []) = VTime NaT.
Proof.
  split; [| split; [| reflexivity]].
  - intros d rest V B. unfold cleaned_snapshot_row. cbn [fst fit app firstn nth].
    cbn [to_datetime_cell]. now rewrite strptime_d_m_Y_text.
  - intros rest. split; reflexivity.
Qed.

Lemma snapshot_reads_reference_dates_witness :
  fst (cleaned_snapshot_row [VStr (strftime_d_m_Y Sample.jan_5); VInt 220])
  = VTime (Stamp Sample.jan_5).
Proof.
  apply (proj1 snapshot_reads_reference_dates Sample.jan_5 [VInt 220]); reflexivity.
Defined.

(* ================================================================== *)
(** * Worked examples                                                   *)
(* ================================================================== *)

Example sample_get_data :
  (self <- SearchCurrencyPrice.__init__ 220 Sample.jan_1 Sample.jul_30 ;;
   SearchCurrencyPrice.get_data Sample.env self) fresh =
  (Ok Sample.cleaned,
   mkWorld
     [SearchAvailableCurrencies.url;
      "https://ptax.bcb.gov.br/ptax_internet/consultaBoletim.do?method=gerarCSVFechamentoMoedaNoPeriodo&ChkMoeda=220&DATAINI=01/01/2021&DATAFIM=30/07/2021"]
     []).
Proof. vm_compute. reflexivity. Qed.

(** The catalog is asked again by each [get_data]: code 999 is refused by
    a first call and accepted by a second one, made after the catalog
    gained it. *)
Example catalog_is_fetched_per_call :
  let q := SearchCurrencyPrice.mk 999 "01/01/2021" "30/07/2021" in
  let first := SearchCurrencyPrice.get_data Sample.env_changing q fresh in
  let second := SearchCurrencyPrice.get_data Sample.env_changing q (snd first) in
  fst first = Raised (mkexc AssertionError "Currency code does not exist") /\
  sent (snd first) = [SearchAvailableCurrencies.url] /\
  fst second = Ok Sample.cleaned /\
  sent (snd second) =
  [SearchAvailableCurrencies.url; SearchAvailableCurrencies.url;
   SearchCurrencyPrice.url q].
Proof. vm_compute. repeat split. Qed.

Example strptime_examples :
  strptime_coerce "%d%m%Y" "01012021" = Stamp (mkdate 2021 1 1) /\
  strptime_coerce "%d%m%Y" "99999999" = NaT /\
  strptime_coerce "%d%m%Y" "29022021" = NaT /\
  strptime_coerce "%d%m%Y" "29022020" = Stamp (mkdate 2020 2 29) /\
  strptime_coerce "%d%m%Y" "010120210" = NaT /\
  strptime_coerce "%d/%m/%Y" "04/01/2021" = Stamp (mkdate 2021 1 4) /\
  strptime_coerce "%d/%m/%Y" "4/1/2021" = Stamp (mkdate 2021 1 4).
Proof. repeat split. Qed.

Example str_zfill_examples :
  str_int 1012021 = "1012021" /\ str_int (-42) = "-42" /\ str_int 0 = "0" /\
  zfill 8 "1012021" = "01012021" /\ zfill 5 "-42" = "-0042" /\
  zfill 8 "010120210" = "010120210".
Proof. repeat split. Qed.

Example to_numeric_examples :
  to_numeric_item "5.2345" = Some (Fin (mkdec 52345 (-4))) /\
  to_numeric_item " -1.50e3 " = Some (Fin (mkdec (-15) 2)) /\
  to_numeric_item "nan" = Some NaN /\
  to_numeric_item "" = Some NaN /\
  to_numeric_item "N/D" = None /\
  to_numeric_item "5,2345" = None /\
  to_numeric_item "1e" = None.
Proof. repeat split. Qed.

Example repr_float_examples :
  map repr_float
      [Fin (mkdec 52345 (-4)); Fin (mkdec 1 16); Fin (mkdec 1 15);
       Fin (mkdec 1 (-4)); Fin (mkdec 1 (-5)); Fin (mkdec 5 0); NaN]
  = ["5.2345"; "1e+16"; "1000000000000000.0"; "0.0001"; "1e-05"; "5.0"; "nan"].
Proof. reflexivity. Qed.
